(** * Rabbit-sighting dashboard: loader and filter pipeline

    A shallow embedding of the two Streamlit scripts of the repository,
    [app.py] (the first version) and [appProyectoFinal.py] (the final
    project), and proofs about the loader and the sidebar filters.

    What is embedded from the scripts themselves: the encoding-fallback
    loop, the column coercions and [dropna] of [load_data], the feature
    flags, the session-state defaults and their reset, the four filter
    steps and the empty-view guard.

    What belongs to the libraries the scripts call (pandas, [re],
    Streamlit, the codecs) is either written out from its documented
    behaviour (codecs, [str.strip], [astype(str)], [between], [isin],
    [int], the values the widgets return) or taken as an interface:
    [Pandas] for the CSV reader, the text-to-number and text-to-date
    parsers and the regular-expression engine, [Streamlit] for the
    checks a slider makes before it returns.

    Numbers: a [float64] is one of NaN, the two infinities or a finite
    value; finite values are rationals ([Q]), which is exact for the
    comparisons, minima, maxima and truncations the scripts perform.
    Text: a Python [str] is the Rocq [string] of its UTF-8 bytes, as
    the literals of this file are.  The memoisation of
    [load_data] by [st.cache_data] is left out: a run is a run from a
    cold cache. *)

From Stdlib Require Import List String Ascii Bool Arith ZArith NArith QArith Qround Lia.
From Stdlib Require Import Sorted Permutation.
From Stdlib Require Import Strings.Byte DecimalString.
Import ListNotations.

Close Scope Q_scope.
Local Open Scope string_scope.
Local Open Scope list_scope.

(* ================================================================== *)
(** ** Values *)

(** A [float64] value. *)
Inductive float : Type :=
| NaN
| NegInf
| Fin (q : Q)
| PosInf.

(** [Series.notna] on one element of a float column. *)
Definition notna (f : float) : bool :=
  match f with NaN => false | _ => true end.

(** IEEE [<=]: false as soon as one side is NaN. *)
Definition fle (a b : float) : bool :=
  match a, b with
  | NaN, _ | _, NaN => false
  | NegInf, _ => true
  | _, PosInf => true
  | Fin x, Fin y => Qle_bool x y
  | _, _ => false
  end.

(** A [datetime64[ns]] value: nanoseconds since the epoch, or NaT. *)
Inductive timestamp : Type :=
| NaT
| Ts (ns : Z).

Definition notnat (t : timestamp) : bool :=
  match t with NaT => false | Ts _ => true end.

(** A Python [datetime]: microseconds since the epoch. *)
Definition datetime : Type := Z.

(** [Timestamp.to_pydatetime]: the nanosecond field is dropped. *)
Definition to_pydatetime (ns : Z) : datetime := (ns / 1000)%Z.

(** [pd.to_datetime] of a Python [datetime]. *)
Definition timestamp_of_datetime (d : datetime) : Z := (d * 1000)%Z.

(** An element of a column as [read_csv] leaves it: a number or a
    piece of text.  A missing value is the float NaN; [read_csv] has
    already turned empty fields and its markers for missing values
    ([N/A], [NA], [nan], ...) into it. *)
Inductive cell : Type :=
| CNum (f : float)
| CStr (s : string).

(** Exceptions the modelled code can raise. *)
Inductive exn : Type :=
| UnicodeDecodeError
| FileNotFoundError
| ParserError
| LookupError
| KeyError (key : string)
| ValueError
| OverflowError
| TypeError
| ReError
| StreamlitError.   (* an exception of [streamlit.errors] *)

(** A call that returns or raises. *)
Inductive res (A : Type) : Type :=
| Ok (a : A)
| Raise (e : exn).
Arguments Ok {A} a.
Arguments Raise {A} e.

Definition rbind {A B} (m : res A) (k : A -> res B) : res B :=
  match m with
  | Ok a => k a
  | Raise e => Raise e
  end.

Declare Scope res_scope.
Delimit Scope res_scope with res.
Notation "x <- m ;; k" := (rbind m (fun x => k))
  (at level 61, m at next level, right associativity) : res_scope.

(** The integer part of a rational, rounding toward zero. *)
Definition truncate (q : Q) : Z := Z.quot (Qnum q) (Zpos (Qden q)).

(** [int(x)] on a float: truncation toward zero. *)
Definition py_int (f : float) : res Z :=
  match f with
  | Fin q => Ok (truncate q)
  | NaN => Raise ValueError
  | NegInf | PosInf => Raise OverflowError
  end.

(* ================================================================== *)
(** ** Text helpers *)

Definition is_upper (c : ascii) : bool :=
  let n := nat_of_ascii c in ((65 <=? n) && (n <=? 90))%nat.

Definition lower_ascii (c : ascii) : ascii :=
  if is_upper c then ascii_of_nat (nat_of_ascii c + 32) else c.

Fixpoint lower (s : string) : string :=
  match s with
  | EmptyString => EmptyString
  | String c t => String (lower_ascii c) (lower t)
  end.

Fixpoint starts_with (p s : string) : bool :=
  match p, s with
  | EmptyString, _ => true
  | String a p', String b s' => Ascii.eqb a b && starts_with p' s'
  | String _ _, EmptyString => false
  end.

(** [needle in hay]. *)
Fixpoint contains (needle hay : string) : bool :=
  starts_with needle hay ||
  match hay with
  | EmptyString => false
  | String _ t => contains needle t
  end.

(** Substring test ignoring the case of ASCII letters. *)
Definition icontains (needle hay : string) : bool :=
  contains (lower needle) (lower hay).

(** White space as [str.strip] knows it, the characters for which
    [str.isspace] holds: U+0009 to U+000D, U+001C to U+0020, U+0085,
    U+00A0, U+1680, U+2000 to U+200A, U+2028, U+2029, U+202F, U+205F
    and U+3000.  Those below U+0080 are one byte of the string, the
    others two or three. *)
Definition is_space (c : ascii) : bool :=
  let n := nat_of_ascii c in
  (((9 <=? n) && (n <=? 13)) || ((28 <=? n) && (n <=? 32)))%nat.

Definition byte_is (c : ascii) (n : nat) : bool := (nat_of_ascii c =? n)%nat.

(** U+0085 ([C2 85]) and U+00A0 ([C2 A0]). *)
Definition is_space2 (a b : ascii) : bool :=
  byte_is a 194 && (byte_is b 133 || byte_is b 160).

(** U+1680 ([E1 9A 80]); U+2000 to U+200A, U+2028, U+2029 and U+202F
    ([E2 80 80] to [E2 80 8A], [E2 80 A8], [E2 80 A9], [E2 80 AF]);
    U+205F ([E2 81 9F]); U+3000 ([E3 80 80]). *)
Definition is_space3 (a b c : ascii) : bool :=
  let n := nat_of_ascii c in
  (byte_is a 225 && byte_is b 154 && byte_is c 128) ||
  (byte_is a 226 && byte_is b 128 &&
   (((128 <=? n) && (n <=? 138)) || (n =? 168) || (n =? 169) || (n =? 175))%nat) ||
  (byte_is a 226 && byte_is b 129 && byte_is c 159) ||
  (byte_is a 227 && byte_is b 128 && byte_is c 128).

(** The white space at the head of a list of bytes removed; [s1], [s2]
    and [s3] recognise a character of one, two and three bytes. *)
Fixpoint lstrip_with (s1 : ascii -> bool) (s2 : ascii -> ascii -> bool)
    (s3 : ascii -> ascii -> ascii -> bool) (l : list ascii) : list ascii :=
  match l with
  | a :: t =>
      if s1 a then lstrip_with s1 s2 s3 t
      else
        match t with
        | b :: t2 =>
            if s2 a b then lstrip_with s1 s2 s3 t2
            else
              match t2 with
              | c :: t3 => if s3 a b c then lstrip_with s1 s2 s3 t3 else l
              | [] => l
              end
        | [] => l
        end
  | [] => []
  end.

Definition lstrip_chars (l : list ascii) : list ascii :=
  lstrip_with is_space is_space2 is_space3 l.

(** The same on a reversed list, where the bytes of a character come
    last byte first. *)
Definition lstrip_reversed (l : list ascii) : list ascii :=
  lstrip_with is_space (fun b a => is_space2 a b) (fun c b a => is_space3 a b c) l.

(** [str.strip()]. *)
Definition strip (s : string) : string :=
  string_of_list_ascii
    (rev (lstrip_reversed (rev (lstrip_chars (list_ascii_of_string s))))).

(** [x in xs] for strings. *)
Definition mem (x : string) (xs : list string) : bool :=
  existsb (String.eqb x) xs.

(* ================================================================== *)
(** ** Codecs

    The three encodings of the fallback loop, as Python's codecs decode
    them with [errors="strict"]: a byte string becomes a list of code
    points, or decoding fails ([UnicodeDecodeError]). *)

Inductive codec : Type := Utf8 | Latin1 | Cp1252.

(** [codecs.lookup]. *)
Definition codec_of (enc : string) : option codec :=
  if String.eqb enc "utf-8" then Some Utf8
  else if String.eqb enc "latin1" then Some Latin1
  else if String.eqb enc "cp1252" then Some Cp1252
  else None.

Definition decode_latin1 (bs : list byte) : option (list N) :=
  Some (map Byte.to_N bs).

Definition cp1252_char (b : N) : option N :=
  (if b <? 128 then Some b
   else if 160 <=? b then Some b
   else match b with
        | 128 => Some 8364 | 130 => Some 8218 | 131 => Some 402
        | 132 => Some 8222 | 133 => Some 8230 | 134 => Some 8224
        | 135 => Some 8225 | 136 => Some 710  | 137 => Some 8240
        | 138 => Some 352  | 139 => Some 8249 | 140 => Some 338
        | 142 => Some 381
        | 145 => Some 8216 | 146 => Some 8217 | 147 => Some 8220
        | 148 => Some 8221 | 149 => Some 8226 | 150 => Some 8211
        | 151 => Some 8212 | 152 => Some 732  | 153 => Some 8482
        | 154 => Some 353  | 155 => Some 8250 | 156 => Some 339
        | 158 => Some 382  | 159 => Some 376
        | _ => None
        end)%N.

Fixpoint decode_cp1252 (bs : list byte) : option (list N) :=
  match bs with
  | [] => Some []
  | b :: t =>
      match cp1252_char (Byte.to_N b), decode_cp1252 t with
      | Some c, Some cs => Some (c :: cs)
      | _, _ => None
      end
  end.

(** State of the UTF-8 decoder inside a multi-byte sequence: how many
    continuation bytes are still due, the bits gathered so far and the
    range allowed for the next byte. *)
Record utf8_pending : Type := {
  due : nat;
  acc : N;
  lo : N;
  hi : N
}.

Definition utf8_lead (b : N) : option (N + utf8_pending) :=
  (if b <? 128 then Some (inl b)
   else if (194 <=? b) && (b <=? 223)
     then Some (inr {| due := 1; acc := b - 192; lo := 128; hi := 191 |})
   else if b =? 224
     then Some (inr {| due := 2; acc := 0; lo := 160; hi := 191 |})
   else if b =? 237
     then Some (inr {| due := 2; acc := 13; lo := 128; hi := 159 |})
   else if (225 <=? b) && (b <=? 239)
     then Some (inr {| due := 2; acc := b - 224; lo := 128; hi := 191 |})
   else if b =? 240
     then Some (inr {| due := 3; acc := 0; lo := 144; hi := 191 |})
   else if b =? 244
     then Some (inr {| due := 3; acc := 4; lo := 128; hi := 143 |})
   else if (241 <=? b) && (b <=? 243)
     then Some (inr {| due := 3; acc := b - 240; lo := 128; hi := 191 |})
   else None)%N.

Fixpoint utf8_go (st : option utf8_pending) (bs : list byte) : option (list N) :=
  match bs with
  | [] => match st with None => Some [] | Some _ => None end
  | b :: t =>
      let n := Byte.to_N b in
      match st with
      | None =>
          match utf8_lead n with
          | Some (inl c) => option_map (cons c) (utf8_go None t)
          | Some (inr p) => utf8_go (Some p) t
          | None => None
          end
      | Some p =>
          if ((lo p <=? n) && (n <=? hi p))%N then
            let a := (acc p * 64 + (n - 128))%N in
            match due p with
            | S (S k) =>
                utf8_go (Some {| due := S k; acc := a; lo := 128; hi := 191 |}) t
            | _ => option_map (cons a) (utf8_go None t)
            end
          else None
      end
  end.

Definition decode_utf8 (bs : list byte) : option (list N) := utf8_go None bs.

(** [bytes.decode(enc)]. *)
Definition decode (c : codec) (bs : list byte) : option (list N) :=
  match c with
  | Utf8 => decode_utf8 bs
  | Latin1 => decode_latin1 bs
  | Cp1252 => decode_cp1252 bs
  end.

(* ================================================================== *)
(** ** The Streamlit run

    A script run writes to the page and may end early: [st.stop()] ends
    the run without an exception.  A computation threads the list of
    what happened so far (oldest first) and returns a value, stops, or
    raises. *)

Inductive event : Type :=
| ReadCsv (path enc : string)    (* a call [pd.read_csv(path, encoding=enc)] *)
| StError (msg : string)         (* [st.error(msg)] *)
| StWarning (msg : string).      (* [st.warning(msg)] *)

Inductive outcome (A : Type) : Type :=
| Done (a : A)
| Stopped
| Raised (e : exn).
Arguments Done {A} a.
Arguments Stopped {A}.
Arguments Raised {A} e.

Definition St (A : Type) : Type := list event -> outcome A * list event.

Definition ret {A} (a : A) : St A := fun log => (Done a, log).

Definition bind {A B} (m : St A) (k : A -> St B) : St B :=
  fun log =>
    match m log with
    | (Done a, log') => k a log'
    | (Stopped, log') => (Stopped, log')
    | (Raised e, log') => (Raised e, log')
    end.

Definition emit (ev : event) : St unit := fun log => (Done tt, log ++ [ev]).
Definition st_error (msg : string) : St unit := emit (StError msg).
Definition st_warning (msg : string) : St unit := emit (StWarning msg).
Definition st_stop {A} : St A := fun log => (Stopped, log).
Definition raise {A} (e : exn) : St A := fun log => (Raised e, log).

Definition lift {A} (r : res A) : St A :=
  match r with
  | Ok a => ret a
  | Raise e => raise e
  end.

Declare Scope st_scope.
Delimit Scope st_scope with st.
Notation "x <- m ;; k" := (bind m (fun x => k))
  (at level 61, m at next level, right associativity) : st_scope.
Notation "m ;; k" := (bind m (fun _ => k))
  (at level 61, right associativity) : st_scope.

(* ================================================================== *)
(** ** Frames *)

(** A row of the frame [read_csv] returns, restricted to the six columns
    the scripts name; every other column is carried along untouched and
    left out.  A field is named after the header with its surrounding
    white space removed.  The field of a column that the file does not
    have is never read: every access is behind a test on the header. *)
Record RawRow : Type := {
  raw_Especie : cell;
  raw_Latitud : cell;
  raw_Longitud : cell;
  raw_Lugar : cell;
  raw_Fecha : cell;
  raw_Altitud : cell
}.

Record RawFrame : Type := {
  raw_columns : list string;      (* the header as read *)
  raw_rows : list RawRow
}.

(** What the scripts take from pandas and [re] without the repository
    saying how it is computed. *)
Class Pandas : Type := {
  (** [pd.read_csv(path, encoding=enc)]. *)
  read_csv : string -> string -> res RawFrame;
  (** [pd.to_numeric] on one piece of text; [None] when it is not a
      number. *)
  str_to_float : string -> option float;
  (** Python's [float(s)], which [astype(float)] applies to text;
      [None] when it raises [ValueError]. *)
  float_of_str : string -> option float;
  (** [pd.to_datetime(column, errors="coerce")] at one element; the
      whole column is passed too because pandas guesses the date format
      from it. *)
  parse_datetime : list cell -> cell -> timestamp;
  (** [str(x)] for a finite float. *)
  repr_fin : Q -> string;
  (** [re.compile(pat, re.IGNORECASE)], [None] when it raises
      [re.error], and [regex.search]. *)
  regex : Type;
  re_compile_i : string -> option regex;
  re_search : regex -> string -> bool
}.

(** What the final script takes from Streamlit without the repository
    saying how it is decided: the checks [st.slider] makes on its
    bounds and on the value the session holds under its key ([None]
    when the key is not set) before it returns.  The answer [None] is a
    slider that passes them, [Some e] one that raises [e]. *)
Class Streamlit : Type := {
  (** [st.slider(min_value=lo, max_value=hi, step=step, key=k)] on
      integers. *)
  slider_int_check : Z -> Z -> Z -> option (Z * Z) -> option exn;
  (** [st.slider(min_value=lo, max_value=hi, key=k)] on [datetime]
      values. *)
  slider_datetime_check :
    datetime -> datetime -> option (datetime * datetime) -> option exn
}.

(** [pd.to_numeric(column, errors="coerce")] at one element. *)
Definition to_numeric `{Pandas} (c : cell) : float :=
  match c with
  | CNum f => f
  | CStr s => match str_to_float s with Some f => f | None => NaN end
  end.

(** [column.astype(str)] at one element of an [object] or [float64]
    column: every value goes through [str], so a missing value becomes
    the text [nan]. *)
Definition astype_str `{Pandas} (c : cell) : string :=
  match c with
  | CStr s => s
  | CNum NaN => "nan"
  | CNum PosInf => "inf"
  | CNum NegInf => "-inf"
  | CNum (Fin q) => repr_fin q
  end.

(** [column.astype(float)] at one element. *)
Definition astype_float `{Pandas} (c : cell) : res float :=
  match c with
  | CNum f => Ok f
  | CStr s => match float_of_str s with Some f => Ok f | None => Raise ValueError end
  end.

(** [column.isna()] at one element of an [object] column. *)
Definition cell_isna (c : cell) : bool :=
  match c with
  | CNum NaN => true
  | _ => false
  end.

(** The [for enc in [...]: try ... break / except UnicodeDecodeError:
    continue / else: st.error(msg); st.stop()] loop that opens both
    versions of [load_data]; [msg] is the text each version shows. *)
Fixpoint try_encodings `{Pandas} (msg path : string) (encs : list string) : St RawFrame :=
  match encs with
  | [] => (st_error msg ;; st_stop)%st
  | enc :: rest =>
      (emit (ReadCsv path enc) ;;
       match read_csv path enc with
       | Ok df => ret df
       | Raise UnicodeDecodeError => try_encodings msg path rest
       | Raise e => raise e
       end)%st
  end.

Definition encodings : list string := ["utf-8"; "latin1"; "cp1252"].

(* ================================================================== *)
(** ** [appProyectoFinal.py] *)

Module appProyectoFinal.

(** A row after [load_data]: each coerced column has its pandas dtype
    ([float64] with NaN for missing, [datetime64] with NaT, text).
    [Lugar] is left as read. *)
Record Row : Type := {
  Especie : string;
  Latitud : float;
  Longitud : float;
  Lugar : cell;
  Fecha : timestamp;
  Altitud : float
}.

Record DataFrame : Type := {
  columns : list string;
  rows : list Row
}.

(** [DataFrame.empty]: one of the two axes has length 0. *)
Definition empty (d : DataFrame) : bool :=
  match rows d, columns d with
  | [], _ | _, [] => true
  | _, _ => false
  end.

(** [d[mask]] for a mask computed row by row. *)
Definition select (p : Row -> bool) (d : DataFrame) : DataFrame :=
  {| columns := columns d; rows := filter p (rows d) |}.

Section Loader.
Context `{Pandas}.

Definition read_error_msg : string :=
  "Error de lectura de datos (UTF-8/latin1/cp1252).".

(** Lines 28-36 at one row: the coercions of [Latitud], [Longitud],
    [Especie], and of [Altitud] and [Fecha] when the header [cols] has
    them.  [fechas] is the whole [Fecha] column. *)
Definition coerce (cols : list string) (fechas : list cell) (r : RawRow) : Row :=
  {| Latitud := to_numeric (raw_Latitud r);
     Longitud := to_numeric (raw_Longitud r);
     Especie := astype_str (raw_Especie r);
     Altitud := if mem "Altitud" cols then to_numeric (raw_Altitud r) else NaN;
     Fecha := if mem "Fecha" cols then parse_datetime fechas (raw_Fecha r) else NaT;
     Lugar := raw_Lugar r |}.

(** [df.dropna(subset=["Latitud", "Longitud"])] keeps these rows. *)
Definition has_coordinates (r : Row) : bool :=
  notna (Latitud r) && notna (Longitud r).

(** Lines 25-41: the body of [load_data] after the file is read.  A
    column the code indexes without a test raises [KeyError] when the
    header lacks it. *)
Definition clean (raw : RawFrame) : res DataFrame :=
  let cols := map strip (raw_columns raw) in
  if negb (mem "Latitud" cols) then Raise (KeyError "Latitud")
  else if negb (mem "Longitud" cols) then Raise (KeyError "Longitud")
  else if negb (mem "Especie" cols) then Raise (KeyError "Especie")
  else
    let fechas := map raw_Fecha (raw_rows raw) in
    Ok {| columns := cols;
          rows := filter has_coordinates (map (coerce cols fechas) (raw_rows raw)) |}.

Definition load_data (path : string) : St DataFrame :=
  (raw <- try_encodings read_error_msg path encodings ;;
   lift (clean raw))%st.

End Loader.

(** *** Script globals (lines 58-68) *)

Fixpoint insert_sorted (x : string) (l : list string) : list string :=
  match l with
  | [] => [x]
  | y :: t => if String.leb x y then x :: l else y :: insert_sorted x t
  end.

(** [sorted(xs)] on strings. *)
Definition sorted (l : list string) : list string :=
  fold_right insert_sorted [] l.

(** [Series.unique()]: first occurrences, in order. *)
Definition unique (l : list string) : list string :=
  fold_left (fun seen x => if mem x seen then seen else seen ++ [x]) l [].

Definition species_options (d : DataFrame) : list string :=
  sorted (unique (map Especie (rows d))).

Definition fmin (a b : float) : float := if fle a b then a else b.
Definition fmax (a b : float) : float := if fle a b then b else a.

(** [Series.min()] and [Series.max()] of a float column: missing values
    are skipped, and the result is NaN when nothing is left. *)
Definition series_min (l : list float) : float :=
  match filter notna l with
  | [] => NaN
  | x :: t => fold_left fmin t x
  end.

Definition series_max (l : list float) : float :=
  match filter notna l with
  | [] => NaN
  | x :: t => fold_left fmax t x
  end.

Definition tmin (a b : timestamp) : timestamp :=
  match a, b with
  | Ts x, Ts y => Ts (Z.min x y)
  | NaT, t | t, NaT => t
  end.

Definition tmax (a b : timestamp) : timestamp :=
  match a, b with
  | Ts x, Ts y => Ts (Z.max x y)
  | NaT, t | t, NaT => t
  end.

(** The same for a date column (NaT when nothing is left). *)
Definition dates_min (l : list timestamp) : timestamp := fold_right tmin NaT l.
Definition dates_max (l : list timestamp) : timestamp := fold_right tmax NaT l.

(** Line 60. *)
Definition has_fecha (d : DataFrame) : bool :=
  mem "Fecha" (columns d) && existsb (fun r => notnat (Fecha r)) (rows d).

(** Line 65. *)
Definition has_alt (d : DataFrame) : bool :=
  mem "Altitud" (columns d) && existsb (fun r => notna (Altitud r)) (rows d).

(** Lines 62-63: [df["Fecha"].min().to_pydatetime()] and the same for
    [max]; [None] stands for the NaT an all-missing column would give,
    which [has_fecha] rules out. *)
Definition global_min_dt (d : DataFrame) : option datetime :=
  match dates_min (map Fecha (rows d)) with
  | Ts a => Some (to_pydatetime a)
  | NaT => None
  end.

Definition global_max_dt (d : DataFrame) : option datetime :=
  match dates_max (map Fecha (rows d)) with
  | Ts b => Some (to_pydatetime b)
  | NaT => None
  end.

(** Lines 61-63: the pair is bound only when [has_fecha]. *)
Definition fecha_bounds (d : DataFrame) : option (datetime * datetime) :=
  if has_fecha d then
    match global_min_dt d, global_max_dt d with
    | Some a, Some b => Some (a, b)
    | _, _ => None
    end
  else None.

(** Lines 67-68; [int] raises on an infinite altitude. *)
Definition global_alt_min (d : DataFrame) : res Z :=
  py_int (series_min (map Altitud (rows d))).

Definition global_alt_max (d : DataFrame) : res Z :=
  py_int (series_max (map Altitud (rows d))).

(** Lines 66-68: the pair is bound only when [has_alt]. *)
Definition alt_bounds (d : DataFrame) : res (option (Z * Z)) :=
  if has_alt d then
    (a <- global_alt_min d ;;
     b <- global_alt_max d ;;
     Ok (Some (a, b)))%res
  else Ok None.

(** *** Session state and widgets (lines 74-125) *)

(** [st.session_state], restricted to the four filter keys; [None] is a
    key that is not set. *)
Record SessionState : Type := {
  species_filter : option (list string);
  lugar_filter : option string;
  fecha_filter : option (datetime * datetime);
  alt_filter : option (Z * Z)
}.

Definition or_else {A} (o d : option A) : option A :=
  match o with Some _ => o | None => d end.

(** Lines 74-81: a key that is not set gets its default. *)
Definition init_session (d : DataFrame) (alts : option (Z * Z)) (ss : SessionState)
  : SessionState :=
  {| species_filter := or_else (species_filter ss) (Some (species_options d));
     lugar_filter := or_else (lugar_filter ss) (Some "");
     fecha_filter := or_else (fecha_filter ss) (fecha_bounds d);
     alt_filter := or_else (alt_filter ss) alts |}.

(** Lines 83-89: the callback of the reset button. *)
Definition reset_filters (d : DataFrame) (alts : option (Z * Z)) (ss : SessionState)
  : SessionState :=
  {| species_filter := Some (species_options d);
     lugar_filter := Some "";
     fecha_filter := or_else (fecha_bounds d) (fecha_filter ss);
     alt_filter := or_else alts (alt_filter ss) |}.

(** The filter criteria of one run: what the four widgets return. *)
Record Criteria : Type := {
  selected_species : list string;
  lugar_text : string;
  start_dt : option datetime;
  end_dt : option datetime;
  alt_min_sel : option Z;
  alt_max_sel : option Z
}.

(** [st.multiselect(options=options, key=k)]: of the values the
    session holds under the key, those that are options; nothing when
    the key is not set. *)
Definition st_multiselect (options : list string) (stored : option (list string))
  : list string :=
  match stored with
  | Some l => filter (fun s => mem s options) l
  | None => []
  end.

(** [st.text_input(key=k)]: the text under the key. *)
Definition st_text_input (stored : option string) : string :=
  match stored with
  | Some s => s
  | None => ""
  end.

(** [lo, hi = st.slider(..., key=k)]: a slider that passes its checks
    returns the value under its key.  When the key is not set it
    returns a single value, and the assignment to two names raises
    [TypeError]. *)
Definition st_slider_pair {A} (check : option exn) (stored : option (A * A))
  : res (A * A) :=
  match check with
  | Some e => Raise e
  | None =>
      match stored with
      | Some v => Ok v
      | None => Raise TypeError
      end
  end.

(** Lines 94-125: the four widgets in the order of the script.  The
    two sliders exist only when their feature does, with the bounds of
    lines 62-63 and 67-68, and the pair is [None, None] otherwise. *)
Definition read_widgets `{Streamlit} (d : DataFrame) (ss : SessionState)
  : res Criteria :=
  (let selected_species := st_multiselect (species_options d) (species_filter ss) in
   let lugar_text := st_text_input (lugar_filter ss) in
   fechas <- match fecha_bounds d with
             | Some (lo, hi) =>
                 p <- st_slider_pair (slider_datetime_check lo hi (fecha_filter ss))
                        (fecha_filter ss) ;;
                 Ok (Some (fst p), Some (snd p))
             | None => Ok (None, None)
             end ;;
   bounds <- alt_bounds d ;;
   alts <- match bounds with
           | Some (lo, hi) =>
               p <- st_slider_pair (slider_int_check lo hi 10 (alt_filter ss))
                      (alt_filter ss) ;;
               Ok (Some (fst p), Some (snd p))
           | None => Ok (None, None)
           end ;;
   Ok {| selected_species := selected_species;
         lugar_text := lugar_text;
         start_dt := fst fechas;
         end_dt := snd fechas;
         alt_min_sel := fst alts;
         alt_max_sel := snd alts |})%res.

(** *** The filters (lines 129-153) *)

(** [Series.between(lo, hi, inclusive="both")] on a float column:
    [(x >= lo) & (x <= hi)]. *)
Definition between (lo hi x : float) : bool := fle lo x && fle x hi.

(** The same on a date column; NaT compares false. *)
Definition ts_between (lo hi : Z) (t : timestamp) : bool :=
  match t with
  | NaT => false
  | Ts n => ((lo <=? n) && (n <=? hi))%Z
  end.

(** An [int] bound of the altitude slider, compared with a float. *)
Definition float_of_int (z : Z) : float := Fin (inject_Z z).

Section Filters.
Context `{Pandas}.

(** [Series.str.contains(pat, case=False, na=na)] at one element, with
    the pattern already compiled: [na] is the answer for an element that
    is not text. *)
Definition str_contains (rx : regex) (na : bool) (x : cell) : bool :=
  match x with
  | CStr s => re_search rx s
  | CNum _ => na
  end.

(** Lines 131-132. *)
Definition species_step (c : Criteria) (d : DataFrame) : DataFrame :=
  match selected_species c with
  | [] => d
  | _ :: _ => select (fun r => mem (Especie r) (selected_species c)) d
  end.

(** Lines 134-137.  The column is turned into text before the search,
    and the pattern is a regular expression ([regex=True] is the
    default of [str.contains]). *)
Definition lugar_step (c : Criteria) (d : DataFrame) : res DataFrame :=
  if String.eqb (lugar_text c) "" then Ok d
  else if negb (mem "Lugar" (columns d)) then Raise (KeyError "Lugar")
  else
    match re_compile_i (lugar_text c) with
    | None => Raise ReError
    | Some rx =>
        Ok (select (fun r => str_contains rx false (CStr (astype_str (Lugar r)))) d)
    end.

(** Lines 139-144; a [datetime] is always true in a condition. *)
Definition fecha_step (hf : bool) (c : Criteria) (d : DataFrame) : DataFrame :=
  if hf then
    match start_dt c, end_dt c with
    | Some s, Some e =>
        select (fun r => ts_between (timestamp_of_datetime s)
                                    (timestamp_of_datetime e) (Fecha r)) d
    | _, _ => d
    end
  else d.

(** Lines 146-149. *)
Definition alt_step (ha : bool) (c : Criteria) (d : DataFrame) : DataFrame :=
  if ha then
    match alt_min_sel c, alt_max_sel c with
    | Some a, Some b =>
        select (fun r => between (float_of_int a) (float_of_int b) (Altitud r)) d
    | _, _ => d
    end
  else d.

(** Lines 129-149: the four steps in sequence on a copy of the
    dataset; [hf] and [ha] are the flags [has_fecha] and [has_alt]. *)
Definition filter_pipeline (hf ha : bool) (c : Criteria) (d : DataFrame)
  : res DataFrame :=
  (let filtered_df := d in
   let filtered_df := species_step c filtered_df in
   filtered_df <- lugar_step c filtered_df ;;
   let filtered_df := fecha_step hf c filtered_df in
   let filtered_df := alt_step ha c filtered_df in
   Ok filtered_df)%res.

(** The two frames the script holds from line 129 on. *)
Record Vars : Type := {
  df : DataFrame;
  filtered_df : DataFrame
}.

(** Lines 129-149 as a step on the script's variables: only
    [filtered_df] is assigned. *)
Definition filter_stage (hf ha : bool) (c : Criteria) (v : Vars) : res Vars :=
  (f <- filter_pipeline hf ha c (df v) ;;
   Ok {| df := df v; filtered_df := f |})%res.

Definition no_match_msg : string :=
  "No hay registros que coincidan con los filtros seleccionados.".

(** Lines 151-153. *)
Definition empty_guard (v : Vars) : St Vars :=
  if empty (filtered_df v)
  then (st_warning no_match_msg ;; st_stop)%st
  else ret v.

(** Lines 129-153 together: the filters, then the guard. *)
Definition filter_and_guard (hf ha : bool) (c : Criteria) (v : Vars) : St Vars :=
  (v' <- lift (filter_stage hf ha c v) ;; empty_guard v')%st.

Definition no_coordinates_msg : string :=
  "No hay registros con latitud/longitud válidos.".

(** One run of the script up to the tabs, from the session state the
    previous run (or the user's last action) left. *)
Definition script `{Streamlit} (ss : SessionState) : St (SessionState * Vars) :=
  (d <- load_data "conejos.csv" ;;
   if empty d then (st_warning no_coordinates_msg ;; st_stop)
   else
     alts <- lift (alt_bounds d) ;;
     let ss := init_session d alts ss in
     c <- lift (read_widgets d ss) ;;
     v <- filter_and_guard (has_fecha d) (has_alt d) c
            {| df := d; filtered_df := d |} ;;
     ret (ss, v))%st.

End Filters.

End appProyectoFinal.

(* ================================================================== *)
(** ** [app.py] *)

Module app.

(** A row after this version's [load_data]: only the coordinates and
    the species are converted. *)
Record Row : Type := {
  Especie : string;
  Latitud : float;
  Longitud : float;
  Lugar : cell;
  Fecha : cell;
  Altitud : cell
}.

Record DataFrame : Type := {
  columns : list string;
  rows : list Row
}.

(** A conversion applied down a column: the first element that raises
    ends it. *)
Fixpoint traverse {A B} (f : A -> res B) (l : list A) : res (list B) :=
  match l with
  | [] => Ok []
  | x :: t => (y <- f x ;; ys <- traverse f t ;; Ok (y :: ys))%res
  end.

Section Loader.
Context `{Pandas}.

Definition read_error_msg : string :=
  "Error de lectura de datos(UTF-8/latin1/cp1252).".

(** [df.dropna(subset=["Latitud", "Longitud"])] on the frame as read. *)
Definition has_coordinates (r : RawRow) : bool :=
  negb (cell_isna (raw_Latitud r)) && negb (cell_isna (raw_Longitud r)).

Definition build (r : RawRow) (coords : float * float) : Row :=
  {| Especie := astype_str (raw_Especie r);
     Latitud := fst coords;
     Longitud := snd coords;
     Lugar := raw_Lugar r;
     Fecha := raw_Fecha r;
     Altitud := raw_Altitud r |}.

(** Lines 26-30: rows without coordinates are dropped first, then the
    two columns are converted with [astype(float)], which raises on
    text that is not a number. *)
Definition clean (raw : RawFrame) : res DataFrame :=
  let cols := raw_columns raw in
  if negb (mem "Latitud" cols) then Raise (KeyError "Latitud")
  else if negb (mem "Longitud" cols) then Raise (KeyError "Longitud")
  else
    let kept := filter has_coordinates (raw_rows raw) in
    (lats <- traverse astype_float (map raw_Latitud kept) ;;
     lons <- traverse astype_float (map raw_Longitud kept) ;;
     if negb (mem "Especie" cols) then Raise (KeyError "Especie")
     else Ok {| columns := cols;
                rows := map (fun p => build (fst p) (snd p))
                            (combine kept (combine lats lons)) |})%res.

Definition load_data (path : string) : St DataFrame :=
  (raw <- try_encodings read_error_msg path encodings ;;
   lift (clean raw))%st.

End Loader.

End app.

(* ================================================================== *)
(** ** A small stand-in for the libraries

    One instance of [Pandas] to run the definitions on concrete frames:
    plain decimal numbers, epoch numbers as dates, and a pattern engine
    that takes patterns without metacharacters only; and one instance
    of [Streamlit], whose sliders refuse bounds that are not in order,
    integer bounds a browser cannot hold, and a value outside the
    bounds.  The theorems below hold for every instance; these show
    their assumptions can be met. *)

Module Sample.

Definition digit (c : ascii) : option Z :=
  let n := nat_of_ascii c in
  if ((48 <=? n) && (n <=? 57))%nat then Some (Z.of_nat (n - 48)) else None.

Fixpoint parse_digits (s : string) (acc : Z) : option Z :=
  match s with
  | EmptyString => Some acc
  | String c t =>
      match digit c with
      | Some d => parse_digits t (10 * acc + d)%Z
      | None => None
      end
  end.

Fixpoint split_dot (s : string) : string * option string :=
  match s with
  | EmptyString => (EmptyString, None)
  | String c t =>
      if Ascii.eqb c "."%char then (EmptyString, Some t)
      else let (a, b) := split_dot t in (String c a, b)
  end.

Definition parse_unsigned (s : string) : option Q :=
  let (ip, fp) := split_dot s in
  match ip, parse_digits ip 0 with
  | String _ _, Some i =>
      match fp with
      | None => Some (inject_Z i)
      | Some f =>
          match parse_digits f 0 with
          | Some n =>
              let den := Pos.pow 10 (Pos.of_succ_nat (String.length f)) in
              Some (Qmake (i * Zpos den + 10 * n) den)
          | None => None
          end
      end
  | _, _ => None
  end.

(** Decimal numbers with an optional minus sign: [12], [-84.05]. *)
Definition parse_decimal (s : string) : option float :=
  match s with
  | String c t =>
      if Ascii.eqb c "-"%char
      then option_map (fun q => Fin (Qopp q)) (parse_unsigned t)
      else option_map Fin (parse_unsigned s)
  | EmptyString => None
  end.

(** A character a pattern may hold for this engine: letters, digits,
    space, comma. *)
Definition plain_char (c : ascii) : bool :=
  let n := nat_of_ascii c in
  (((97 <=? n) && (n <=? 122)) || ((65 <=? n) && (n <=? 90)) ||
   ((48 <=? n) && (n <=? 57)) || (n =? 32) || (n =? 44))%nat.

Definition plain (s : string) : bool :=
  forallb plain_char (list_ascii_of_string s).

Definition ascii_only (s : string) : bool :=
  forallb (fun c => (nat_of_ascii c <? 128)%nat) (list_ascii_of_string s).

Definition compile_plain (pat : string) : option string :=
  if plain pat then Some pat else None.

Definition epoch_datetime (column : list cell) (c : cell) : timestamp :=
  match c with
  | CNum (Fin q) => Ts (Qfloor q)
  | CStr s => match parse_digits s 0 with
              | Some n => match s with EmptyString => NaT | _ => Ts n end
              | None => NaT
              end
  | _ => NaT
  end.

Definition show_Z (z : Z) : string := NilZero.string_of_int (Z.to_int z).

(** Whole numbers print as Python prints them ([12.0]); the others as a
    fraction. *)
Definition repr_sample (q : Q) : string :=
  if (Zpos (Qden q) =? 1)%Z
  then show_Z (Qnum q) ++ ".0"
  else show_Z (Qnum q) ++ "/" ++ show_Z (Zpos (Qden q)).

(** The instance, for a given behaviour of [read_csv]. *)
Definition pandas (reader : string -> string -> res RawFrame) : Pandas :=
  {| read_csv := reader;
     str_to_float := parse_decimal;
     float_of_str := parse_decimal;
     parse_datetime := epoch_datetime;
     repr_fin := repr_sample;
     regex := string;
     re_compile_i := compile_plain;
     re_search := icontains |}.

(** [read_csv] over a file system [fs] and a tokenizer [table]: the
    bytes are decoded with the codec named, then split into a frame. *)
Definition reader_of (fs : string -> option (list byte))
    (table : list N -> res RawFrame) (path enc : string) : res RawFrame :=
  match fs path with
  | None => Raise FileNotFoundError
  | Some bs =>
      match codec_of enc with
      | None => Raise LookupError
      | Some c =>
          match decode c bs with
          | None => Raise UnicodeDecodeError
          | Some text => table text
          end
      end
  end.

(** The largest size of an integer a slider takes: [2^53 - 1]. *)
Definition js_safe (z : Z) : bool := (Z.abs z <=? 9007199254740991)%Z.

Definition within (lo hi x : Z) : bool := ((lo <=? x) && (x <=? hi))%Z.

(** The lower bound is below the upper one and both ends of the value
    under the key are within them. *)
Definition range_check (lo hi : Z) (stored : option (Z * Z)) : option exn :=
  if (hi <=? lo)%Z then Some StreamlitError
  else
    match stored with
    | Some (a, b) =>
        if within lo hi a && within lo hi b then None else Some StreamlitError
    | None => None
    end.

Definition streamlit : Streamlit :=
  {| slider_int_check := fun lo hi step stored =>
       if js_safe lo && js_safe hi then range_check lo hi stored
       else Some StreamlitError;
     slider_datetime_check := range_check |}.

End Sample.


(* ================================================================== *)
(** ** Grouping and calendar years

    What the tabs of both scripts take from pandas besides the frame
    itself: [groupby(key).size()], [Series.unique()], [Series.dt.year]. *)

Section GroupBy.
Context {K : Type} (eqb leb : K -> K -> bool).

Fixpoint insert_key (x : K) (l : list K) : list K :=
  match l with
  | [] => [x]
  | y :: t => if leb x y then x :: l else y :: insert_key x t
  end.

(** The group keys in the order [groupby] lists them: ascending. *)
Definition sort_keys (l : list K) : list K := fold_right insert_key [] l.

(** [Series.unique()]: first occurrences, in order. *)
Definition distinct (l : list K) : list K :=
  fold_left (fun seen x => if existsb (eqb x) seen then seen else seen ++ [x]) l [].

Definition count_key (k : K) (l : list K) : nat :=
  List.length (filter (eqb k) l).

(** [frame.groupby(key).size().reset_index(name="Conteo")], from the
    key column: one line per distinct key, keys ascending, with the
    number of rows that have the key. *)
Definition groupby_size (keys : list K) : list (K * nat) :=
  map (fun k => (k, count_key k keys)) (sort_keys (distinct keys)).

End GroupBy.

(** Days since 1970-01-01 of a [datetime64[ns]] value. *)
Definition days_of_ns (ns : Z) : Z := (ns / 86400000000000)%Z.

(** The year of the proleptic Gregorian calendar a day falls in: eras
    of 400 years (146097 days) counted from 0000-03-01, the year within
    the era, then one more for January and February. *)
Definition year_of_days (days : Z) : Z :=
  (let z := days + 719468 in
   let era := z / 146097 in
   let doe := z - era * 146097 in
   let yoe := (doe - doe / 1460 + doe / 36524 - doe / 146096) / 365 in
   let doy := doe - (365 * yoe + yoe / 4 - yoe / 100) in
   let mp := (5 * doy + 2) / 153 in
   yoe + era * 400 + (if mp <? 10 then 0 else 1))%Z.

(** [Series.dt.year] at one element. *)
Definition dt_year (ns : Z) : Z := year_of_days (days_of_ns ns).

(** [frame.sort_values("Conteo", ascending=False)] on a table of
    counts.  pandas sorts with quicksort here, which fixes the order of
    the counts but not the order of lines with equal counts, so the
    call is taken from the library rather than written out. *)
Class SortValues : Type := {
  sort_values_desc : list (string * nat) -> list (string * nat)
}.

(** What a tab shows. *)
Inductive figure : Type :=
| Bar (counts : list (string * nat))      (* [px.bar(counts, x="Especie", y="Conteo")] *)
| Box (points : list (string * float))    (* [px.box(frame, x="Especie", y="Altitud")] *)
| Line (df_year : list (Z * nat)).        (* [px.line(df_year, x="Año", y="Conteo")] *)

Inductive element : Type :=
| PlotlyChart (fig : figure)     (* [st.plotly_chart(fig)] *)
| StInfo (msg : string)          (* [st.info(msg)] *)
| Nothing.

(** The arguments of [px.scatter_mapbox] that the scripts compute.  The
    centre of the map, a mean of floating-point coordinates, is left
    out. *)
Record map_figure : Type := {
  color_discrete_map : list (string * string);
  hover_data : list string;
  zoom : Z
}.

(** [{esp: palette[i % len(palette)] for i, esp in enumerate(unique_species)}]
    for a palette that is not empty (both are literals in the scripts)
    and species that are distinct, as [unique()] returns them. *)
Definition color_map (palette unique_species : list string) : list (string * string) :=
  map (fun p => (snd p, nth (fst p mod List.length palette) palette ""))
      (combine (seq 0 (List.length unique_species)) unique_species).

(** [d[key]] on a dictionary kept as its list of items. *)
Fixpoint dict_get (key : string) (d : list (string * string)) : option string :=
  match d with
  | [] => None
  | (k, v) :: t => if String.eqb key k then Some v else dict_get key t
  end.

(** [{col: True for col in columns if col not in ["Latitud", "Longitud"]}],
    as the list of its keys. *)
Definition hover_columns (columns : list string) : list string :=
  filter (fun col => negb (mem col ["Latitud"; "Longitud"])) columns.

(** [8 if len(map_df) == 1 else 7]. *)
Definition zoom_for {A} (rows : list A) : Z :=
  match rows with
  | [_] => 8%Z
  | _ => 7%Z
  end.

(* ================================================================== *)
(** ** The tabs of [appProyectoFinal.py] (lines 206-300) *)

Module appProyectoFinalTabs.
Import appProyectoFinal.

Definition opciones : list string :=
  ["Conteo por especie"; "Altitud por especie"; "Serie temporal (año)"].

Definition no_altitude_msg : string := "No hay columna de altitud disponible.".
Definition no_dates_msg : string :=
  "No hay fechas válidas para construir la serie temporal.".
Definition no_date_column_msg : string := "No hay columna de fecha disponible.".

(** Lines 213-214, before the sort. *)
Definition counts (filtered_df : DataFrame) : list (string * nat) :=
  groupby_size String.eqb String.leb (map Especie (rows filtered_df)).

(** Lines 245-247: the rows with a date, the year of each, the sizes
    of the groups by year.  (A NaT would have no year and no group.) *)
Definition df_year (filtered_df : DataFrame) : list (Z * nat) :=
  let tmp := filter (fun r => notnat (Fecha r)) (rows filtered_df) in
  let years := flat_map (fun r => match Fecha r with
                                  | Ts ns => [dt_year ns]
                                  | NaT => []
                                  end) tmp in
  groupby_size Z.eqb Z.leb years.

(** Lines 209-262: what the chart tab shows for the choice [chart_type]
    of the radio button.  [has_alt] and [has_fecha] are the flags of the
    whole dataset. *)
Definition tab_chart `{SortValues} (chart_type : string) (has_alt has_fecha : bool)
    (filtered_df : DataFrame) : res element :=
  if String.eqb chart_type "Conteo por especie" then
    if negb (mem "Especie" (columns filtered_df)) then Raise (KeyError "Especie")
    else Ok (PlotlyChart (Bar (sort_values_desc (counts filtered_df))))
  else if String.eqb chart_type "Altitud por especie" then
    if has_alt then
      if negb (mem "Altitud" (columns filtered_df)) then Raise (KeyError "Altitud")
      else
        Ok (PlotlyChart
              (Box (map (fun r => (Especie r, Altitud r))
                        (filter (fun r => notna (Altitud r)) (rows filtered_df)))))
    else Ok (StInfo no_altitude_msg)
  else if String.eqb chart_type "Serie temporal (año)" then
    if has_fecha then
      if negb (mem "Fecha" (columns filtered_df)) then Raise (KeyError "Fecha")
      else
        match df_year filtered_df with
        | [] => Ok (StInfo no_dates_msg)
        | _ :: _ => Ok (PlotlyChart (Line (df_year filtered_df)))
        end
    else Ok (StInfo no_date_column_msg)
  else Ok Nothing.

Definition palette : list string :=
  ["red"; "blue"; "green"; "orange"; "purple"; "brown"].

Definition unique_species (map_df : DataFrame) : list string :=
  distinct String.eqb (map Especie (rows map_df)).

Definition species_color_map (map_df : DataFrame) : list (string * string) :=
  color_map palette (unique_species map_df).

(** Lines 268-288. *)
Definition tab_map (filtered_df : DataFrame) : res map_figure :=
  let map_df := filtered_df in
  if negb (mem "Especie" (columns map_df)) then Raise (KeyError "Especie")
  else if negb (mem "Latitud" (columns map_df)) then Raise (KeyError "Latitud")
  else if negb (mem "Longitud" (columns map_df)) then Raise (KeyError "Longitud")
  else
    Ok {| color_discrete_map := species_color_map map_df;
          hover_data := hover_columns (columns map_df);
          zoom := zoom_for (rows map_df) |}.

(** One run of the script with its chart and map tabs: the run of
    [script], then the two tabs on the view it left. *)
Definition script_with_tabs `{Pandas} `{Streamlit} `{SortValues}
    (chart_type : string)
    (ss : SessionState) : St (SessionState * Vars * element * map_figure) :=
  (p <- script ss ;;
   let d := df (snd p) in
   let filtered_df := filtered_df (snd p) in
   chart <- lift (tab_chart chart_type (has_alt d) (has_fecha d) filtered_df) ;;
   fig_map <- lift (tab_map filtered_df) ;;
   ret (fst p, snd p, chart, fig_map))%st.

End appProyectoFinalTabs.

(* ================================================================== *)
(** ** The script of [app.py] after [load_data] (lines 32-135) *)

Module appTabs.
Import app.

Definition empty (d : DataFrame) : bool :=
  match rows d, columns d with
  | [], _ | _, [] => true
  | _, _ => false
  end.

Definition no_coordinates_msg : string := "No hay long o lat".

(** Lines 59-65, before the sort. *)
Definition counts (d : DataFrame) : list (string * nat) :=
  groupby_size String.eqb String.leb (map Especie (rows d)).

(** Lines 59-83. *)
Definition tab_chart `{SortValues} (d : DataFrame) : res figure :=
  if negb (mem "Especie" (columns d)) then Raise (KeyError "Especie")
  else Ok (Bar (sort_values_desc (counts d))).

Definition palette : list string := ["red"; "blue"; "green"].

Definition unique_species (map_df : DataFrame) : list string :=
  distinct String.eqb (map Especie (rows map_df)).

Definition species_color_map (map_df : DataFrame) : list (string * string) :=
  color_map palette (unique_species map_df).

(** Lines 104-135.  [selected_rows] is the literal empty list (the
    table selection that would fill it is commented out), so the test
    on it fails and [map_df] is the whole dataset. *)
Definition tab_map (d : DataFrame) : res map_figure :=
  let map_df := d in
  if negb (mem "Especie" (columns map_df)) then Raise (KeyError "Especie")
  else if negb (mem "Latitud" (columns map_df)) then Raise (KeyError "Latitud")
  else if negb (mem "Longitud" (columns map_df)) then Raise (KeyError "Longitud")
  else
    Ok {| color_discrete_map := species_color_map map_df;
          hover_data := hover_columns (columns map_df);
          zoom := zoom_for (rows map_df) |}.

(** One run of the script. *)
Definition script `{Pandas} `{SortValues} : St (DataFrame * figure * map_figure) :=
  (d <- load_data "conejos.csv" ;;
   if empty d then (st_warning no_coordinates_msg ;; st_stop)
   else
     fig_bar <- lift (tab_chart d) ;;
     fig_map <- lift (tab_map d) ;;
     ret (d, fig_bar, fig_map))%st.

End appTabs.
(* ================================================================== *)
(** ** Vocabulary of the statements *)

Section Fallback.
Context `{Pandas}.

(** The encoding raises a decode error on the file. *)
Definition undecodable (path enc : string) : Prop :=
  read_csv path enc = Raise UnicodeDecodeError.

Definition calls (path : string) (encs : list string) : list event :=
  map (ReadCsv path) encs.

(** The three ways the loop can end, each with the exact list of calls
    it has made. *)
Inductive loop_end (msg path : string) (encs : list string) (log : list event)
  : outcome RawFrame * list event -> Prop :=
| loop_break pre enc post raw :
    encs = pre ++ enc :: post ->
    Forall (undecodable path) pre ->
    read_csv path enc = Ok raw ->
    loop_end msg path encs log (Done raw, log ++ calls path (pre ++ [enc]))
| loop_raise pre enc post e :
    encs = pre ++ enc :: post ->
    Forall (undecodable path) pre ->
    read_csv path enc = Raise e ->
    e <> UnicodeDecodeError ->
    loop_end msg path encs log (Raised e, log ++ calls path (pre ++ [enc]))
| loop_else :
    Forall (undecodable path) encs ->
    loop_end msg path encs log (Stopped, log ++ calls path encs ++ [StError msg]).

(** The shape both versions of [load_data] share: the loop, then a
    cleaning step that returns or raises. *)
Definition loader {F : Type} (msg : string) (clean : RawFrame -> res F)
    (path : string) : St F :=
  (raw <- try_encodings msg path encodings ;; lift (clean raw))%st.

(** [read_csv] raises a decode error only where the codec named fails on
    the bytes of the file, [fs] being the files on disk. *)
Definition reads_through_codecs (fs : string -> option (list byte)) : Prop :=
  forall path enc,
    undecodable path enc ->
    exists bs c, fs path = Some bs /\ codec_of enc = Some c /\ decode c bs = None.


End Fallback.


Section Cells.
Context `{Pandas}.

(** A cell of the source that is present and reads as a number: a
    number that is not NaN, or text that [to_numeric] parses to one. *)
Definition present_and_numeric (c : cell) : bool :=
  match c with
  | CNum f => notna f
  | CStr s => match str_to_float s with
              | Some f => notna f
              | None => false
              end
  end.

(** A source row with both coordinates present and numeric. *)
Definition valid_source_row (r : RawRow) : bool :=
  present_and_numeric (raw_Latitud r) && present_and_numeric (raw_Longitud r).

(** The header has the three columns [load_data] indexes without a
    test, once white space is stripped. *)
Definition required_columns (raw : RawFrame) : bool :=
  let cols := map strip (raw_columns raw) in
  mem "Latitud" cols && mem "Longitud" cols && mem "Especie" cols.

End Cells.

(** Sample data for the statements that need a concrete file. *)
Module SampleData.

Definition header : list string :=
  ["Especie"; " Latitud"; "Longitud "; "Lugar"; "Fecha"; "Altitud"].

Definition row (especie lat lon lugar fecha alt : cell) : RawRow :=
  {| raw_Especie := especie; raw_Latitud := lat; raw_Longitud := lon;
     raw_Lugar := lugar; raw_Fecha := fecha; raw_Altitud := alt |}.

Definition missing : cell := CNum NaN.

(** Three rows: one complete, one whose latitude is the text [abc], one
    without a longitude. *)
Definition frame : RawFrame :=
  {| raw_columns := header;
     raw_rows :=
       [ row (CStr "Sylvilagus X") (CStr "10.5") (CStr "-84.1")
             (CStr "san carlos, alajuela") (CStr "1500000000") (CStr "1234.5");
         row (CStr "Sylvilagus X") (CStr "abc") (CStr "-84.2")
             missing missing missing;
         row (CStr "Sylvilagus Y") (CStr "9.9") missing
             (CStr "Cartago") missing (CStr "800") ] |}.

(** A loaded dataset: two species, one row without location, date and
    altitude, one altitude that is not a whole number. *)
Definition dataset : appProyectoFinal.DataFrame :=
  {| appProyectoFinal.columns :=
       ["Especie"; "Latitud"; "Longitud"; "Lugar"; "Fecha"; "Altitud"];
     appProyectoFinal.rows :=
       [ {| appProyectoFinal.Especie := "Sylvilagus X";
            appProyectoFinal.Latitud := Fin (Qmake 105 10);
            appProyectoFinal.Longitud := Fin (Qmake (-841) 10);
            appProyectoFinal.Lugar := CStr "san carlos, alajuela";
            appProyectoFinal.Fecha := Ts 1500000000000000000;
            appProyectoFinal.Altitud := Fin (Qmake 12345 10) |};
         {| appProyectoFinal.Especie := "Sylvilagus X";
            appProyectoFinal.Latitud := Fin (Qmake 101 10);
            appProyectoFinal.Longitud := Fin (Qmake (-842) 10);
            appProyectoFinal.Lugar := CNum NaN;
            appProyectoFinal.Fecha := NaT;
            appProyectoFinal.Altitud := NaN |};
         {| appProyectoFinal.Especie := "Sylvilagus Y";
            appProyectoFinal.Latitud := Fin (Qmake 99 10);
            appProyectoFinal.Longitud := Fin (Qmake (-839) 10);
            appProyectoFinal.Lugar := CStr "Cartago";
            appProyectoFinal.Fecha := Ts 1600000000000000000;
            appProyectoFinal.Altitud := Fin (Qmake 800 1) |} ] |}.

(** The same dataset with every altitude missing. *)
Definition without_altitudes : appProyectoFinal.DataFrame :=
  {| appProyectoFinal.columns := appProyectoFinal.columns dataset;
     appProyectoFinal.rows :=
       map (fun r =>
              {| appProyectoFinal.Especie := appProyectoFinal.Especie r;
                 appProyectoFinal.Latitud := appProyectoFinal.Latitud r;
                 appProyectoFinal.Longitud := appProyectoFinal.Longitud r;
                 appProyectoFinal.Lugar := appProyectoFinal.Lugar r;
                 appProyectoFinal.Fecha := appProyectoFinal.Fecha r;
                 appProyectoFinal.Altitud := NaN |})
           (appProyectoFinal.rows dataset) |}.

Definition second_row : appProyectoFinal.Row :=
  nth 1 (appProyectoFinal.rows dataset)
      {| appProyectoFinal.Especie := ""; appProyectoFinal.Latitud := NaN;
         appProyectoFinal.Longitud := NaN; appProyectoFinal.Lugar := CNum NaN;
         appProyectoFinal.Fecha := NaT; appProyectoFinal.Altitud := NaN |}.

Definition criteria (species : list string) (lugar : string)
    (dates : option (datetime * datetime)) (alts : option (Z * Z))
  : appProyectoFinal.Criteria :=
  {| appProyectoFinal.selected_species := species;
     appProyectoFinal.lugar_text := lugar;
     appProyectoFinal.start_dt := option_map fst dates;
     appProyectoFinal.end_dt := option_map snd dates;
     appProyectoFinal.alt_min_sel := option_map fst alts;
     appProyectoFinal.alt_max_sel := option_map snd alts |}.

(** Species X, dates from 2014 to 2023, altitudes from 0 to 2000 m. *)
Definition narrow : appProyectoFinal.Criteria :=
  criteria ["Sylvilagus X"] ""
           (Some (1400000000000000, 1700000000000000)%Z) (Some (0, 2000)%Z).

(** A date range that starts after every date of the sample dataset. *)
Definition too_late : appProyectoFinal.Criteria :=
  criteria [] "" (Some (2000000000000000, 3000000000000000)%Z) None.

Definition first_row : appProyectoFinal.Row :=
  nth 0 (appProyectoFinal.rows dataset) second_row.

(** A file that is not valid UTF-8. *)
Definition files (path : string) : option (list byte) :=
  if String.eqb path "conejos.csv" then Some [x45; xf1; x0a] else None.

Definition lib : Pandas :=
  Sample.pandas (Sample.reader_of files (fun _ => Ok frame)).

(** The same rows under a header without stray white space, which is
    what [app.py] needs to find its columns. *)
Definition plain_frame : RawFrame :=
  {| raw_columns := map strip header; raw_rows := raw_rows frame |}.

Definition lib_plain : Pandas :=
  Sample.pandas (Sample.reader_of files (fun _ => Ok plain_frame)).

(** A [read_csv] that raises a decode error whatever the encoding. *)
Definition lib_undecodable : Pandas :=
  Sample.pandas (fun _ _ => Raise UnicodeDecodeError).

(** The view the narrow criteria give on the sample dataset. *)
Definition narrow_view : appProyectoFinal.DataFrame :=
  match @appProyectoFinal.filter_pipeline lib true true narrow dataset with
  | Ok v => v
  | Raise _ => dataset
  end.

(** The dataset the final script loads from that file. *)
Definition loaded : appProyectoFinal.DataFrame :=
  match fst (@appProyectoFinal.load_data lib "conejos.csv" []) with
  | Done d => d
  | _ => {| appProyectoFinal.columns := []; appProyectoFinal.rows := [] |}
  end.

End SampleData.

(** What each filter step lets through, row by row. *)
Section RowTests.
Context `{Pandas}.
Import appProyectoFinal.

Definition species_ok (c : Criteria) (r : Row) : bool :=
  match selected_species c with
  | [] => true
  | _ :: _ => mem (Especie r) (selected_species c)
  end.

Definition lugar_ok (c : Criteria) (r : Row) : bool :=
  if String.eqb (lugar_text c) "" then true
  else match re_compile_i (lugar_text c) with
       | Some rx => re_search rx (astype_str (Lugar r))
       | None => true
       end.

Definition fecha_ok (hf : bool) (c : Criteria) (r : Row) : bool :=
  if hf then
    match start_dt c, end_dt c with
    | Some s, Some e =>
        ts_between (timestamp_of_datetime s) (timestamp_of_datetime e) (Fecha r)
    | _, _ => true
    end
  else true.

Definition alt_ok (ha : bool) (c : Criteria) (r : Row) : bool :=
  if ha then
    match alt_min_sel c, alt_max_sel c with
    | Some a, Some b => between (float_of_int a) (float_of_int b) (Altitud r)
    | _, _ => true
    end
  else true.

Definition all_ok (hf ha : bool) (c : Criteria) (r : Row) : bool :=
  species_ok c r && lugar_ok c r && fecha_ok hf c r && alt_ok ha c r.

(** The location step runs without raising: no text, or a [Lugar]
    column and a pattern that compiles. *)
Definition lugar_runs (c : Criteria) (d : DataFrame) : bool :=
  String.eqb (lugar_text c) "" ||
  (mem "Lugar" (columns d) &&
   match re_compile_i (lugar_text c) with Some _ => true | None => false end).

(** The engine agrees with plain substring search, letter case
    ignored, on patterns without metacharacters and ASCII subjects. *)
Definition literal_patterns : Prop :=
  forall pat,
    Sample.plain pat = true ->
    exists rx,
      re_compile_i pat = Some rx /\
      forall s, Sample.ascii_only s = true -> re_search rx s = icontains pat s.

(** The pipeline with the species step left out. *)
Definition pipeline_without_species (hf ha : bool) (c : Criteria) (d : DataFrame)
  : res DataFrame :=
  (f <- lugar_step c d ;;
   Ok (alt_step ha c (fecha_step hf c f)))%res.

End RowTests.

(** A session in which no filter key is set yet: the first run. *)
Definition no_session : appProyectoFinal.SessionState :=
  {| appProyectoFinal.species_filter := None;
     appProyectoFinal.lugar_filter := None;
     appProyectoFinal.fecha_filter := None;
     appProyectoFinal.alt_filter := None |}.

(** Criteria changed in one component. *)
Module Change.
Import appProyectoFinal.

Definition species (l : list string) (c : Criteria) : Criteria :=
  {| selected_species := l; lugar_text := lugar_text c;
     start_dt := start_dt c; end_dt := end_dt c;
     alt_min_sel := alt_min_sel c; alt_max_sel := alt_max_sel c |}.

Definition dates (s e : option datetime) (c : Criteria) : Criteria :=
  {| selected_species := selected_species c; lugar_text := lugar_text c;
     start_dt := s; end_dt := e;
     alt_min_sel := alt_min_sel c; alt_max_sel := alt_max_sel c |}.

Definition altitudes (a b : option Z) (c : Criteria) : Criteria :=
  {| selected_species := selected_species c; lugar_text := lugar_text c;
     start_dt := start_dt c; end_dt := end_dt c;
     alt_min_sel := a; alt_max_sel := b |}.

End Change.

(* ================================================================== *)
(** ** Vocabulary of the further statements *)

(** The UTF-8 bytes of a code point. *)
Definition utf8_bytes (cp : N) : list N :=
  (if cp <? 128 then [cp]
   else if cp <? 2048 then [192 + cp / 64; 128 + cp mod 64]
   else if cp <? 65536
        then [224 + cp / 4096; 128 + (cp / 64) mod 64; 128 + cp mod 64]
        else [240 + cp / 262144; 128 + (cp / 4096) mod 64;
              128 + (cp / 64) mod 64; 128 + cp mod 64])%N.

(** The string of one character. *)
Definition str_char (cp : N) : string :=
  string_of_list_ascii (map ascii_of_N (utf8_bytes cp)).

Fixpoint text_of (cps : list N) : string :=
  match cps with
  | [] => ""
  | cp :: t => str_char cp ++ text_of t
  end.

(** The characters Python counts as white space: the control
    characters tab to carriage return and the four separators before
    the space, the space, next line, the no-break space, the Ogham
    space mark, the spaces of the general punctuation block, the line
    and paragraph separators, the narrow no-break space, the medium
    mathematical space and the ideographic space. *)
Definition white_space_points : list N :=
  [9; 10; 11; 12; 13; 28; 29; 30; 31; 32; 133; 160; 5760;
   8192; 8193; 8194; 8195; 8196; 8197; 8198; 8199; 8200; 8201; 8202;
   8232; 8233; 8239; 8287; 12288]%N.

Definition is_white (cp : N) : bool := existsb (N.eqb cp) white_space_points.

(** [b] is [a] with white space added in front and behind. *)
Definition padded (a b : string) : Prop :=
  exists l r,
    forallb is_white l = true /\ forallb is_white r = true /\
    b = (text_of l ++ a ++ text_of r)%string.

(** A byte that starts a character: not one of the continuation bytes
    [80] to [BF]. *)
Definition starter (c : ascii) : bool :=
  let n := nat_of_ascii c in ((n <? 128) || (192 <=? n))%nat.

(** The sum of a column of counts. *)
Definition total {K} (t : list (K * nat)) : nat := list_sum (map snd t).

(** [sort_values] does what its name says: the same lines, counts from
    the largest down. *)
Definition sorts_descending `{SortValues} : Prop :=
  forall t,
    Permutation t (sort_values_desc t) /\
    Sorted (fun a b => snd b <= snd a) (sort_values_desc t).

(** A stand-in for [sort_values]: insertion from the right, which keeps
    lines with equal counts in their order. *)
Module SampleSort.

Fixpoint insert_desc (x : string * nat) (l : list (string * nat)) : list (string * nat) :=
  match l with
  | [] => [x]
  | y :: t => if (snd y <? snd x)%nat then x :: l else y :: insert_desc x t
  end.

Definition sort (t : list (string * nat)) : list (string * nat) :=
  fold_right insert_desc [] t.

Definition sorter : SortValues := {| sort_values_desc := sort |}.

End SampleSort.

(** The criteria of the first run on a dataset whose altitude bounds
    are [alts]. *)
Definition first_run_criteria `{Streamlit} (d : appProyectoFinal.DataFrame)
    (alts : option (Z * Z)) : res appProyectoFinal.Criteria :=
  appProyectoFinal.read_widgets d (appProyectoFinal.init_session d alts no_session).

(** The colour the comprehension gives to the species in position [i]. *)
Definition colour_at (palette : list string) (i : nat) : string :=
  nth (i mod List.length palette) palette "".

(** A byte of the ASCII range. *)
Definition ascii_byte (b : byte) : Prop := (Byte.to_N b < 128)%N.


(** A row of [app.py]'s dataset comes from a row of the file: the two
    coordinates converted by [astype(float)], the species by
    [astype(str)], the rest as read. *)
Definition app_row_of `{Pandas} (r : RawRow) (row : app.Row) : Prop :=
  astype_float (raw_Latitud r) = Ok (app.Latitud row) /\
  astype_float (raw_Longitud r) = Ok (app.Longitud row) /\
  app.Especie row = astype_str (raw_Especie r) /\
  app.Lugar row = raw_Lugar r /\
  app.Fecha row = raw_Fecha r /\
  app.Altitud row = raw_Altitud r.

(** Further sample data. *)
Module SampleMore.

(** A file in which no row has both coordinates. *)
Definition lost_frame : RawFrame :=
  {| raw_columns := ["Especie"; "Latitud"; "Longitud"; "Lugar"; "Fecha"; "Altitud"];
     raw_rows :=
       [ SampleData.row (CStr "Sylvilagus X") SampleData.missing (CStr "-84.1")
           (CStr "San Carlos, Costa Rica") SampleData.missing SampleData.missing;
         SampleData.row (CStr "Sylvilagus Y") SampleData.missing SampleData.missing
           (CStr "Cartago") SampleData.missing (CStr "800") ] |}.

Definition lib_lost : Pandas := Sample.pandas (fun _ _ => Ok lost_frame).

(** A file of ASCII bytes only. *)
Definition ascii_files (path : string) : option (list byte) :=
  if String.eqb path "conejos.csv" then Some [x45; x73; x70; x0a] else None.

Definition lib_ascii : Pandas :=
  Sample.pandas (Sample.reader_of ascii_files (fun _ => Ok SampleData.plain_frame)).

Definition tidy_header_for_runs : list string :=
  ["Especie"; "Latitud"; "Longitud"; "Lugar"; "Fecha"; "Altitud"].

(** A frame with one row that has its coordinates and no species. *)
Definition nameless : RawFrame :=
  {| raw_columns := map strip SampleData.header;
     raw_rows :=
       [ SampleData.row SampleData.missing (CStr "10.5") (CStr "-84.1")
           (CStr "Cartago") SampleData.missing SampleData.missing ] |}.

Definition nameless_row : RawRow := nth 0 (raw_rows nameless) (SampleData.row
  SampleData.missing SampleData.missing SampleData.missing SampleData.missing
  SampleData.missing SampleData.missing).

Definition nameless_dataset : appProyectoFinal.DataFrame :=
  match @appProyectoFinal.clean (Sample.pandas (fun _ _ => Ok nameless)) nameless with
  | Ok d => d
  | Raise _ => SampleData.dataset
  end.

(** The sample dataset with one altitude read as [inf]. *)
Definition with_infinite_altitude : appProyectoFinal.DataFrame :=
  {| appProyectoFinal.columns := appProyectoFinal.columns SampleData.dataset;
     appProyectoFinal.rows :=
       {| appProyectoFinal.Especie := "Sylvilagus Z";
          appProyectoFinal.Latitud := Fin (Qmake 100 10);
          appProyectoFinal.Longitud := Fin (Qmake (-840) 10);
          appProyectoFinal.Lugar := CStr "Heredia";
          appProyectoFinal.Fecha := NaT;
          appProyectoFinal.Altitud := PosInf |}
       :: appProyectoFinal.rows SampleData.dataset |}.

(** A file whose only row has an infinite altitude. *)
Definition infinite_frame : RawFrame :=
  {| raw_columns := map strip SampleData.header;
     raw_rows :=
       [ SampleData.row (CStr "Sylvilagus Z") (CStr "10.0") (CStr "-84.0")
           (CStr "Heredia") SampleData.missing (CNum PosInf) ] |}.

Definition lib_infinite : Pandas := Sample.pandas (fun _ _ => Ok infinite_frame).

Definition infinite_dataset : appProyectoFinal.DataFrame :=
  match @appProyectoFinal.clean lib_infinite infinite_frame with
  | Ok d => d
  | Raise _ => SampleData.dataset
  end.

(** A file on which a first run reaches the tabs: whole altitudes,
    dates in whole seconds. *)
Definition good_frame : RawFrame :=
  {| raw_columns := tidy_header_for_runs;
     raw_rows :=
       [ SampleData.row (CStr "Sylvilagus X") (CStr "10.5") (CStr "-84.1")
           (CStr "san carlos, alajuela") (CStr "1500000000000000000") (CStr "1200");
         SampleData.row (CStr "Sylvilagus Y") (CStr "9.9") (CStr "-83.9")
           (CStr "Cartago") (CStr "1600000000000000000") (CStr "800");
         SampleData.row (CStr "Sylvilagus X") (CStr "10.1") (CStr "-84.3")
           SampleData.missing (CStr "1600000000000000000") (CStr "950") ] |}.

Definition lib_good : Pandas := Sample.pandas (fun _ _ => Ok good_frame).

(** The header of the sample file and the same header as a spreadsheet
    export may leave it. *)
Definition tidy_header : list string :=
  ["Especie"; "Latitud"; "Longitud"; "Lugar"; "Fecha"; "Altitud"].

Definition untidy_header : list string :=
  ["Especie "; str_char 160 ++ "Latitud"; "Longitud" ++ str_char 9;
   "  Lugar  "; "Fecha"; str_char 8195 ++ "Altitud" ++ str_char 133]%string.

(** A session a user left: one species, a text, narrow ranges. *)
Definition used_session : appProyectoFinal.SessionState :=
  {| appProyectoFinal.species_filter := Some ["Sylvilagus Y"];
     appProyectoFinal.lugar_filter := Some "cartago";
     appProyectoFinal.fecha_filter := Some (1550000000000000, 1600000000000000)%Z;
     appProyectoFinal.alt_filter := Some (800, 900)%Z |}.

(** What the run on the good file leaves, from that session. *)
Definition good_run : appProyectoFinal.SessionState * appProyectoFinal.Vars :=
  match fst (@appProyectoFinal.script lib_good Sample.streamlit used_session []) with
  | Done p => p
  | _ => (no_session,
          {| appProyectoFinal.df := SampleData.dataset;
             appProyectoFinal.filtered_df := SampleData.dataset |})
  end.


Definition good_dataset : appProyectoFinal.DataFrame :=
  appProyectoFinal.df (snd good_run).

Definition year_choice : string := "Serie temporal (año)".

(** What [app.py] loads from the good file. *)
Definition app_good : app.DataFrame :=
  match fst (@app.load_data lib_good "conejos.csv" []) with
  | Done d => d
  | _ => {| app.columns := []; app.rows := [] |}
  end.

(** The criteria of a first run on the sample dataset. *)
Definition first_run : appProyectoFinal.Criteria :=
  match @first_run_criteria Sample.streamlit SampleData.dataset (Some (800, 1234)%Z) with
  | Ok c => c
  | Raise _ => SampleData.criteria [] "" None None
  end.

End SampleMore.

(** ** The calendar, to compare [year_of_days] with *)

Definition is_leap (y : Z) : bool :=
  ((y mod 4 =? 0) && (negb (y mod 100 =? 0) || (y mod 400 =? 0)))%Z.

Definition year_length (y : Z) : Z := if is_leap y then 366%Z else 365%Z.

(** Leap years before year [y]. *)
Definition leaps_before (y : Z) : Z :=
  ((y - 1) / 4 - (y - 1) / 100 + (y - 1) / 400)%Z.

(** Days from 1970-01-01 to the first of January of year [y]. *)
Definition first_day (y : Z) : Z :=
  (365 * (y - 1970) + (leaps_before y - leaps_before 1970))%Z.

(** Every day of [n] years from [first] on, checked one by one. *)
Definition years_ok (first : Z) (n : nat) : bool :=
  forallb (fun yn =>
      let y := (first + Z.of_nat yn)%Z in
      forallb (fun kn => (year_of_days (first_day y + Z.of_nat kn) =? y)%Z)
              (seq 0 (Z.to_nat (year_length y))))
    (seq 0 n).
(* ================================================================== *)
(** * Proofs *)

(** ** The monad *)

Lemma bind_done {A B} (m : St A) (k : A -> St B) log a log' :
  m log = (Done a, log') -> bind m k log = k a log'.
Proof. unfold bind. intros ->. reflexivity. Qed.

Lemma bind_stopped {A B} (m : St A) (k : A -> St B) log log' :
  m log = (Stopped, log') -> bind m k log = (Stopped, log').
Proof. unfold bind. intros ->. reflexivity. Qed.

Lemma bind_raised {A B} (m : St A) (k : A -> St B) log e log' :
  m log = (Raised e, log') -> bind m k log = (Raised e, log').
Proof. unfold bind. intros ->. reflexivity. Qed.

(** ** Truncation *)

(** [truncate] drops the fractional part: the result is the integer
    next to [q] on the side of zero. *)
Lemma truncate_toward_zero (q : Q) :
  ((0 <= q)%Q ->
   (inject_Z (truncate q) <= q)%Q /\ (q < inject_Z (truncate q + 1))%Q) /\
  ((q <= 0)%Q ->
   (inject_Z (truncate q - 1) < q)%Q /\ (q <= inject_Z (truncate q))%Q).
Proof.
  destruct q as [n d]. unfold truncate, Qle, Qlt. cbn [Qnum Qden inject_Z].
  pose proof (Z.quot_rem' n (Zpos d)) as Hqr.
  split; intro Hsign.
  - assert (Hn : (0 <= n)%Z) by lia.
    pose proof (Z.rem_bound_pos_pos n (Zpos d) ltac:(lia) Hn). nia.
  - assert (Hn : (n <= 0)%Z) by lia.
    pose proof (Z.rem_bound_pos_neg n (Zpos d) ltac:(lia) Hn). nia.
Qed.

(** ** The fallback loop *)

Section Fallback.
Context `{Pandas}.

Lemma try_encodings_end msg path encs : forall log,
  loop_end msg path encs log (try_encodings msg path encs log).
Proof.
  induction encs as [|enc rest IH]; intro log.
  - cbn. apply loop_else. constructor.
  - cbn [try_encodings]. unfold bind at 1, emit.
    remember (read_csv path enc) as r eqn:Hr. symmetry in Hr.
    assert (Hcons : forall l, (log ++ [ReadCsv path enc]) ++ calls path l
                              = log ++ calls path (enc :: l)).
    { intro l. rewrite <- app_assoc. reflexivity. }
    destruct r as [raw|e].
    + unfold ret. replace (log ++ [ReadCsv path enc])
        with (log ++ calls path ([] ++ [enc])) by reflexivity.
      now apply loop_break with (post := rest).
    + assert (Hother : e <> UnicodeDecodeError ->
                loop_end msg path (enc :: rest) log
                  (Raised e, log ++ [ReadCsv path enc])).
      { intro Hne. replace (log ++ [ReadCsv path enc])
          with (log ++ calls path ([] ++ [enc])) by reflexivity.
        now apply loop_raise with (post := rest). }
      destruct e; try (apply Hother; discriminate).
      specialize (IH (log ++ [ReadCsv path enc])).
      inversion IH as [pre e' post raw Hsplit Hpre Hok Heq
                      |pre e' post ex Hsplit Hpre Hex Hne Heq
                      |Hall Heq].
      * rewrite Hcons.
        change (enc :: pre ++ [e']) with ((enc :: pre) ++ [e']).
        apply loop_break with (post := post); [subst; reflexivity| |assumption].
        constructor; assumption.
      * rewrite Hcons.
        change (enc :: pre ++ [e']) with ((enc :: pre) ++ [e']).
        apply loop_raise with (post := post); [subst; reflexivity| |assumption|assumption].
        constructor; assumption.
      * rewrite app_assoc, Hcons, <- app_assoc.
        apply loop_else. constructor; assumption.
Qed.

Lemma try_encodings_break msg path pre enc post raw : forall log,
  Forall (undecodable path) pre ->
  read_csv path enc = Ok raw ->
  try_encodings msg path (pre ++ enc :: post) log
  = (Done raw, log ++ calls path (pre ++ [enc])).
Proof.
  induction pre as [|e pre IH]; intros log Hpre Hok.
  - cbn. unfold bind, emit. rewrite Hok. reflexivity.
  - inversion Hpre as [|? ? He Hpre']; subst.
    cbn [app try_encodings]. unfold bind at 1, emit.
    unfold undecodable in He. rewrite He.
    rewrite IH by assumption. cbn. now rewrite <- app_assoc.
Qed.

Lemma try_encodings_raise msg path pre enc post e : forall log,
  Forall (undecodable path) pre ->
  read_csv path enc = Raise e ->
  e <> UnicodeDecodeError ->
  try_encodings msg path (pre ++ enc :: post) log
  = (Raised e, log ++ calls path (pre ++ [enc])).
Proof.
  induction pre as [|e0 pre IH]; intros log Hpre Hraise Hne.
  - cbn. unfold bind, emit. rewrite Hraise.
    destruct e; try reflexivity. contradiction.
  - inversion Hpre as [|? ? He Hpre']; subst.
    cbn [app try_encodings]. unfold bind at 1, emit.
    unfold undecodable in He. rewrite He.
    rewrite IH by assumption. cbn. now rewrite <- app_assoc.
Qed.

Lemma try_encodings_else msg path encs : forall log,
  Forall (undecodable path) encs ->
  try_encodings msg path encs log
  = (Stopped, log ++ calls path encs ++ [StError msg]).
Proof.
  induction encs as [|e encs IH]; intros log Hall.
  - reflexivity.
  - inversion Hall as [|? ? He Hall']; subst.
    cbn [try_encodings]. unfold bind at 1, emit.
    unfold undecodable in He. rewrite He.
    rewrite IH by assumption. cbn. now rewrite <- app_assoc.
Qed.

(** Stopping happens in the [else] branch only. *)
Lemma try_encodings_stopped msg path encs log log' :
  try_encodings msg path encs log = (Stopped, log') ->
  Forall (undecodable path) encs.
Proof.
  intro Heq. pose proof (try_encodings_end msg path encs log) as Hend.
  rewrite Heq in Hend. inversion Hend. assumption.
Qed.

Lemma lift_not_stopped {A} (r : res A) log log' : lift r log <> (Stopped, log').
Proof. destruct r; cbn; unfold ret, raise; discriminate. Qed.

Lemma lift_log {A} (r : res A) log : snd (lift r log) = log.
Proof. destruct r; reflexivity. Qed.

(** A loader is the loop followed by a cleaning step that returns or
    raises; the facts below hold for both versions. *)
Section AnyLoader.
Context {F : Type} (msg : string) (clean : RawFrame -> res F).

Lemma loader_break path log pre enc post raw :
  encodings = pre ++ enc :: post ->
  Forall (undecodable path) pre ->
  read_csv path enc = Ok raw ->
  loader msg clean path log = lift (clean raw) (log ++ calls path (pre ++ [enc])).
Proof.
  intros Hsplit Hpre Hok. unfold loader.
  erewrite bind_done; [reflexivity|].
  rewrite Hsplit. now apply try_encodings_break.
Qed.

Lemma loader_raise path log pre enc post e :
  encodings = pre ++ enc :: post ->
  Forall (undecodable path) pre ->
  read_csv path enc = Raise e ->
  e <> UnicodeDecodeError ->
  loader msg clean path log = (Raised e, log ++ calls path (pre ++ [enc])).
Proof.
  intros Hsplit Hpre Hraise Hne. unfold loader.
  apply bind_raised. rewrite Hsplit. now apply try_encodings_raise.
Qed.

Lemma loader_stops_iff path log :
  Forall (undecodable path) encodings <->
  loader msg clean path log = (Stopped, log ++ calls path encodings ++ [StError msg]).
Proof.
  unfold loader. split.
  - intro Hall. apply bind_stopped. now apply try_encodings_else.
  - intro Heq. unfold bind in Heq.
    destruct (try_encodings msg path encodings log) as [[raw| |e] l] eqn:Hloop.
    + now apply lift_not_stopped in Heq.
    + now apply try_encodings_stopped in Hloop.
    + discriminate.
Qed.

Lemma loader_stopped path log log' :
  loader msg clean path log = (Stopped, log') -> Forall (undecodable path) encodings.
Proof.
  unfold loader, bind. intro Heq.
  destruct (try_encodings msg path encodings log) as [[raw| |e] l] eqn:Hloop.
  - now apply lift_not_stopped in Heq.
  - now apply try_encodings_stopped in Hloop.
  - discriminate.
Qed.

(** What a run that returns a frame went through. *)
Lemma loader_done path log d log' :
  loader msg clean path log = (Done d, log') ->
  exists pre enc post raw,
    encodings = pre ++ enc :: post /\
    Forall (undecodable path) pre /\
    read_csv path enc = Ok raw /\
    clean raw = Ok d /\
    log' = log ++ calls path (pre ++ [enc]).
Proof.
  unfold loader, bind. intro Heq.
  pose proof (try_encodings_end msg path encodings log) as Hend.
  destruct (try_encodings msg path encodings log) as [[raw| |e] l] eqn:Hloop;
    try discriminate.
  inversion Hend as [pre enc post raw' Hsplit Hpre Hok [Hraw Hl]| |]; subst.
  exists pre, enc, post, raw. repeat split; try assumption.
  - destruct (clean raw); cbn in Heq; unfold ret, raise in Heq; congruence.
  - destruct (clean raw); cbn in Heq; unfold ret, raise in Heq; congruence.
Qed.

End AnyLoader.

End Fallback.

(** Every encoding fails: the error is shown after the third call. *)
Example all_encodings_fail :
  @appProyectoFinal.load_data SampleData.lib_undecodable "conejos.csv" []
  = (Stopped,
     [ReadCsv "conejos.csv" "utf-8"; ReadCsv "conejos.csv" "latin1";
      ReadCsv "conejos.csv" "cp1252";
      StError "Error de lectura de datos (UTF-8/latin1/cp1252)."]).
Proof. reflexivity. Qed.

(** The first encoding fails, the second is used, the third is not
    tried. *)
Example second_encoding_used :
  @appProyectoFinal.load_data SampleData.lib "conejos.csv" []
  = (Done SampleData.loaded,
     [ReadCsv "conejos.csv" "utf-8"; ReadCsv "conejos.csv" "latin1"]).
Proof. vm_compute. reflexivity. Qed.

Lemma final_load_data_loader `{Pandas} path :
  appProyectoFinal.load_data path
  = loader appProyectoFinal.read_error_msg appProyectoFinal.clean path.
Proof. reflexivity. Qed.

Lemma app_load_data_loader `{Pandas} path :
  app.load_data path = loader app.read_error_msg app.clean path.
Proof. reflexivity. Qed.

(** C5. [load_data], in both scripts, tries utf-8, then latin1, then
    cp1252.  The first encoding on which [read_csv] does not raise a
    decode error is the one used: the frame it returns is the one
    cleaned (an exception of another kind goes to the caller), and the
    run has called [read_csv] for it and for the encodings before it
    only.  The run shows the read error and stops, without raising,
    exactly when all three raise a decode error. *)
Theorem load_data_encoding_fallback `{Pandas} (path : string) (log : list event) :
  encodings = ["utf-8"; "latin1"; "cp1252"] /\
  (forall pre enc post raw,
      encodings = pre ++ enc :: post ->
      Forall (undecodable path) pre ->
      read_csv path enc = Ok raw ->
      appProyectoFinal.load_data path log
      = lift (appProyectoFinal.clean raw) (log ++ calls path (pre ++ [enc])) /\
      app.load_data path log
      = lift (app.clean raw) (log ++ calls path (pre ++ [enc]))) /\
  (forall pre enc post e,
      encodings = pre ++ enc :: post ->
      Forall (undecodable path) pre ->
      read_csv path enc = Raise e ->
      e <> UnicodeDecodeError ->
      appProyectoFinal.load_data path log
      = (Raised e, log ++ calls path (pre ++ [enc])) /\
      app.load_data path log = (Raised e, log ++ calls path (pre ++ [enc]))) /\
  (Forall (undecodable path) encodings <->
   appProyectoFinal.load_data path log
   = (Stopped,
      log ++ calls path encodings ++ [StError appProyectoFinal.read_error_msg])) /\
  (Forall (undecodable path) encodings <->
   app.load_data path log
   = (Stopped, log ++ calls path encodings ++ [StError app.read_error_msg])) /\
  (forall log', appProyectoFinal.load_data path log = (Stopped, log') ->
                Forall (undecodable path) encodings) /\
  (forall log', app.load_data path log = (Stopped, log') ->
                Forall (undecodable path) encodings).
Proof.
  rewrite final_load_data_loader, app_load_data_loader.
  split; [reflexivity|]. split; [|split; [|split; [|split; [|split]]]].
  - intros pre enc post raw Hsplit Hpre Hok.
    split; now apply loader_break with (post := post).
  - intros pre enc post e Hsplit Hpre Hraise Hne.
    split; now apply loader_raise with (post := post).
  - apply loader_stops_iff.
  - apply loader_stops_iff.
  - intro log'. apply loader_stopped.
  - intro log'. apply loader_stopped.
Qed.

(** ** Latin-1 always decodes *)







Lemma reader_of_through_codecs fs table :
  (forall text, table text <> Raise UnicodeDecodeError) ->
  @reads_through_codecs (Sample.pandas (Sample.reader_of fs table)) fs.
Proof.
  intros Htable path enc Hun. unfold undecodable in Hun. cbn in Hun.
  unfold Sample.reader_of in Hun.
  destruct (fs path) as [bs|]; [|discriminate].
  destruct (codec_of enc) as [c|]; [|discriminate].
  destruct (decode c bs) as [text|] eqn:Hdec.
  - now apply Htable in Hun.
  - exists bs, c. repeat split; assumption.
Qed.


(** ** [load_data] of the final script *)

Section FinalLoader.
Context `{Pandas}.
Import appProyectoFinal.

Lemma notna_to_numeric (c : cell) :
  notna (to_numeric c) = present_and_numeric c.
Proof.
  destruct c as [f|s]; cbn; [reflexivity|].
  destruct (str_to_float s); reflexivity.
Qed.

Lemma has_coordinates_coerce cols fechas (r : RawRow) :
  has_coordinates (coerce cols fechas r) = valid_source_row r.
Proof.
  unfold has_coordinates, valid_source_row. cbn.
  now rewrite !notna_to_numeric.
Qed.

Lemma filter_map {A B} (p : B -> bool) (f : A -> B) (l : list A) :
  filter p (map f l) = map f (filter (fun x => p (f x)) l).
Proof.
  induction l as [|x l IH]; cbn; [reflexivity|].
  destruct (p (f x)); cbn; now rewrite IH.
Qed.

Lemma clean_rows raw :
  required_columns raw = true ->
  clean raw =
  Ok {| columns := map strip (raw_columns raw);
        rows := map (coerce (map strip (raw_columns raw))
                            (map raw_Fecha (raw_rows raw)))
                    (filter valid_source_row (raw_rows raw)) |}.
Proof.
  unfold required_columns, clean. cbn zeta.
  intro Hreq. apply andb_prop in Hreq as [Hreq He].
  apply andb_prop in Hreq as [Hla Hlo].
  rewrite Hla, Hlo, He. cbn [negb]. rewrite filter_map.
  do 3 f_equal. apply filter_ext. intro r. apply has_coordinates_coerce.
Qed.

Lemma clean_ok raw d :
  clean raw = Ok d -> required_columns raw = true.
Proof.
  unfold required_columns, clean. cbn zeta.
  destruct (mem "Latitud" _); [|discriminate].
  destruct (mem "Longitud" _); [|discriminate].
  destruct (mem "Especie" _); [|discriminate].
  reflexivity.
Qed.

End FinalLoader.

(** C1. Every row of the dataset [load_data] returns has a latitude and
    a longitude that are not missing.  The dataset is made, in order,
    of the rows of the frame read from the file whose two coordinates
    are present and numeric, so it has as many rows as there are of
    those. *)
Theorem load_data_keeps_valid_coordinates `{Pandas}
    (path : string) (log log' : list event) (d : appProyectoFinal.DataFrame) :
  appProyectoFinal.load_data path log = (Done d, log') ->
  Forall (fun r => notna (appProyectoFinal.Latitud r) = true /\
                   notna (appProyectoFinal.Longitud r) = true)
         (appProyectoFinal.rows d) /\
  exists enc raw,
    In enc encodings /\
    read_csv path enc = Ok raw /\
    appProyectoFinal.rows d
    = map (appProyectoFinal.coerce (map strip (raw_columns raw))
             (map raw_Fecha (raw_rows raw)))
          (filter valid_source_row (raw_rows raw)) /\
    List.length (appProyectoFinal.rows d)
    = List.length (filter valid_source_row (raw_rows raw)).
Proof.
  rewrite final_load_data_loader. intro Hload.
  apply loader_done in Hload
    as (pre & enc & post & raw & Hsplit & _ & Hok & Hclean & _).
  pose proof (clean_ok raw d Hclean) as Hreq.
  rewrite (clean_rows raw Hreq) in Hclean. injection Hclean as <-. cbn [appProyectoFinal.rows].
  split.
  - apply Forall_forall. intros r Hin.
    apply in_map_iff in Hin as (r0 & <- & Hin0).
    apply filter_In in Hin0 as [_ Hvalid].
    rewrite <- (has_coordinates_coerce (map strip (raw_columns raw))
                  (map raw_Fecha (raw_rows raw))) in Hvalid.
    now apply andb_prop in Hvalid.
  - exists enc, raw. repeat split.
    + rewrite Hsplit. apply in_or_app. right. now left.
    + assumption.
    + now rewrite length_map.
Qed.

Lemma load_data_keeps_valid_coordinates_witness :
  @appProyectoFinal.load_data SampleData.lib "conejos.csv" []
  = (Done SampleData.loaded, calls "conejos.csv" ["utf-8"; "latin1"]) /\
  Forall (fun r => notna (appProyectoFinal.Latitud r) = true /\
                   notna (appProyectoFinal.Longitud r) = true)
         (appProyectoFinal.rows SampleData.loaded) /\
  List.length (appProyectoFinal.rows SampleData.loaded) = 1.
Proof.
  assert (Hload : @appProyectoFinal.load_data SampleData.lib "conejos.csv" []
                  = (Done SampleData.loaded, calls "conejos.csv" ["utf-8"; "latin1"])).
  { vm_compute. reflexivity. }
  split; [exact Hload|].
  destruct (@load_data_keeps_valid_coordinates SampleData.lib _ _ _ _ Hload)
    as [Hall _].
  split; [exact Hall|]. vm_compute. reflexivity.
Defined.

(** ** Cells that are not numbers *)

Section Coercion.
Context `{Pandas}.

(** In the final script a coordinate that fails the coercion is
    missing afterwards. *)
Lemma to_numeric_unparseable (s : string) :
  str_to_float s = None -> to_numeric (CStr s) = NaN.
Proof. cbn. now intros ->. Qed.

(** ... and its row is not in the dataset. *)
Lemma final_clean_excludes_unparseable raw d r s :
  appProyectoFinal.clean raw = Ok d ->
  (raw_Latitud r = CStr s \/ raw_Longitud r = CStr s) ->
  str_to_float s = None ->
  ~ In (appProyectoFinal.coerce (map strip (raw_columns raw))
          (map raw_Fecha (raw_rows raw)) r)
       (appProyectoFinal.rows d).
Proof.
  intros Hclean Hcell Hs Hin.
  pose proof (clean_ok raw d Hclean) as Hreq.
  rewrite (clean_rows raw Hreq) in Hclean. injection Hclean as <-.
  cbn [appProyectoFinal.rows] in Hin.
  apply in_map_iff in Hin as (r0 & Heq & Hin0).
  apply filter_In in Hin0 as [_ Hvalid].
  rewrite <- (has_coordinates_coerce (map strip (raw_columns raw))
                (map raw_Fecha (raw_rows raw))) in Hvalid.
  rewrite Heq, has_coordinates_coerce in Hvalid.
  unfold valid_source_row in Hvalid. apply andb_prop in Hvalid as [Hla Hlo].
  destruct Hcell as [Hc | Hc]; rewrite Hc in *; cbn in *; rewrite Hs in *; discriminate.
Qed.

(** In the final script no cell makes [load_data] raise: with the three
    columns in the header it returns whatever the cells hold. *)
Lemma final_load_data_returns path log pre enc post raw :
  encodings = pre ++ enc :: post ->
  Forall (undecodable path) pre ->
  read_csv path enc = Ok raw ->
  required_columns raw = true ->
  exists d, appProyectoFinal.load_data path log
            = (Done d, log ++ calls path (pre ++ [enc])).
Proof.
  intros Hsplit Hpre Hok Hreq. rewrite final_load_data_loader.
  rewrite (loader_break _ _ path log pre enc post raw Hsplit Hpre Hok).
  rewrite (clean_rows raw Hreq). eexists. reflexivity.
Qed.

(** [astype(float)] raises nothing but [ValueError]. *)
Lemma traverse_astype_float_raises (l : list cell) (c : cell) :
  In c l -> astype_float c = Raise ValueError ->
  app.traverse astype_float l = Raise ValueError.
Proof.
  induction l as [|x l IH]; intros Hin Hc; [contradiction|].
  cbn. destruct Hin as [-> | Hin].
  - now rewrite Hc.
  - destruct x as [f|s]; cbn.
    + now rewrite (IH Hin Hc).
    + destruct (float_of_str s); cbn; [now rewrite (IH Hin Hc)|reflexivity].
Qed.

(** In [app.py] the conversion comes after [dropna] and raises: a row
    that has both coordinates, one of them text that [float] rejects,
    makes [load_data] fail with [ValueError]. *)
Lemma app_clean_raises raw r s :
  mem "Latitud" (raw_columns raw) = true ->
  mem "Longitud" (raw_columns raw) = true ->
  In r (raw_rows raw) ->
  raw_Latitud r = CStr s ->
  float_of_str s = None ->
  cell_isna (raw_Longitud r) = false ->
  app.clean raw = Raise ValueError.
Proof.
  intros Hla Hlo Hin Hcell Hs Hlon. unfold app.clean. cbn zeta.
  rewrite Hla, Hlo. cbn [negb].
  rewrite (traverse_astype_float_raises _ (CStr s)); [reflexivity| |].
  - apply in_map_iff. exists r. split; [assumption|].
    apply filter_In. split; [assumption|].
    unfold app.has_coordinates. now rewrite Hcell, Hlon.
  - cbn. now rewrite Hs.
Qed.

End Coercion.

(** C2, at the inputs where [app.py] departs from it.  The frame read
    from the file has a row whose latitude is text that is not a number
    and whose longitude is present.  [load_data] of [app.py] raises
    [ValueError] on it; [load_data] of the final script, given the same
    frame, returns a dataset without that row. *)
Theorem app_load_data_raises_on_text_latitude `{Pandas}
    (path : string) (log : list event) (pre post : list string) (enc : string)
    (raw : RawFrame) (r : RawRow) (s : string) :
  encodings = pre ++ enc :: post ->
  Forall (undecodable path) pre ->
  read_csv path enc = Ok raw ->
  mem "Latitud" (raw_columns raw) = true ->
  mem "Longitud" (raw_columns raw) = true ->
  In r (raw_rows raw) ->
  raw_Latitud r = CStr s ->
  cell_isna (raw_Longitud r) = false ->
  float_of_str s = None ->
  str_to_float s = None ->
  app.load_data path log = (Raised ValueError, log ++ calls path (pre ++ [enc])) /\
  (required_columns raw = true ->
   exists d,
     appProyectoFinal.load_data path log
     = (Done d, log ++ calls path (pre ++ [enc])) /\
     ~ In (appProyectoFinal.coerce (map strip (raw_columns raw))
             (map raw_Fecha (raw_rows raw)) r)
          (appProyectoFinal.rows d)).
Proof.
  intros Hsplit Hpre Hok Hla Hlo Hin Hcell Hlon Hfloat Hnum. split.
  - rewrite app_load_data_loader.
    rewrite (loader_break _ _ path log pre enc post raw Hsplit Hpre Hok).
    now rewrite (app_clean_raises raw r s).
  - intro Hreq.
    destruct (final_load_data_returns path log pre enc post raw Hsplit Hpre Hok Hreq)
      as [d Hd].
    exists d. split; [exact Hd|].
    apply final_clean_excludes_unparseable with s; [|now left|assumption].
    rewrite final_load_data_loader in Hd.
    rewrite (loader_break _ _ path log pre enc post raw Hsplit Hpre Hok) in Hd.
    destruct (appProyectoFinal.clean raw); cbn in Hd; unfold ret, raise in Hd;
      congruence.
Qed.

Lemma app_load_data_raises_on_text_latitude_witness :
  @app.load_data SampleData.lib_plain "conejos.csv" []
  = (Raised ValueError, calls "conejos.csv" ["utf-8"; "latin1"]) /\
  exists d,
    @appProyectoFinal.load_data SampleData.lib_plain "conejos.csv" []
    = (Done d, calls "conejos.csv" ["utf-8"; "latin1"]).
Proof.
  destruct (@app_load_data_raises_on_text_latitude SampleData.lib_plain
              "conejos.csv" [] ["utf-8"] ["cp1252"] "latin1" SampleData.plain_frame
              (nth 1 (raw_rows SampleData.plain_frame)
                   (SampleData.row SampleData.missing SampleData.missing
                      SampleData.missing SampleData.missing SampleData.missing
                      SampleData.missing))
              "abc")
    as [Happ Hfinal].
  - reflexivity.
  - constructor; [reflexivity|constructor].
  - reflexivity.
  - reflexivity.
  - reflexivity.
  - right. left. reflexivity.
  - reflexivity.
  - reflexivity.
  - reflexivity.
  - reflexivity.
  - split; [exact Happ|].
    destruct (Hfinal eq_refl) as (d & Hd & _). now exists d.
Defined.

(** ** The filter steps *)

Lemma mem_In (x : string) (l : list string) : mem x l = true <-> In x l.
Proof.
  unfold mem. rewrite existsb_exists. split.
  - intros (y & Hin & Heq). apply String.eqb_eq in Heq. now subst.
  - intro Hin. exists x. split; [assumption|apply String.eqb_refl].
Qed.

Lemma filter_and {A} (p q : A -> bool) (l : list A) :
  filter q (filter p l) = filter (fun x => p x && q x) l.
Proof.
  induction l as [|x l IH]; cbn; [reflexivity|].
  destruct (p x); cbn; [destruct (q x)|]; now rewrite IH.
Qed.

Lemma filter_true {A} (l : list A) : filter (fun _ => true) l = l.
Proof. induction l as [|x l IH]; cbn; now rewrite ?IH. Qed.

Lemma filter_length_mono {A} (p q : A -> bool) (l : list A) :
  (forall x, In x l -> p x = true -> q x = true) ->
  List.length (filter p l) <= List.length (filter q l).
Proof.
  induction l as [|x l IH]; intro Hpq; cbn; [lia|].
  assert (IH' : List.length (filter p l) <= List.length (filter q l)).
  { apply IH. intros y Hy. apply Hpq. now right. }
  destruct (p x) eqn:Hp.
  - rewrite (Hpq x (or_introl eq_refl) Hp). cbn. lia.
  - destruct (q x); cbn; lia.
Qed.

Section Steps.
Context `{Pandas}.
Import appProyectoFinal.

Lemma select_true (d : DataFrame) : select (fun _ => true) d = d.
Proof. destruct d as [cols rs]. unfold select. cbn. now rewrite filter_true. Qed.

Lemma species_step_select c d : species_step c d = select (species_ok c) d.
Proof.
  unfold species_step, species_ok.
  destruct (selected_species c); [now rewrite select_true|reflexivity].
Qed.

Lemma fecha_step_select hf c d : fecha_step hf c d = select (fecha_ok hf c) d.
Proof.
  unfold fecha_step, fecha_ok. destruct hf; [|now rewrite select_true].
  destruct (start_dt c), (end_dt c); now rewrite ?select_true.
Qed.

Lemma alt_step_select ha c d : alt_step ha c d = select (alt_ok ha c) d.
Proof.
  unfold alt_step, alt_ok. destruct ha; [|now rewrite select_true].
  destruct (alt_min_sel c), (alt_max_sel c); now rewrite ?select_true.
Qed.

Lemma lugar_step_select c d :
  lugar_runs c d = true -> lugar_step c d = Ok (select (lugar_ok c) d).
Proof.
  unfold lugar_runs, lugar_step, lugar_ok.
  destruct (String.eqb (lugar_text c) ""); [now rewrite select_true|].
  cbn [orb]. intro Hruns. apply andb_prop in Hruns as [Hcol Hrx].
  rewrite Hcol. cbn [negb]. destruct (re_compile_i (lugar_text c)); [|discriminate].
  reflexivity.
Qed.

Lemma lugar_step_ok c d d' : lugar_step c d = Ok d' -> lugar_runs c d = true.
Proof.
  unfold lugar_runs, lugar_step.
  destruct (String.eqb (lugar_text c) ""); [reflexivity|].
  destruct (mem "Lugar" (columns d)); [|discriminate].
  destruct (re_compile_i (lugar_text c)); [reflexivity|discriminate].
Qed.

Lemma select_select p q d :
  select q (select p d) = select (fun r => p r && q r) d.
Proof. unfold select. cbn. now rewrite filter_and. Qed.

(** The pipeline returns exactly when the location step runs, and then
    it is one selection by the conjunction of the four tests. *)
Lemma filter_pipeline_select hf ha c d :
  lugar_runs c d = true ->
  filter_pipeline hf ha c d = Ok (select (all_ok hf ha c) d).
Proof.
  intro Hruns. unfold filter_pipeline. cbn zeta.
  rewrite species_step_select.
  rewrite lugar_step_select by exact Hruns.
  cbn [rbind]. rewrite fecha_step_select, alt_step_select.
  rewrite !select_select. unfold select. do 2 f_equal.
  apply filter_ext. intro r. unfold all_ok. now rewrite !andb_assoc.
Qed.

Lemma filter_pipeline_ok hf ha c d v :
  filter_pipeline hf ha c d = Ok v -> lugar_runs c d = true.
Proof.
  unfold filter_pipeline. cbn zeta.
  destruct (lugar_step c (species_step c d)) as [f|e] eqn:Hl; [|discriminate].
  intros _. apply lugar_step_ok in Hl.
  unfold lugar_runs in *. rewrite species_step_select in Hl. exact Hl.
Qed.

Lemma filter_pipeline_rows hf ha c d v :
  filter_pipeline hf ha c d = Ok v ->
  columns v = columns d /\ rows v = filter (all_ok hf ha c) (rows d).
Proof.
  intro Hp. pose proof (filter_pipeline_ok _ _ _ _ _ Hp) as Hruns.
  rewrite (filter_pipeline_select hf ha c d Hruns) in Hp.
  injection Hp as <-. split; reflexivity.
Qed.

End Steps.

(** ** The location filter *)

(** C3, at the input where the code departs from it.  The column is
    turned into text before the search, so a missing location is the
    text [nan] by then and [na=False] has nothing left to act on: with
    the filter text [nan] (with any pattern that the text [nan]
    matches) a row without location is kept. *)
Theorem lugar_filter_keeps_missing_location `{Pandas}
    (c : appProyectoFinal.Criteria) (d : appProyectoFinal.DataFrame)
    (r : appProyectoFinal.Row) (rx : regex) :
  appProyectoFinal.lugar_text c <> "" ->
  re_compile_i (appProyectoFinal.lugar_text c) = Some rx ->
  re_search rx "nan" = true ->
  mem "Lugar" (appProyectoFinal.columns d) = true ->
  In r (appProyectoFinal.rows d) ->
  appProyectoFinal.Lugar r = CNum NaN ->
  exists d',
    appProyectoFinal.lugar_step c d = Ok d' /\
    In r (appProyectoFinal.rows d').
Proof.
  intros Htext Hrx Hsearch Hcol Hin Hlugar.
  unfold appProyectoFinal.lugar_step.
  apply String.eqb_neq in Htext. rewrite Htext, Hcol, Hrx. cbn [negb].
  eexists. split; [reflexivity|].
  cbn. apply filter_In. split; [assumption|].
  rewrite Hlugar. cbn. assumption.
Qed.

Lemma lugar_filter_keeps_missing_location_witness :
  appProyectoFinal.Lugar SampleData.second_row = CNum NaN /\
  exists d',
    @appProyectoFinal.lugar_step SampleData.lib
      (SampleData.criteria [] "nan" None None) SampleData.dataset = Ok d' /\
    In SampleData.second_row (appProyectoFinal.rows d').
Proof.
  split; [reflexivity|].
  apply (@lugar_filter_keeps_missing_location SampleData.lib
           (SampleData.criteria [] "nan" None None) SampleData.dataset
           SampleData.second_row "nan").
  - discriminate.
  - reflexivity.
  - reflexivity.
  - reflexivity.
  - right. left. reflexivity.
  - reflexivity.
Defined.

(** Where the location filter does what its label says: a text without
    metacharacters, on locations that are ASCII text, keeps the rows
    whose location contains it, letter case ignored. *)
Lemma lugar_filter_plain_text `{Pandas}
    (c : appProyectoFinal.Criteria) (d : appProyectoFinal.DataFrame) :
  literal_patterns ->
  appProyectoFinal.lugar_text c <> "" ->
  Sample.plain (appProyectoFinal.lugar_text c) = true ->
  mem "Lugar" (appProyectoFinal.columns d) = true ->
  Forall (fun r => Sample.ascii_only (astype_str (appProyectoFinal.Lugar r)) = true)
         (appProyectoFinal.rows d) ->
  exists d',
    appProyectoFinal.lugar_step c d = Ok d' /\
    appProyectoFinal.rows d'
    = filter (fun r => icontains (appProyectoFinal.lugar_text c)
                                 (astype_str (appProyectoFinal.Lugar r)))
             (appProyectoFinal.rows d).
Proof.
  intros Hlaw Htext Hplain Hcol Hascii.
  destruct (Hlaw _ Hplain) as (rx & Hrx & Hsearch).
  unfold appProyectoFinal.lugar_step.
  apply String.eqb_neq in Htext. rewrite Htext, Hcol, Hrx. cbn [negb].
  eexists. split; [reflexivity|].
  cbn [appProyectoFinal.select appProyectoFinal.rows].
  apply filter_ext_in. intros r Hin. rewrite Forall_forall in Hascii.
  cbn [appProyectoFinal.str_contains]. now apply Hsearch, Hascii.
Qed.

(** Scenario D of the specification, and the text [nan] beside it. *)
Example lugar_filter_scenario :
  option_map (fun d' => map appProyectoFinal.Lugar (appProyectoFinal.rows d'))
    (match @appProyectoFinal.lugar_step SampleData.lib
             (SampleData.criteria [] "San Carlos" None None) SampleData.dataset with
     | Ok d' => Some d' | Raise _ => None end)
  = Some [CStr "san carlos, alajuela"] /\
  option_map (fun d' => map appProyectoFinal.Lugar (appProyectoFinal.rows d'))
    (match @appProyectoFinal.lugar_step SampleData.lib
             (SampleData.criteria [] "nan" None None) SampleData.dataset with
     | Ok d' => Some d' | Raise _ => None end)
  = Some [CNum NaN].
Proof. split; reflexivity. Qed.

(** ** The species filter *)

(** C4. With an empty selection the pipeline is the pipeline without
    the species step, for every dataset, every flag and every other
    criterion; with a selection that is not empty the species step
    keeps, in order, the rows whose species is in the selection, and
    only those. *)
Theorem species_filter_empty_or_member `{Pandas}
    (hf ha : bool) (c : appProyectoFinal.Criteria) (d : appProyectoFinal.DataFrame) :
  (appProyectoFinal.selected_species c = [] ->
   appProyectoFinal.species_step c d = d /\
   appProyectoFinal.filter_pipeline hf ha c d = pipeline_without_species hf ha c d) /\
  (appProyectoFinal.selected_species c <> [] ->
   appProyectoFinal.columns (appProyectoFinal.species_step c d)
   = appProyectoFinal.columns d /\
   appProyectoFinal.rows (appProyectoFinal.species_step c d)
   = filter (fun r => mem (appProyectoFinal.Especie r)
                          (appProyectoFinal.selected_species c))
            (appProyectoFinal.rows d) /\
   forall r,
     In r (appProyectoFinal.rows (appProyectoFinal.species_step c d)) <->
     In r (appProyectoFinal.rows d) /\
     In (appProyectoFinal.Especie r) (appProyectoFinal.selected_species c)).
Proof.
  split.
  - intro Hsel. unfold appProyectoFinal.filter_pipeline, pipeline_without_species.
    cbn zeta. unfold appProyectoFinal.species_step. rewrite Hsel.
    split; reflexivity.
  - intro Hsel. unfold appProyectoFinal.species_step.
    destruct (appProyectoFinal.selected_species c) as [|s l] eqn:Hl;
      [contradiction|].
    cbn [appProyectoFinal.select appProyectoFinal.rows appProyectoFinal.columns].
    split; [reflexivity|]. split; [reflexivity|].
    intro r. rewrite filter_In. now rewrite (mem_In _ (s :: l)).
Qed.

(** Scenario A of the specification: three rows, two of species X. *)
Example species_filter_scenario :
  map appProyectoFinal.Especie
    (appProyectoFinal.rows
       (appProyectoFinal.species_step
          (SampleData.criteria ["Sylvilagus X"] "" None None) SampleData.dataset))
  = ["Sylvilagus X"; "Sylvilagus X"].
Proof. reflexivity. Qed.

(** ** The date and altitude filters *)

Section Ranges.
Import appProyectoFinal.

Lemma notnat_iff (t : timestamp) : notnat t = true <-> t <> NaT.
Proof. destruct t; cbn; split; congruence. Qed.

Lemma notna_iff (f : float) : notna f = true <-> f <> NaN.
Proof. destruct f; cbn; split; congruence. Qed.

Lemma has_fecha_iff (d : DataFrame) :
  has_fecha d = true <->
  In "Fecha" (columns d) /\ exists r, In r (rows d) /\ Fecha r <> NaT.
Proof.
  unfold has_fecha. rewrite andb_true_iff, mem_In, existsb_exists.
  split; intros [Hc (r & Hin & Hr)]; (split; [assumption|]);
    exists r; (split; [assumption|]); now apply notnat_iff.
Qed.

Lemma has_alt_iff (d : DataFrame) :
  has_alt d = true <->
  In "Altitud" (columns d) /\ exists r, In r (rows d) /\ Altitud r <> NaN.
Proof.
  unfold has_alt. rewrite andb_true_iff, mem_In, existsb_exists.
  split; intros [Hc (r & Hin & Hr)]; (split; [assumption|]);
    exists r; (split; [assumption|]); now apply notna_iff.
Qed.

(** A date within the two bounds, both included. *)
Lemma ts_between_iff (lo hi : Z) (t : timestamp) :
  ts_between lo hi t = true <-> exists n, t = Ts n /\ (lo <= n <= hi)%Z.
Proof.
  destruct t as [|n]; cbn.
  - split; [discriminate|]. intros (n & Hn & _). discriminate.
  - rewrite andb_true_iff, !Z.leb_le. split.
    + intro Hr. exists n. now split.
    + intros (m & Hm & Hr). injection Hm as ->. assumption.
Qed.

(** An altitude within the two bounds, both included. *)
Lemma between_iff (a b : Z) (x : float) :
  between (float_of_int a) (float_of_int b) x = true <->
  exists q, x = Fin q /\ (inject_Z a <= q)%Q /\ (q <= inject_Z b)%Q.
Proof.
  unfold between, float_of_int. destruct x as [| |q|]; cbn.
  - split; [discriminate|]. intros (q & Hq & _). discriminate.
  - split; [discriminate|]. intros (q & Hq & _). discriminate.
  - rewrite andb_true_iff, !Qle_bool_iff. split.
    + intro Hr. exists q. now split.
    + intros (q' & Hq & Hr). injection Hq as ->. assumption.
  - split; [discriminate|]. intros (q & Hq & _). discriminate.
Qed.

End Ranges.

(** C6. The two flags hold exactly when the column is in the header
    and has a value that is not missing.  The date step and the
    altitude step leave the frame as it is unless their flag is set and
    both ends of the range are given; otherwise they keep, in order,
    the rows whose value lies between the two ends, ends included (a
    missing value lies in no range).  With a flag unset, the view does
    not depend on the range at all. *)
Theorem range_filters_gated_and_inclusive `{Pandas}
    (hf ha : bool) (c : appProyectoFinal.Criteria) (d : appProyectoFinal.DataFrame) :
  (appProyectoFinal.has_fecha d = true <->
   In "Fecha" (appProyectoFinal.columns d) /\
   exists r, In r (appProyectoFinal.rows d) /\ appProyectoFinal.Fecha r <> NaT) /\
  (appProyectoFinal.has_alt d = true <->
   In "Altitud" (appProyectoFinal.columns d) /\
   exists r, In r (appProyectoFinal.rows d) /\ appProyectoFinal.Altitud r <> NaN) /\
  (hf = false \/ appProyectoFinal.start_dt c = None \/ appProyectoFinal.end_dt c = None ->
   appProyectoFinal.fecha_step hf c d = d) /\
  (ha = false \/ appProyectoFinal.alt_min_sel c = None
   \/ appProyectoFinal.alt_max_sel c = None ->
   appProyectoFinal.alt_step ha c d = d) /\
  (forall s e,
      hf = true ->
      appProyectoFinal.start_dt c = Some s ->
      appProyectoFinal.end_dt c = Some e ->
      appProyectoFinal.columns (appProyectoFinal.fecha_step hf c d)
      = appProyectoFinal.columns d /\
      (exists keep, appProyectoFinal.rows (appProyectoFinal.fecha_step hf c d)
                    = filter keep (appProyectoFinal.rows d)) /\
      forall r,
        In r (appProyectoFinal.rows (appProyectoFinal.fecha_step hf c d)) <->
        In r (appProyectoFinal.rows d) /\
        exists n, appProyectoFinal.Fecha r = Ts n /\
                  (timestamp_of_datetime s <= n <= timestamp_of_datetime e)%Z) /\
  (forall a b,
      ha = true ->
      appProyectoFinal.alt_min_sel c = Some a ->
      appProyectoFinal.alt_max_sel c = Some b ->
      appProyectoFinal.columns (appProyectoFinal.alt_step ha c d)
      = appProyectoFinal.columns d /\
      (exists keep, appProyectoFinal.rows (appProyectoFinal.alt_step ha c d)
                    = filter keep (appProyectoFinal.rows d)) /\
      forall r,
        In r (appProyectoFinal.rows (appProyectoFinal.alt_step ha c d)) <->
        In r (appProyectoFinal.rows d) /\
        exists q, appProyectoFinal.Altitud r = Fin q /\
                  (inject_Z a <= q)%Q /\ (q <= inject_Z b)%Q).
Proof.
  split; [apply has_fecha_iff|]. split; [apply has_alt_iff|].
  split; [|split; [|split]].
  - unfold appProyectoFinal.fecha_step.
    intros [-> | [Hs | He]]; [reflexivity| |].
    + rewrite Hs. now destruct hf.
    + rewrite He. destruct hf; [|reflexivity].
      now destruct (appProyectoFinal.start_dt c).
  - unfold appProyectoFinal.alt_step.
    intros [-> | [Ha | Hb]]; [reflexivity| |].
    + rewrite Ha. now destruct ha.
    + rewrite Hb. destruct ha; [|reflexivity].
      now destruct (appProyectoFinal.alt_min_sel c).
  - intros s e -> Hs He. unfold appProyectoFinal.fecha_step. rewrite Hs, He.
    cbn. split; [reflexivity|]. split; [eexists; reflexivity|].
    intro r. now rewrite filter_In, ts_between_iff.
  - intros a b -> Ha Hb. unfold appProyectoFinal.alt_step. rewrite Ha, Hb.
    cbn. split; [reflexivity|]. split; [eexists; reflexivity|].
    intro r. now rewrite filter_In, between_iff.
Qed.

(** Scenario C of the specification: an altitude column without a
    value unsets the flag, no bounds are computed, and an altitude range
    left in the session filters nothing. *)
Example all_altitudes_missing :
  appProyectoFinal.has_alt SampleData.without_altitudes = false /\
  appProyectoFinal.alt_bounds SampleData.without_altitudes = Ok None /\
  @appProyectoFinal.filter_pipeline SampleData.lib
    (appProyectoFinal.has_fecha SampleData.without_altitudes)
    (appProyectoFinal.has_alt SampleData.without_altitudes)
    (SampleData.criteria [] "" None (Some (0, 10)%Z))
    SampleData.without_altitudes
  = Ok SampleData.without_altitudes.
Proof. repeat split. Qed.

(** ** Monotonicity *)

Section Monotone.
Context `{Pandas}.
Import appProyectoFinal.

Lemma fle_trans (a b c : float) :
  fle a b = true -> fle b c = true -> fle a c = true.
Proof.
  destruct a as [| |x|], b as [| |y|], c as [| |z|]; cbn;
    try reflexivity; try discriminate.
  rewrite !Qle_bool_iff. apply Qle_trans.
Qed.

Lemma fle_float_of_int (a b : Z) :
  (a <= b)%Z -> fle (float_of_int a) (float_of_int b) = true.
Proof.
  intro Hab. unfold float_of_int, fle. apply Qle_bool_iff.
  now rewrite <- Zle_Qle.
Qed.

Lemma between_widen (a b a' b' : Z) (x : float) :
  (a <= a')%Z -> (b' <= b)%Z ->
  between (float_of_int a') (float_of_int b') x = true ->
  between (float_of_int a) (float_of_int b) x = true.
Proof.
  unfold between. intros Ha Hb Hx. apply andb_prop in Hx as [Hlo Hhi].
  apply andb_true_intro. split.
  - apply fle_trans with (float_of_int a'); [now apply fle_float_of_int|assumption].
  - apply fle_trans with (float_of_int b'); [assumption|now apply fle_float_of_int].
Qed.

Lemma ts_between_widen (s e s' e' : datetime) (t : timestamp) :
  (s <= s')%Z -> (e' <= e)%Z ->
  ts_between (timestamp_of_datetime s') (timestamp_of_datetime e') t = true ->
  ts_between (timestamp_of_datetime s) (timestamp_of_datetime e) t = true.
Proof.
  intros Hs He. rewrite !ts_between_iff. unfold timestamp_of_datetime.
  intros (n & Hn & Hr). exists n. split; [assumption|lia].
Qed.

(** Two criteria with the same location text: if every row the first
    keeps is kept by the second, the first view is no longer than the
    second. *)
Lemma filter_pipeline_mono hf ha c c' d v :
  lugar_text c' = lugar_text c ->
  (forall r, all_ok hf ha c r = true -> all_ok hf ha c' r = true) ->
  filter_pipeline hf ha c d = Ok v ->
  exists v', filter_pipeline hf ha c' d = Ok v' /\
             List.length (rows v) <= List.length (rows v').
Proof.
  intros Htext Hok Hp.
  pose proof (filter_pipeline_ok _ _ _ _ _ Hp) as Hruns.
  assert (Hruns' : lugar_runs c' d = true).
  { unfold lugar_runs in *. now rewrite Htext. }
  rewrite (filter_pipeline_select hf ha c d Hruns) in Hp. injection Hp as <-.
  exists (select (all_ok hf ha c') d). split.
  - now apply filter_pipeline_select.
  - cbn. apply filter_length_mono. intros r _. apply Hok.
Qed.

Lemma all_ok_parts hf ha c r :
  all_ok hf ha c r = true <->
  species_ok c r = true /\ lugar_ok c r = true /\
  fecha_ok hf c r = true /\ alt_ok ha c r = true.
Proof. unfold all_ok. rewrite !andb_true_iff. tauto. Qed.

End Monotone.

(** C7. Take criteria on which the pipeline returns a view.  Selecting
    more species, from a selection that is not empty (one more species
    is the case of a list with one more element), gives a view with at
    least as many rows; replacing the date range, or the altitude
    range, by a range inside it gives a view with at most as many. *)
Theorem filtered_view_monotone `{Pandas}
    (hf ha : bool) (c : appProyectoFinal.Criteria)
    (d v : appProyectoFinal.DataFrame) :
  appProyectoFinal.filter_pipeline hf ha c d = Ok v ->
  (forall l,
      appProyectoFinal.selected_species c <> [] ->
      incl (appProyectoFinal.selected_species c) l ->
      exists v',
        appProyectoFinal.filter_pipeline hf ha (Change.species l c) d = Ok v' /\
        List.length (appProyectoFinal.rows v)
        <= List.length (appProyectoFinal.rows v')) /\
  (forall s e s' e',
      appProyectoFinal.start_dt c = Some s ->
      appProyectoFinal.end_dt c = Some e ->
      (s <= s')%Z -> (e' <= e)%Z ->
      exists v',
        appProyectoFinal.filter_pipeline hf ha
          (Change.dates (Some s') (Some e') c) d = Ok v' /\
        List.length (appProyectoFinal.rows v')
        <= List.length (appProyectoFinal.rows v)) /\
  (forall a b a' b',
      appProyectoFinal.alt_min_sel c = Some a ->
      appProyectoFinal.alt_max_sel c = Some b ->
      (a <= a')%Z -> (b' <= b)%Z ->
      exists v',
        appProyectoFinal.filter_pipeline hf ha
          (Change.altitudes (Some a') (Some b') c) d = Ok v' /\
        List.length (appProyectoFinal.rows v')
        <= List.length (appProyectoFinal.rows v)).
Proof.
  intro Hp. split; [|split].
  - intros l Hne Hincl.
    apply (filter_pipeline_mono hf ha c (Change.species l c) d v);
      [reflexivity| |assumption].
    intro r. rewrite !all_ok_parts. intros (Hs & Hl & Hf & Ha).
    repeat split; try assumption.
    unfold species_ok in *. unfold Change.species.
    cbn [appProyectoFinal.selected_species].
    destruct (appProyectoFinal.selected_species c) as [|x xs] eqn:Hsel;
      [contradiction|].
    apply mem_In in Hs. apply Hincl in Hs.
    destruct l as [|y ys]; [contradiction|]. now apply mem_In.
  - intros s e s' e' Hs He Hss Hee.
    pose proof (filter_pipeline_ok _ _ _ _ _ Hp) as Hruns.
    assert (Hruns' : lugar_runs (Change.dates (Some s') (Some e') c) d = true)
      by exact Hruns.
    destruct (filter_pipeline_mono hf ha (Change.dates (Some s') (Some e') c) c d
                (appProyectoFinal.select
                   (all_ok hf ha (Change.dates (Some s') (Some e') c)) d))
      as (v0 & Hv0 & Hlen).
    + reflexivity.
    + intro r. rewrite !all_ok_parts. intros (Hsp & Hl & Hf & Ha).
      repeat split; try assumption.
      unfold fecha_ok in *. cbn in Hf. rewrite Hs, He.
      destruct hf; [|reflexivity].
      now apply ts_between_widen with s' e'.
    + now apply filter_pipeline_select.
    + rewrite Hp in Hv0. injection Hv0 as <-.
      eexists. split; [now apply filter_pipeline_select|exact Hlen].
  - intros a b a' b' Ha Hb Haa Hbb.
    pose proof (filter_pipeline_ok _ _ _ _ _ Hp) as Hruns.
    assert (Hruns' : lugar_runs (Change.altitudes (Some a') (Some b') c) d = true)
      by exact Hruns.
    destruct (filter_pipeline_mono hf ha (Change.altitudes (Some a') (Some b') c) c d
                (appProyectoFinal.select
                   (all_ok hf ha (Change.altitudes (Some a') (Some b') c)) d))
      as (v0 & Hv0 & Hlen).
    + reflexivity.
    + intro r. rewrite !all_ok_parts. intros (Hsp & Hl & Hf & Hal).
      repeat split; try assumption.
      unfold alt_ok in *. cbn in Hal. rewrite Ha, Hb.
      destruct ha; [|reflexivity].
      now apply between_widen with a' b'.
    + now apply filter_pipeline_select.
    + rewrite Hp in Hv0. injection Hv0 as <-.
      eexists. split; [now apply filter_pipeline_select|exact Hlen].
Qed.

Lemma filtered_view_monotone_witness :
  @appProyectoFinal.filter_pipeline SampleData.lib true true
    SampleData.narrow SampleData.dataset = Ok SampleData.narrow_view /\
  List.length (appProyectoFinal.rows SampleData.narrow_view) = 1 /\
  exists v',
    @appProyectoFinal.filter_pipeline SampleData.lib true true
      (Change.species ["Sylvilagus X"; "Sylvilagus Y"] SampleData.narrow)
      SampleData.dataset = Ok v' /\
    List.length (appProyectoFinal.rows SampleData.narrow_view)
    <= List.length (appProyectoFinal.rows v').
Proof.
  assert (Hp : @appProyectoFinal.filter_pipeline SampleData.lib true true
                 SampleData.narrow SampleData.dataset = Ok SampleData.narrow_view)
    by (vm_compute; reflexivity).
  split; [exact Hp|]. split; [vm_compute; reflexivity|].
  destruct (@filtered_view_monotone SampleData.lib true true SampleData.narrow
              SampleData.dataset SampleData.narrow_view Hp) as [Hspecies _].
  apply Hspecies.
  - discriminate.
  - intros x [<- | []]. left. reflexivity.
Defined.

(** ** The empty view *)

Section Guard.
Context `{Pandas}.
Import appProyectoFinal.

Lemma filter_stage_df hf ha c v v' :
  filter_stage hf ha c v = Ok v' -> df v' = df v.
Proof.
  unfold filter_stage. destruct (filter_pipeline hf ha c (df v)); [|discriminate].
  cbn. intro Heq. injection Heq as <-. reflexivity.
Qed.

Lemma empty_no_rows (d : DataFrame) : rows d = [] -> empty d = true.
Proof. unfold empty. now intros ->. Qed.

Lemma empty_guard_stops v log :
  rows (filtered_df v) = [] ->
  empty_guard v log = (Stopped, log ++ [StWarning no_match_msg]).
Proof.
  intro Hrows. unfold empty_guard. now rewrite (empty_no_rows _ Hrows).
Qed.

Lemma filter_and_guard_stops hf ha c d f log :
  filter_pipeline hf ha c d = Ok f ->
  rows f = [] ->
  filter_and_guard hf ha c {| df := d; filtered_df := d |} log
  = (Stopped, log ++ [StWarning no_match_msg]).
Proof.
  intros Hp Hrows. unfold filter_and_guard, filter_stage. cbn [df].
  rewrite Hp. cbn [rbind lift].
  rewrite (bind_done (ret _) _ log _ log) by reflexivity.
  now apply empty_guard_stops.
Qed.

End Guard.

(** C8. When the filters return a view without rows, the run neither
    raises nor goes on: the warning is shown and the run stops there,
    whatever would have come next, and the dataset the script holds is
    the one it held before the filters. *)
Theorem empty_view_stops_without_error `{Pandas}
    (hf ha : bool) (c : appProyectoFinal.Criteria)
    (d f : appProyectoFinal.DataFrame) (log : list event) :
  appProyectoFinal.filter_pipeline hf ha c d = Ok f ->
  appProyectoFinal.rows f = [] ->
  let v := {| appProyectoFinal.df := d; appProyectoFinal.filtered_df := d |} in
  let v' := {| appProyectoFinal.df := d; appProyectoFinal.filtered_df := f |} in
  appProyectoFinal.filter_stage hf ha c v = Ok v' /\
  appProyectoFinal.filter_and_guard hf ha c v log
  = (Stopped, log ++ [StWarning appProyectoFinal.no_match_msg]) /\
  forall (B : Type) (rest : appProyectoFinal.Vars -> St B),
    bind (appProyectoFinal.filter_and_guard hf ha c v) rest log
    = (Stopped, log ++ [StWarning appProyectoFinal.no_match_msg]).
Proof.
  intros Hp Hrows v v'.
  assert (Hstage : appProyectoFinal.filter_stage hf ha c v = Ok v').
  { unfold appProyectoFinal.filter_stage. subst v v'. cbn. now rewrite Hp. }
  assert (Hguard : appProyectoFinal.filter_and_guard hf ha c v log
                   = (Stopped, log ++ [StWarning appProyectoFinal.no_match_msg]))
    by now apply filter_and_guard_stops with f.
  split; [exact Hstage|]. split; [exact Hguard|].
  intros B rest. now apply bind_stopped.
Qed.

(** Scenario E of the specification: a date range that starts after
    every date. *)
Lemma empty_view_stops_without_error_witness :
  @appProyectoFinal.filter_pipeline SampleData.lib true true SampleData.too_late
    SampleData.dataset
  = Ok {| appProyectoFinal.columns := appProyectoFinal.columns SampleData.dataset;
          appProyectoFinal.rows := [] |} /\
  @appProyectoFinal.filter_and_guard SampleData.lib true true SampleData.too_late
    {| appProyectoFinal.df := SampleData.dataset;
       appProyectoFinal.filtered_df := SampleData.dataset |} []
  = (Stopped, [StWarning appProyectoFinal.no_match_msg]).
Proof.
  assert (Hp : @appProyectoFinal.filter_pipeline SampleData.lib true true
                 SampleData.too_late SampleData.dataset
               = Ok {| appProyectoFinal.columns :=
                         appProyectoFinal.columns SampleData.dataset;
                       appProyectoFinal.rows := [] |})
    by (vm_compute; reflexivity).
  split; [exact Hp|].
  exact (proj1 (proj2 (@empty_view_stops_without_error SampleData.lib true true
                         SampleData.too_late SampleData.dataset _ [] Hp eq_refl))).
Defined.

(** The same in a whole run of the script. *)
Lemma script_stops_on_empty_view `{Pandas} `{Streamlit} ss log log1 d alts c f :
  appProyectoFinal.load_data "conejos.csv" log = (Done d, log1) ->
  appProyectoFinal.empty d = false ->
  appProyectoFinal.alt_bounds d = Ok alts ->
  appProyectoFinal.read_widgets d (appProyectoFinal.init_session d alts ss) = Ok c ->
  appProyectoFinal.filter_pipeline
    (appProyectoFinal.has_fecha d) (appProyectoFinal.has_alt d) c d
  = Ok f ->
  appProyectoFinal.rows f = [] ->
  appProyectoFinal.script ss log
  = (Stopped, log1 ++ [StWarning appProyectoFinal.no_match_msg]).
Proof.
  intros Hload Hne Halts Hw Hp Hrows. unfold appProyectoFinal.script.
  rewrite (bind_done _ _ _ _ _ Hload). rewrite Hne, Halts. cbn [lift].
  rewrite (bind_done (ret alts) _ log1 alts log1) by reflexivity.
  rewrite Hw. cbn [lift].
  rewrite (bind_done (ret c) _ log1 c log1) by reflexivity.
  apply bind_stopped.
  now apply filter_and_guard_stops with f.
Qed.

(** ** What the widgets return *)

Section Widgets.
Context `{Streamlit}.
Import appProyectoFinal.

Lemma st_slider_pair_ok {A} (check : option exn) (stored : option (A * A)) p :
  st_slider_pair check stored = Ok p -> check = None /\ stored = Some p.
Proof.
  unfold st_slider_pair. destruct check; [discriminate|].
  destruct stored; [|discriminate]. intro Heq. injection Heq as <-. now split.
Qed.

(** When the four widgets return, the selection is the part of the
    stored one that is offered, the text is the stored one, and each
    slider that exists has returned the pair under its key. *)
Lemma read_widgets_ok (d : DataFrame) (ss : SessionState) (c : Criteria) :
  read_widgets d ss = Ok c ->
  selected_species c = st_multiselect (species_options d) (species_filter ss) /\
  lugar_text c = st_text_input (lugar_filter ss) /\
  match fecha_bounds d with
  | Some (lo, hi) =>
      exists s e, fecha_filter ss = Some (s, e) /\
                  slider_datetime_check lo hi (fecha_filter ss) = None /\
                  start_dt c = Some s /\ end_dt c = Some e
  | None => start_dt c = None /\ end_dt c = None
  end /\
  exists bounds,
    alt_bounds d = Ok bounds /\
    match bounds with
    | Some (lo, hi) =>
        exists a b, alt_filter ss = Some (a, b) /\
                    slider_int_check lo hi 10 (alt_filter ss) = None /\
                    alt_min_sel c = Some a /\ alt_max_sel c = Some b
    | None => alt_min_sel c = None /\ alt_max_sel c = None
    end.
Proof.
  unfold read_widgets. cbv zeta.
  set (fechas := match fecha_bounds d with Some _ => _ | None => _ end).
  intro Hok.
  destruct fechas as [fs|] eqn:Hf; cbn [rbind] in Hok; [|discriminate].
  destruct (alt_bounds d) as [bounds|] eqn:Hb; cbn [rbind] in Hok; [|discriminate].
  set (alts := match bounds with Some _ => _ | None => _ end) in Hok.
  destruct alts as [als|] eqn:Ha; cbn [rbind] in Hok; [|discriminate].
  injection Hok as <-. cbn.
  split; [reflexivity|]. split; [reflexivity|]. split.
  - subst fechas. destruct (fecha_bounds d) as [[lo hi]|].
    + destruct (st_slider_pair _ _) as [[s e]|] eqn:Hs; cbn [rbind] in Hf;
        [|discriminate].
      injection Hf as <-. apply st_slider_pair_ok in Hs as [Hc Hst].
      exists s, e. cbn. auto.
    + injection Hf as <-. now split.
  - exists bounds. split; [reflexivity|].
    subst alts. destruct bounds as [[lo hi]|].
    + destruct (st_slider_pair _ _) as [[a b]|] eqn:Hs; cbn [rbind] in Ha;
        [|discriminate].
      injection Ha as <-. apply st_slider_pair_ok in Hs as [Hc Hst].
      exists a, b. cbn. auto.
    + injection Ha as <-. now split.
Qed.

(** The converse: widgets whose sliders pass their checks return. *)
Lemma read_widgets_returns (d : DataFrame) (ss : SessionState) bounds :
  alt_bounds d = Ok bounds ->
  match fecha_bounds d with
  | Some (lo, hi) =>
      slider_datetime_check lo hi (fecha_filter ss) = None /\ fecha_filter ss <> None
  | None => True
  end ->
  match bounds with
  | Some (lo, hi) =>
      slider_int_check lo hi 10 (alt_filter ss) = None /\ alt_filter ss <> None
  | None => True
  end ->
  exists c, read_widgets d ss = Ok c.
Proof.
  intros Hb Hf Ha. unfold read_widgets. cbv zeta. rewrite Hb.
  destruct (fecha_bounds d) as [[lo hi]|].
  - destruct Hf as [-> Hsome]. destruct (fecha_filter ss) as [p|]; [|contradiction].
    cbn. destruct bounds as [[lo' hi']|].
    + destruct Ha as [-> Hsome']. destruct (alt_filter ss); [|contradiction].
      cbn. eauto.
    + cbn. eauto.
  - cbn. destruct bounds as [[lo' hi']|].
    + destruct Ha as [-> Hsome']. destruct (alt_filter ss); [|contradiction].
      cbn. eauto.
    + cbn. eauto.
Qed.

End Widgets.

(** ** The default altitude range *)

Lemma filter_length_lt {A} (p : A -> bool) (l : list A) (x : A) :
  In x l -> p x = false -> List.length (filter p l) < List.length l.
Proof.
  induction l as [|y l IH]; intros Hin Hp; [contradiction|].
  cbn. pose proof (filter_length_le p l) as Hle.
  destruct Hin as [-> | Hin].
  - rewrite Hp. lia.
  - specialize (IH Hin Hp). destruct (p y); cbn; lia.
Qed.

Section Defaults.
Context `{Pandas}.
Import appProyectoFinal.

Lemma py_int_ok (x : float) (z : Z) :
  py_int x = Ok z -> exists q, x = Fin q /\ z = truncate q.
Proof.
  destruct x as [| |q|]; cbn; try discriminate.
  intro Heq. injection Heq as <-. now exists q.
Qed.

(** The bounds exist exactly past line 68: the flag is set and both
    extremes are finite; they are the extremes truncated. *)
Lemma alt_bounds_some d a b :
  alt_bounds d = Ok (Some (a, b)) ->
  has_alt d = true /\
  exists qmin qmax,
    series_min (map Altitud (rows d)) = Fin qmin /\
    series_max (map Altitud (rows d)) = Fin qmax /\
    a = truncate qmin /\ b = truncate qmax.
Proof.
  unfold alt_bounds, global_alt_min, global_alt_max.
  destruct (has_alt d); [|discriminate].
  destruct (py_int (series_min _)) as [a'|] eqn:Hmin; [|discriminate].
  destruct (py_int (series_max _)) as [b'|] eqn:Hmax; [|discriminate].
  cbn. intro Heq. injection Heq as <- <-.
  apply py_int_ok in Hmin as (qmin & Hqmin & Ha).
  apply py_int_ok in Hmax as (qmax & Hqmax & Hb).
  split; [reflexivity|]. now exists qmin, qmax.
Qed.

(** An altitude above the upper bound is outside the range. *)
Lemma between_above (a b : Z) (q : Q) :
  (inject_Z b < q)%Q -> between (float_of_int a) (float_of_int b) (Fin q) = false.
Proof.
  intro Hlt. unfold between, float_of_int. cbn.
  apply andb_false_intro2. apply not_true_is_false.
  rewrite Qle_bool_iff. now apply Qlt_not_le.
Qed.

(** With the altitude range at [(a, b)], a row whose altitude is
    above [b] is filtered out, whatever the other criteria. *)
Lemma above_upper_bound_excluded hf c d v a b r q :
  has_alt d = true ->
  alt_min_sel c = Some a ->
  alt_max_sel c = Some b ->
  In r (rows d) ->
  Altitud r = Fin q ->
  (inject_Z b < q)%Q ->
  filter_pipeline hf (has_alt d) c d = Ok v ->
  ~ In r (rows v) /\
  incl (rows v) (rows d) /\
  List.length (rows v) < List.length (rows d).
Proof.
  intros Hha Ha Hb Hin Halt Hlt Hv.
  assert (Hr : all_ok hf (has_alt d) c r = false).
  { unfold all_ok, alt_ok. rewrite Hha, Ha, Hb, Halt.
    rewrite (between_above a b q Hlt). apply andb_false_r. }
  destruct (filter_pipeline_rows _ _ _ _ _ Hv) as [_ ->].
  split; [|split].
  - intro Hin'. apply filter_In in Hin' as [_ Hok]. congruence.
  - intros x Hx. now apply filter_In in Hx as [Hx _].
  - now apply filter_length_lt with r.
Qed.

End Defaults.

(** C10. The bounds of the altitude slider are the least and the
    greatest altitude of the dataset truncated to integers, and they
    are the range the first run and the reset button put in the session.
    Under criteria with that range, whatever the species, the text and
    the dates, a row whose altitude is above the truncated maximum is
    not in the view the filters return, which is then a proper part of
    the dataset.  These are the criteria of a first run and of a run
    after a reset: when the widgets return there (a slider may refuse
    its bounds, and then the run has no view), the altitude slider
    returns that range and the filters return a view. *)
Theorem default_altitude_range_truncates `{Pandas} `{Streamlit}
    (d : appProyectoFinal.DataFrame) (a b : Z)
    (r : appProyectoFinal.Row) (q : Q) (ss : appProyectoFinal.SessionState) :
  appProyectoFinal.alt_bounds d = Ok (Some (a, b)) ->
  In r (appProyectoFinal.rows d) ->
  appProyectoFinal.Altitud r = Fin q ->
  (inject_Z b < q)%Q ->
  (exists qmin qmax,
      appProyectoFinal.series_min
        (map appProyectoFinal.Altitud (appProyectoFinal.rows d)) = Fin qmin /\
      appProyectoFinal.series_max
        (map appProyectoFinal.Altitud (appProyectoFinal.rows d)) = Fin qmax /\
      a = truncate qmin /\ b = truncate qmax) /\
  appProyectoFinal.alt_filter (appProyectoFinal.init_session d (Some (a, b)) no_session)
  = Some (a, b) /\
  appProyectoFinal.alt_filter (appProyectoFinal.reset_filters d (Some (a, b)) ss)
  = Some (a, b) /\
  (forall c v,
      appProyectoFinal.alt_min_sel c = Some a ->
      appProyectoFinal.alt_max_sel c = Some b ->
      appProyectoFinal.filter_pipeline
        (appProyectoFinal.has_fecha d) (appProyectoFinal.has_alt d) c d = Ok v ->
      ~ In r (appProyectoFinal.rows v) /\
      incl (appProyectoFinal.rows v) (appProyectoFinal.rows d) /\
      List.length (appProyectoFinal.rows v)
      < List.length (appProyectoFinal.rows d)) /\
  (forall c,
      appProyectoFinal.read_widgets d
        (appProyectoFinal.init_session d (Some (a, b)) no_session) = Ok c \/
      appProyectoFinal.read_widgets d
        (appProyectoFinal.reset_filters d (Some (a, b)) ss) = Ok c ->
      appProyectoFinal.alt_min_sel c = Some a /\
      appProyectoFinal.alt_max_sel c = Some b /\
      exists v,
        appProyectoFinal.filter_pipeline
          (appProyectoFinal.has_fecha d) (appProyectoFinal.has_alt d) c d = Ok v).
Proof.
  intros Hbounds Hin Halt Hlt.
  destruct (alt_bounds_some d a b Hbounds) as [Hha Htrunc].
  split; [exact Htrunc|]. split; [reflexivity|]. split; [reflexivity|]. split.
  - intros c v Hmin Hmax Hv.
    now apply above_upper_bound_excluded
      with (hf := appProyectoFinal.has_fecha d) (c := c) (a := a) (b := b) (q := q).
  - intros c Hc.
    assert (Hfields : appProyectoFinal.lugar_text c = "" /\
                      appProyectoFinal.alt_min_sel c = Some a /\
                      appProyectoFinal.alt_max_sel c = Some b).
    { destruct Hc as [Hc | Hc];
        apply read_widgets_ok in Hc as (_ & Htext & _ & bounds & Hb & Hsel);
        rewrite Hbounds in Hb; injection Hb as <-;
        destruct Hsel as (a' & b' & Hst & _ & Hmin & Hmax);
        cbn in Hst; injection Hst as <- <-; auto. }
    destruct Hfields as (Htext & Hmin & Hmax).
    split; [exact Hmin|]. split; [exact Hmax|].
    eexists. apply filter_pipeline_select. unfold lugar_runs. now rewrite Htext.
Qed.

Lemma default_altitude_range_truncates_witness :
  appProyectoFinal.alt_bounds SampleData.dataset = Ok (Some (800, 1234)%Z) /\
  appProyectoFinal.Altitud SampleData.first_row = Fin (Qmake 12345 10) /\
  exists c v,
    @appProyectoFinal.read_widgets Sample.streamlit SampleData.dataset
      (appProyectoFinal.init_session SampleData.dataset (Some (800, 1234)%Z)
         no_session) = Ok c /\
    @appProyectoFinal.filter_pipeline SampleData.lib
      (appProyectoFinal.has_fecha SampleData.dataset)
      (appProyectoFinal.has_alt SampleData.dataset) c SampleData.dataset = Ok v /\
    ~ In SampleData.first_row (appProyectoFinal.rows v) /\
    incl (appProyectoFinal.rows v) (appProyectoFinal.rows SampleData.dataset) /\
    List.length (appProyectoFinal.rows v)
    < List.length (appProyectoFinal.rows SampleData.dataset).
Proof.
  assert (Hb : appProyectoFinal.alt_bounds SampleData.dataset
               = Ok (Some (800, 1234)%Z)) by (vm_compute; reflexivity).
  split; [exact Hb|]. split; [reflexivity|].
  assert (Hlt : (inject_Z 1234 < Qmake 12345 10)%Q) by reflexivity.
  destruct (@default_altitude_range_truncates SampleData.lib Sample.streamlit
              SampleData.dataset
              800%Z 1234%Z SampleData.first_row (Qmake 12345 10) no_session
              Hb (or_introl eq_refl) eq_refl Hlt) as (_ & _ & _ & Hout & Hrun).
  assert (Hw : @appProyectoFinal.read_widgets Sample.streamlit SampleData.dataset
                 (appProyectoFinal.init_session SampleData.dataset
                    (Some (800, 1234)%Z) no_session)
               = Ok (SampleData.criteria ["Sylvilagus X"; "Sylvilagus Y"] ""
                       (Some (1500000000000000, 1600000000000000)%Z)
                       (Some (800, 1234)%Z)))
    by (vm_compute; reflexivity).
  destruct (Hrun _ (or_introl Hw)) as (Hmin & Hmax & v & Hv).
  eexists. exists v. split; [exact Hw|]. split; [exact Hv|].
  exact (Hout _ v Hmin Hmax Hv).
Defined.

(** The file of the sample has one valid row, dated and at 1234.5 m:
    the two ends of each slider are the same.  With sliders that
    refuse such bounds, the first run raises at the date slider. *)
Example first_run_on_sample_file :
  @appProyectoFinal.script SampleData.lib Sample.streamlit no_session []
  = (Raised StreamlitError,
     [ReadCsv "conejos.csv" "utf-8"; ReadCsv "conejos.csv" "latin1"]).
Proof. vm_compute. reflexivity. Qed.

(* ================================================================== *)
(** * Further properties *)

(** ** Grouping *)

Section GroupByFacts.
Context {K : Type} (eqb leb : K -> K -> bool).
Hypothesis eqb_spec : forall x y, eqb x y = true <-> x = y.
Hypothesis leb_total : forall x y, leb x y = true \/ leb y x = true.

Lemma existsb_eqb_In (x : K) (l : list K) :
  existsb (eqb x) l = true <-> In x l.
Proof.
  rewrite existsb_exists. split.
  - intros (y & Hin & Heq). apply eqb_spec in Heq. now subst.
  - intro Hin. exists x. split; [assumption|now apply eqb_spec].
Qed.

Lemma In_insert_key (x y : K) (l : list K) :
  In y (insert_key leb x l) <-> y = x \/ In y l.
Proof.
  induction l as [|z l IH]; cbn.
  - intuition.
  - destruct (leb x z); cbn; [intuition|]. rewrite IH. intuition.
Qed.

Lemma In_sort_keys (y : K) (l : list K) :
  In y (sort_keys leb l) <-> In y l.
Proof.
  induction l as [|x l IH]; [reflexivity|].
  change (sort_keys leb (x :: l)) with (insert_key leb x (sort_keys leb l)).
  rewrite In_insert_key, IH. cbn. intuition.
Qed.

Lemma NoDup_insert_key (x : K) (l : list K) :
  NoDup l -> ~ In x l -> NoDup (insert_key leb x l).
Proof.
  induction l as [|z l IH]; intros Hnd Hx; cbn.
  - constructor; [intros []|constructor].
  - destruct (leb x z); [now constructor|].
    inversion Hnd as [|? ? Hz Hl]; subst. constructor.
    + rewrite In_insert_key. intros [-> | Hin]; [apply Hx; now left|contradiction].
    + apply IH; [assumption|]. intro Hin. apply Hx. now right.
Qed.

Lemma NoDup_sort_keys (l : list K) : NoDup l -> NoDup (sort_keys leb l).
Proof.
  induction l as [|x l IH]; intro Hnd; cbn; [constructor|].
  inversion Hnd as [|? ? Hx Hl]; subst.
  apply NoDup_insert_key; [now apply IH|].
  intro Hin. apply (proj1 (In_sort_keys x l)) in Hin. contradiction.
Qed.

Lemma length_insert_key (x : K) (l : list K) :
  List.length (insert_key leb x l) = S (List.length l).
Proof.
  induction l as [|z l IH]; cbn; [reflexivity|].
  destruct (leb x z); cbn; [reflexivity|now rewrite IH].
Qed.

Lemma length_sort_keys (l : list K) :
  List.length (sort_keys leb l) = List.length l.
Proof.
  induction l as [|x l IH]; [reflexivity|].
  change (sort_keys leb (x :: l)) with (insert_key leb x (sort_keys leb l)).
  now rewrite length_insert_key, IH.
Qed.

Lemma HdRel_insert_key (a x : K) (l : list K) :
  leb a x = true ->
  HdRel (fun u v => leb u v = true) a l ->
  HdRel (fun u v => leb u v = true) a (insert_key leb x l).
Proof.
  intros Hax Hhd. destruct l as [|z l]; cbn; [now constructor|].
  destruct (leb x z); constructor; [assumption|now inversion Hhd].
Qed.

Lemma Sorted_insert_key (x : K) (l : list K) :
  Sorted (fun u v => leb u v = true) l ->
  Sorted (fun u v => leb u v = true) (insert_key leb x l).
Proof.
  induction l as [|z l IH]; intro Hs; cbn.
  - repeat constructor.
  - destruct (leb x z) eqn:Hxz.
    + constructor; [assumption|now constructor].
    + inversion Hs as [|? ? Hl Hhd]; subst. constructor; [now apply IH|].
      apply HdRel_insert_key; [|assumption].
      destruct (leb_total x z) as [H | H]; [congruence|assumption].
Qed.

Lemma Sorted_sort_keys (l : list K) :
  Sorted (fun u v => leb u v = true) (sort_keys leb l).
Proof.
  induction l as [|x l IH]; [constructor|].
  change (sort_keys leb (x :: l)) with (insert_key leb x (sort_keys leb l)).
  now apply Sorted_insert_key.
Qed.

(** [distinct], from any list of keys already seen. *)
Lemma In_distinct_from (l seen : list K) (y : K) :
  In y (fold_left (fun seen x => if existsb (eqb x) seen then seen else seen ++ [x])
                  l seen)
  <-> In y seen \/ In y l.
Proof.
  revert seen. induction l as [|x l IH]; intro seen; cbn; [intuition|].
  rewrite IH. destruct (existsb (eqb x) seen) eqn:Hx.
  - apply existsb_eqb_In in Hx. intuition (subst; auto).
  - rewrite in_app_iff. cbn. intuition.
Qed.

Lemma NoDup_distinct_from (l seen : list K) :
  NoDup seen ->
  NoDup (fold_left (fun seen x => if existsb (eqb x) seen then seen else seen ++ [x])
                   l seen).
Proof.
  revert seen. induction l as [|x l IH]; intros seen Hnd; cbn; [assumption|].
  apply IH. destruct (existsb (eqb x) seen) eqn:Hx; [assumption|].
  apply NoDup_app; [assumption|repeat constructor; intros []|].
  intros y Hy [<- | []].
  apply existsb_eqb_In in Hy. congruence.
Qed.

Lemma In_distinct (l : list K) (y : K) : In y (distinct eqb l) <-> In y l.
Proof. unfold distinct. rewrite In_distinct_from. cbn. intuition. Qed.

Lemma NoDup_distinct (l : list K) : NoDup (distinct eqb l).
Proof. apply NoDup_distinct_from. constructor. Qed.

Lemma count_key_pos (k : K) (l : list K) : In k l -> 1 <= count_key eqb k l.
Proof.
  unfold count_key. induction l as [|x l IH]; intros Hin; [contradiction|].
  cbn. destruct (eqb k x) eqn:Hkx; cbn; [lia|].
  destruct Hin as [-> | Hin]; [|now apply IH].
  assert (eqb k k = true) by now apply eqb_spec. congruence.
Qed.

Lemma list_sum_cons (a : nat) (l : list nat) : list_sum (a :: l) = a + list_sum l.
Proof. reflexivity. Qed.

Lemma count_key_cons (k x : K) (l : list K) :
  count_key eqb k (x :: l) = (if eqb k x then 1 else 0) + count_key eqb k l.
Proof. unfold count_key. cbn. now destruct (eqb k x). Qed.

(** A key that is not in the list of keys adds nothing; one that is in
    a list without repetition is counted once. *)
Lemma hits_absent (x : K) (ks : list K) :
  ~ In x ks -> list_sum (map (fun k => if eqb k x then 1 else 0) ks) = 0.
Proof.
  induction ks as [|k ks IH]; intro Hx; [reflexivity|].
  cbn [map]. rewrite list_sum_cons, IH by (intro Hin; apply Hx; now right).
  destruct (eqb k x) eqn:Hkx; [|reflexivity].
  apply eqb_spec in Hkx. subst. exfalso. apply Hx. now left.
Qed.

Lemma hits_present (x : K) (ks : list K) :
  NoDup ks -> In x ks ->
  list_sum (map (fun k => if eqb k x then 1 else 0) ks) = 1.
Proof.
  induction ks as [|k ks IH]; intros Hnd Hin; [contradiction|].
  inversion Hnd as [|? ? Hk Hks]; subst.
  cbn [map]. rewrite list_sum_cons.
  destruct (eqb k x) eqn:Hkx.
  - apply eqb_spec in Hkx. subst k. now rewrite hits_absent.
  - destruct Hin as [-> | Hin].
    + assert (eqb x x = true) by now apply eqb_spec. congruence.
    + now rewrite IH.
Qed.

Lemma counts_step (x : K) (l ks : list K) :
  list_sum (map (fun k => count_key eqb k (x :: l)) ks)
  = list_sum (map (fun k => if eqb k x then 1 else 0) ks)
    + list_sum (map (fun k => count_key eqb k l) ks).
Proof.
  induction ks as [|k ks IH]; [reflexivity|].
  cbn [map]. rewrite !list_sum_cons, IH, count_key_cons. lia.
Qed.

(** Over keys without repetition that cover the column, the counts add
    up to the length of the column. *)
Lemma counts_add_up (ks l : list K) :
  NoDup ks -> (forall x, In x l -> In x ks) ->
  list_sum (map (fun k => count_key eqb k l) ks) = List.length l.
Proof.
  intros Hnd. induction l as [|x l IH]; intro Hcov.
  - clear Hnd Hcov. induction ks as [|k ks IHk]; [reflexivity|].
    cbn [map]. now rewrite list_sum_cons, IHk.
  - rewrite counts_step, hits_present, IH.
    + reflexivity.
    + intros y Hy. apply Hcov. now right.
    + assumption.
    + apply Hcov. now left.
Qed.

Lemma groupby_size_keys (l : list K) :
  map fst (groupby_size eqb leb l) = sort_keys leb (distinct eqb l).
Proof. unfold groupby_size. rewrite map_map. cbn. apply map_id. Qed.

Lemma groupby_size_total (l : list K) :
  total (groupby_size eqb leb l) = List.length l.
Proof.
  unfold total, groupby_size. rewrite map_map. cbn.
  apply counts_add_up.
  - apply NoDup_sort_keys, NoDup_distinct.
  - intros x Hx. now rewrite In_sort_keys, In_distinct.
Qed.

Lemma groupby_size_line (l : list K) (k : K) (n : nat) :
  In (k, n) (groupby_size eqb leb l) <->
  In k l /\ n = count_key eqb k l.
Proof.
  unfold groupby_size. rewrite in_map_iff. split.
  - intros (k' & Heq & Hin). injection Heq as <- <-.
    now rewrite In_sort_keys, In_distinct in Hin.
  - intros [Hin ->]. exists k. split; [reflexivity|].
    now rewrite In_sort_keys, In_distinct.
Qed.

Lemma groupby_size_nil (l : list K) :
  groupby_size eqb leb l = [] <-> l = [].
Proof.
  split.
  - intro Hnil. pose proof (groupby_size_total l) as Ht.
    rewrite Hnil in Ht. cbn in Ht. now destruct l.
  - intros ->. reflexivity.
Qed.

End GroupByFacts.

(** ** The species offered in the sidebar *)

Lemma Sorted_strict {A} (R : A -> A -> Prop) (l : list A) :
  Sorted R l -> NoDup l -> Sorted (fun a b => R a b /\ a <> b) l.
Proof.
  induction 1 as [|a l Hs IH Hhd]; intro Hnd; [constructor|].
  inversion Hnd as [|? ? Ha Hl]; subst. constructor; [now apply IH|].
  destruct Hhd as [|b l' Hab]; constructor. split; [assumption|].
  intros ->. apply Ha. now left.
Qed.

Lemma filter_all {A} (p : A -> bool) (l : list A) :
  (forall x, In x l -> p x = true) -> filter p l = l.
Proof.
  induction l as [|x l IH]; intro Hall; [reflexivity|]. cbn.
  rewrite (Hall x (or_introl eq_refl)), IH; [reflexivity|].
  intros y Hy. apply Hall. now right.
Qed.

Lemma string_leb_total (x y : string) :
  String.leb x y = true \/ String.leb y x = true.
Proof. apply String.leb_total. Qed.

Lemma insert_sorted_insert_key (x : string) (l : list string) :
  appProyectoFinal.insert_sorted x l = insert_key String.leb x l.
Proof.
  induction l as [|y l IH]; cbn; [reflexivity|]. now rewrite IH.
Qed.

Lemma sorted_sort_keys (l : list string) :
  appProyectoFinal.sorted l = sort_keys String.leb l.
Proof.
  induction l as [|x l IH]; [reflexivity|].
  unfold appProyectoFinal.sorted, sort_keys in *. cbn [fold_right].
  now rewrite IH, insert_sorted_insert_key.
Qed.

Lemma unique_distinct (l : list string) :
  appProyectoFinal.unique l = distinct String.eqb l.
Proof. reflexivity. Qed.

Lemma species_options_keys (d : appProyectoFinal.DataFrame) :
  appProyectoFinal.species_options d
  = sort_keys String.leb
      (distinct String.eqb (map appProyectoFinal.Especie (appProyectoFinal.rows d))).
Proof.
  unfold appProyectoFinal.species_options.
  now rewrite sorted_sort_keys, unique_distinct.
Qed.

Lemma In_species_options (d : appProyectoFinal.DataFrame) (s : string) :
  In s (appProyectoFinal.species_options d) <->
  exists r, In r (appProyectoFinal.rows d) /\ appProyectoFinal.Especie r = s.
Proof.
  rewrite species_options_keys.
  rewrite (In_sort_keys String.leb), (In_distinct String.eqb String.eqb_eq).
  rewrite in_map_iff. split; intros (r & H1 & H2); exists r; tauto.
Qed.

(** X1. The options of the species selector are the species of the
    dataset, each once, in strictly ascending order; they are the keys
    of the species chart of the whole dataset. *)
Theorem species_options_sorted_distinct (d : appProyectoFinal.DataFrame) :
  (forall s, In s (appProyectoFinal.species_options d) <->
             exists r, In r (appProyectoFinal.rows d) /\
                       appProyectoFinal.Especie r = s) /\
  NoDup (appProyectoFinal.species_options d) /\
  Sorted (fun a b => String.leb a b = true /\ a <> b)
         (appProyectoFinal.species_options d) /\
  appProyectoFinal.species_options d = map fst (appProyectoFinalTabs.counts d).
Proof.
  assert (Hnd : NoDup (appProyectoFinal.species_options d)).
  { rewrite species_options_keys.
    apply NoDup_sort_keys, (NoDup_distinct String.eqb String.eqb_eq). }
  split; [apply In_species_options|]. split; [exact Hnd|]. split.
  - apply Sorted_strict; [|exact Hnd].
    rewrite species_options_keys. apply Sorted_sort_keys, string_leb_total.
  - unfold appProyectoFinalTabs.counts.
    now rewrite groupby_size_keys, species_options_keys.
Qed.

(** X2. Selecting every species offered filters nothing, whatever the
    dataset (with no row there is no option, and the empty selection
    filters nothing either). *)
Theorem every_species_selected_keeps_all
    (c : appProyectoFinal.Criteria) (d : appProyectoFinal.DataFrame) :
  appProyectoFinal.selected_species c = appProyectoFinal.species_options d ->
  appProyectoFinal.species_step c d = d.
Proof.
  intro Hsel. unfold appProyectoFinal.species_step. rewrite Hsel.
  destruct (appProyectoFinal.species_options d) as [|s l] eqn:Hopts; [reflexivity|].
  destruct d as [cols rs]. unfold appProyectoFinal.select. cbn. f_equal.
  apply filter_all. intros r Hin.
  change (mem (appProyectoFinal.Especie r) (s :: l) = true).
  apply mem_In. rewrite <- Hopts. apply In_species_options. now exists r.
Qed.

Lemma every_species_selected_keeps_all_witness :
  appProyectoFinal.species_step SampleMore.first_run SampleData.dataset
  = SampleData.dataset.
Proof.
  apply every_species_selected_keeps_all. reflexivity.
Defined.

(** X3. A row that has its coordinates and no species stays in the
    dataset: [astype(str)] makes its species the text [nan], which is
    then one of the options of the species selector (the [dropna] of
    line 58 comes after that conversion and drops nothing). *)
Theorem missing_species_becomes_nan `{Pandas}
    (raw : RawFrame) (d : appProyectoFinal.DataFrame) (r : RawRow) :
  appProyectoFinal.clean raw = Ok d ->
  In r (raw_rows raw) ->
  valid_source_row r = true ->
  raw_Especie r = CNum NaN ->
  (exists row, In row (appProyectoFinal.rows d) /\
               appProyectoFinal.Especie row = "nan") /\
  In "nan" (appProyectoFinal.species_options d).
Proof.
  intros Hclean Hin Hvalid Hesp.
  pose proof (clean_ok raw d Hclean) as Hreq.
  rewrite (clean_rows raw Hreq) in Hclean. injection Hclean as <-.
  assert (Hrow : exists row,
             In row (map (appProyectoFinal.coerce (map strip (raw_columns raw))
                            (map raw_Fecha (raw_rows raw)))
                         (filter valid_source_row (raw_rows raw))) /\
             appProyectoFinal.Especie row = "nan").
  { eexists. split.
    - apply in_map. apply filter_In. split; eassumption.
    - cbn. now rewrite Hesp. }
  split; [exact Hrow|].
  apply In_species_options. exact Hrow.
Qed.

Lemma missing_species_becomes_nan_witness :
  In "nan" (appProyectoFinal.species_options SampleMore.nameless_dataset).
Proof.
  refine (proj2 (@missing_species_becomes_nan (Sample.pandas (fun _ _ => Ok SampleMore.nameless))
                   SampleMore.nameless SampleMore.nameless_dataset
                   SampleMore.nameless_row _ _ _ _)).
  - vm_compute. reflexivity.
  - left. reflexivity.
  - vm_compute. reflexivity.
  - reflexivity.
Defined.

(** ** The bounds of the sliders *)

Section Bounds.
Import appProyectoFinal.

Lemma fle_total (a b : float) :
  notna a = true -> notna b = true -> fle a b = true \/ fle b a = true.
Proof.
  destruct a as [| |x|], b as [| |y|]; cbn; intros Ha Hb;
    try discriminate; try (now left); try (now right).
  rewrite !Qle_bool_iff. destruct (Qlt_le_dec y x) as [Hlt | Hle].
  - right. now apply Qlt_le_weak.
  - now left.
Qed.

Lemma fle_refl (a : float) : notna a = true -> fle a a = true.
Proof.
  destruct a as [| |x|]; cbn; intro Ha; try discriminate; try reflexivity.
  apply Qle_bool_iff, Qle_refl.
Qed.

Lemma fmin_notna (a b : float) :
  notna a = true -> notna b = true -> notna (fmin a b) = true.
Proof. unfold fmin. now destruct (fle a b). Qed.

Lemma fmax_notna (a b : float) :
  notna a = true -> notna b = true -> notna (fmax a b) = true.
Proof. unfold fmax. now destruct (fle a b). Qed.

(** The running minimum is one of the values and is below all of
    them. *)
Lemma fold_fmin (t : list float) : forall x,
  Forall (fun y => notna y = true) (x :: t) ->
  In (fold_left fmin t x) (x :: t) /\
  forall y, In y (x :: t) -> fle (fold_left fmin t x) y = true.
Proof.
  induction t as [|z t IH]; intros x Hall.
  - cbn. split; [now left|]. intros y [<- | []].
    apply fle_refl. now inversion Hall.
  - inversion Hall as [|? ? Hx Hrest]; subst.
    inversion Hrest as [|? ? Hz Ht]; subst.
    cbn [fold_left].
    destruct (IH (fmin x z)) as [Hin Hle].
    { constructor; [now apply fmin_notna|assumption]. }
    assert (Hmx : fle (fmin x z) x = true /\ fle (fmin x z) z = true).
    { unfold fmin. destruct (fle x z) eqn:Hxz.
      - split; [now apply fle_refl|assumption].
      - split; [|now apply fle_refl].
        destruct (fle_total x z Hx Hz); congruence. }
    split.
    + destruct Hin as [Heq | Hin]; [|right; now right].
      rewrite <- Heq. unfold fmin. destruct (fle x z); [now left|right; now left].
    + intros y [<- | [<- | Hy]].
      * apply fle_trans with (fmin x z); [|tauto]. apply Hle. now left.
      * apply fle_trans with (fmin x z); [|tauto]. apply Hle. now left.
      * apply Hle. now right.
Qed.

Lemma fold_fmax (t : list float) : forall x,
  Forall (fun y => notna y = true) (x :: t) ->
  In (fold_left fmax t x) (x :: t) /\
  forall y, In y (x :: t) -> fle y (fold_left fmax t x) = true.
Proof.
  induction t as [|z t IH]; intros x Hall.
  - cbn. split; [now left|]. intros y [<- | []].
    apply fle_refl. now inversion Hall.
  - inversion Hall as [|? ? Hx Hrest]; subst.
    inversion Hrest as [|? ? Hz Ht]; subst.
    cbn [fold_left].
    destruct (IH (fmax x z)) as [Hin Hle].
    { constructor; [now apply fmax_notna|assumption]. }
    assert (Hmx : fle x (fmax x z) = true /\ fle z (fmax x z) = true).
    { unfold fmax. destruct (fle x z) eqn:Hxz.
      - split; [assumption|now apply fle_refl].
      - split; [now apply fle_refl|].
        destruct (fle_total x z Hx Hz); congruence. }
    split.
    + destruct Hin as [Heq | Hin]; [|right; now right].
      rewrite <- Heq. unfold fmax. destruct (fle x z); [right; now left|now left].
    + intros y [<- | [<- | Hy]].
      * apply fle_trans with (fmax x z); [tauto|]. apply Hle. now left.
      * apply fle_trans with (fmax x z); [tauto|]. apply Hle. now left.
      * apply Hle. now right.
Qed.

Lemma filter_notna_all (l : list float) :
  Forall (fun y => notna y = true) (filter notna l).
Proof. apply Forall_forall. intros y Hy. now apply filter_In in Hy. Qed.

(** [min()] and [max()] of a column with a value: one of its values,
    not missing, below (above) every value that is not missing. *)
Lemma series_min_spec (l : list float) (x : float) :
  In x l -> notna x = true ->
  In (series_min l) l /\ notna (series_min l) = true /\
  forall y, In y l -> notna y = true -> fle (series_min l) y = true.
Proof.
  intros Hin Hx. unfold series_min.
  assert (Hx' : In x (filter notna l)) by now apply filter_In.
  pose proof (filter_notna_all l) as Hall.
  destruct (filter notna l) as [|z t] eqn:Hf; [contradiction|].
  destruct (fold_fmin t z Hall) as [Hm Hle].
  rewrite <- Hf in Hm. apply filter_In in Hm as [Hm1 Hm2].
  split; [assumption|]. split; [assumption|].
  intros y Hy Hny. apply Hle. rewrite <- Hf. now apply filter_In.
Qed.

Lemma series_max_spec (l : list float) (x : float) :
  In x l -> notna x = true ->
  In (series_max l) l /\ notna (series_max l) = true /\
  forall y, In y l -> notna y = true -> fle y (series_max l) = true.
Proof.
  intros Hin Hx. unfold series_max.
  assert (Hx' : In x (filter notna l)) by now apply filter_In.
  pose proof (filter_notna_all l) as Hall.
  destruct (filter notna l) as [|z t] eqn:Hf; [contradiction|].
  destruct (fold_fmax t z Hall) as [Hm Hle].
  rewrite <- Hf in Hm. apply filter_In in Hm as [Hm1 Hm2].
  split; [assumption|]. split; [assumption|].
  intros y Hy Hny. apply Hle. rewrite <- Hf. now apply filter_In.
Qed.

(** The same for a date column: NaT when the column has no date. *)
Lemma dates_min_cases (l : list timestamp) :
  (dates_min l = NaT /\ forall k, ~ In (Ts k) l) \/
  (exists m, dates_min l = Ts m /\ In (Ts m) l /\
             forall k, In (Ts k) l -> (m <= k)%Z).
Proof.
  unfold dates_min. induction l as [|t l IH]; cbn [fold_right].
  - left. split; [reflexivity|]. intros k [].
  - destruct IH as [[Hm Hnone] | (m & Hm & Hin & Hle)]; rewrite Hm;
      destruct t as [|a]; cbn.
    + left. split; [reflexivity|]. intros k [Hk | Hk]; [discriminate|].
      now apply Hnone in Hk.
    + right. exists a. split; [reflexivity|]. split; [now left|].
      intros k [Hk | Hk]; [injection Hk as <-; lia|now apply Hnone in Hk].
    + right. exists m. split; [reflexivity|]. split; [now right|].
      intros k [Hk | Hk]; [discriminate|now apply Hle].
    + right. exists (Z.min a m). split; [reflexivity|]. split.
      * destruct (Z.min_spec a m) as [[_ ->] | [_ ->]]; [now left|now right].
      * intros k [Hk | Hk]; [injection Hk as <-; lia|].
        specialize (Hle k Hk). lia.
Qed.

Lemma dates_max_cases (l : list timestamp) :
  (dates_max l = NaT /\ forall k, ~ In (Ts k) l) \/
  (exists m, dates_max l = Ts m /\ In (Ts m) l /\
             forall k, In (Ts k) l -> (k <= m)%Z).
Proof.
  unfold dates_max. induction l as [|t l IH]; cbn [fold_right].
  - left. split; [reflexivity|]. intros k [].
  - destruct IH as [[Hm Hnone] | (m & Hm & Hin & Hle)]; rewrite Hm;
      destruct t as [|a]; cbn.
    + left. split; [reflexivity|]. intros k [Hk | Hk]; [discriminate|].
      now apply Hnone in Hk.
    + right. exists a. split; [reflexivity|]. split; [now left|].
      intros k [Hk | Hk]; [injection Hk as <-; lia|now apply Hnone in Hk].
    + right. exists m. split; [reflexivity|]. split; [now right|].
      intros k [Hk | Hk]; [discriminate|now apply Hle].
    + right. exists (Z.max a m). split; [reflexivity|]. split.
      * destruct (Z.max_spec a m) as [[_ ->] | [_ ->]]; [now right|now left].
      * intros k [Hk | Hk]; [injection Hk as <-; lia|].
        specialize (Hle k Hk). lia.
Qed.

Lemma truncate_mono (p q : Q) : (p <= q)%Q -> (truncate p <= truncate q)%Z.
Proof.
  intro Hpq.
  destruct (truncate_toward_zero p) as [Hp_pos Hp_neg].
  destruct (truncate_toward_zero q) as [Hq_pos Hq_neg].
  destruct (Qlt_le_dec p 0) as [Hp | Hp].
  - destruct (Hp_neg (Qlt_le_weak _ _ Hp)) as [Hp1 Hp2].
    destruct (Qlt_le_dec q 0) as [Hq | Hq].
    + destruct (Hq_neg (Qlt_le_weak _ _ Hq)) as [_ Hq2].
      assert (H : (inject_Z (truncate p - 1) < inject_Z (truncate q))%Q).
      { apply Qlt_le_trans with p; [exact Hp1|]. apply Qle_trans with q; assumption. }
      rewrite <- Zlt_Qlt in H. lia.
    + destruct (Hq_pos Hq) as [_ Hq2].
      assert (H1 : (inject_Z (truncate p - 1) < inject_Z 0)%Q)
        by (apply Qlt_trans with p; assumption).
      assert (H2 : (inject_Z 0 < inject_Z (truncate q + 1))%Q)
        by (apply Qle_lt_trans with q; assumption).
      rewrite <- Zlt_Qlt in H1, H2. lia.
  - destruct (Hp_pos Hp) as [Hp1 _].
    destruct (Hq_pos (Qle_trans _ _ _ Hp Hpq)) as [_ Hq2].
    assert (H : (inject_Z (truncate p) < inject_Z (truncate q + 1))%Q).
    { apply Qle_lt_trans with p; [exact Hp1|]. apply Qle_lt_trans with q; assumption. }
    rewrite <- Zlt_Qlt in H. lia.
Qed.

Lemma truncate_whole (q : Q) (z : Z) : (q == inject_Z z)%Q -> truncate q = z.
Proof.
  destruct q as [n d]. unfold Qeq, truncate. cbn. intro Heq.
  assert (Hn : n = (z * Zpos d)%Z) by lia. subst n. apply Z.quot_mul. lia.
Qed.

(** With a date in the column, both ends of the date slider exist: the
    first and the last date, cut to microseconds. *)
Lemma fecha_bounds_some (d : DataFrame) :
  has_fecha d = true ->
  exists lo hi,
    dates_min (map Fecha (rows d)) = Ts lo /\
    dates_max (map Fecha (rows d)) = Ts hi /\
    fecha_bounds d = Some (to_pydatetime lo, to_pydatetime hi) /\
    (lo <= hi)%Z /\
    forall r n, In r (rows d) -> Fecha r = Ts n -> (lo <= n <= hi)%Z.
Proof.
  intro Hf. pose proof Hf as Hf'.
  apply has_fecha_iff in Hf' as [_ (r0 & Hin0 & Hr0)].
  destruct (Fecha r0) as [|n0] eqn:Hn0; [contradiction|].
  assert (Hin : In (Ts n0) (map Fecha (rows d))).
  { rewrite <- Hn0. now apply in_map. }
  destruct (dates_min_cases (map Fecha (rows d)))
    as [[_ Hnone] | (lo & Hlo & Hinlo & Hmin)]; [now apply Hnone in Hin|].
  destruct (dates_max_cases (map Fecha (rows d)))
    as [[_ Hnone] | (hi & Hhi & Hinhi & Hmax)]; [now apply Hnone in Hin|].
  exists lo, hi. split; [assumption|]. split; [assumption|]. split.
  - unfold fecha_bounds, global_min_dt, global_max_dt. now rewrite Hf, Hlo, Hhi.
  - split; [now apply Hmax|].
    intros r n Hr Hn. assert (Hrn : In (Ts n) (map Fecha (rows d))).
    { rewrite <- Hn. now apply in_map. }
    split; [now apply Hmin|now apply Hmax].
Qed.

End Bounds.

Lemma slider_bounds (d : appProyectoFinal.DataFrame) :
  (forall a b,
      appProyectoFinal.alt_bounds d = Ok (Some (a, b)) ->
      (a <= b)%Z /\
      forall r q, In r (appProyectoFinal.rows d) ->
                  appProyectoFinal.Altitud r = Fin q ->
                  (a <= truncate q <= b)%Z) /\
  (appProyectoFinal.has_fecha d = true ->
   exists s e,
     appProyectoFinal.fecha_bounds d = Some (s, e) /\
     (s <= e)%Z /\
     forall r n, In r (appProyectoFinal.rows d) ->
                 appProyectoFinal.Fecha r = Ts n ->
                 (s <= to_pydatetime n <= e)%Z).
Proof.
  split.
  - intros a b Hb.
    destruct (alt_bounds_some d a b Hb) as (Hha & qmin & qmax & Hmin & Hmax & -> & ->).
    apply has_alt_iff in Hha as [_ (r0 & Hin0 & Hr0)].
    apply notna_iff in Hr0.
    assert (Hx : In (appProyectoFinal.Altitud r0)
                    (map appProyectoFinal.Altitud (appProyectoFinal.rows d)))
      by now apply in_map.
    destruct (series_min_spec _ _ Hx Hr0) as (Hmin_in & _ & Hmin_le).
    destruct (series_max_spec _ _ Hx Hr0) as (Hmax_in & Hmax_na & Hmax_le).
    rewrite Hmin in *. rewrite Hmax in *.
    split.
    + apply truncate_mono. apply Qle_bool_iff.
      exact (Hmin_le (Fin qmax) Hmax_in eq_refl).
    + intros r q Hr Hq.
      assert (Hy : In (Fin q) (map appProyectoFinal.Altitud (appProyectoFinal.rows d))).
      { rewrite <- Hq. now apply in_map. }
      split; apply truncate_mono, Qle_bool_iff.
      * exact (Hmin_le (Fin q) Hy eq_refl).
      * exact (Hmax_le (Fin q) Hy eq_refl).
  - intro Hf.
    destruct (fecha_bounds_some d Hf) as (lo & hi & _ & _ & Hb & Hle & Hall).
    exists (to_pydatetime lo), (to_pydatetime hi).
    split; [assumption|]. unfold to_pydatetime. split.
    + apply Z.div_le_mono; lia.
    + intros r n Hr Hn. destruct (Hall r n Hr Hn).
      split; apply Z.div_le_mono; lia.
Qed.

(** X4. When both bounds of the altitude slider are computed their
    order is right, [global_alt_min <= global_alt_max], and every
    altitude of the dataset cut to an integer lies between them; the
    same holds for the two ends of the date slider, which exist as soon
    as one row has a date, and the dates cut to microseconds. *)
Theorem slider_bounds_ordered (d : appProyectoFinal.DataFrame) :
  (forall a b,
      appProyectoFinal.alt_bounds d = Ok (Some (a, b)) ->
      (a <= b)%Z /\
      forall r q, In r (appProyectoFinal.rows d) ->
                  appProyectoFinal.Altitud r = Fin q ->
                  (a <= truncate q <= b)%Z) /\
  (appProyectoFinal.has_fecha d = true ->
   exists s e,
     appProyectoFinal.fecha_bounds d = Some (s, e) /\
     (s <= e)%Z /\
     forall r n, In r (appProyectoFinal.rows d) ->
                 appProyectoFinal.Fecha r = Ts n ->
                 (s <= to_pydatetime n <= e)%Z).
Proof. exact (slider_bounds d). Qed.

Lemma infinite_altitude_bounds
    (d : appProyectoFinal.DataFrame) (r : appProyectoFinal.Row) :
  In "Altitud" (appProyectoFinal.columns d) ->
  In r (appProyectoFinal.rows d) ->
  appProyectoFinal.Altitud r = PosInf \/ appProyectoFinal.Altitud r = NegInf ->
  appProyectoFinal.alt_bounds d = Raise OverflowError.
Proof.
  intros Hcol Hin Hinf.
  assert (Hna : notna (appProyectoFinal.Altitud r) = true)
    by (destruct Hinf as [-> | ->]; reflexivity).
  assert (Hha : appProyectoFinal.has_alt d = true).
  { apply has_alt_iff. split; [assumption|]. exists r. split; [assumption|].
    now apply notna_iff. }
  assert (Hx : In (appProyectoFinal.Altitud r)
                  (map appProyectoFinal.Altitud (appProyectoFinal.rows d)))
    by now apply in_map.
  destruct (series_min_spec _ _ Hx Hna) as (_ & Hmin_na & Hmin_le).
  destruct (series_max_spec _ _ Hx Hna) as (_ & Hmax_na & Hmax_le).
  specialize (Hmin_le _ Hx Hna). specialize (Hmax_le _ Hx Hna).
  unfold appProyectoFinal.alt_bounds, appProyectoFinal.global_alt_min,
    appProyectoFinal.global_alt_max.
  rewrite Hha.
  destruct (appProyectoFinal.series_min _) as [| |qmin|] eqn:Hmin;
    try discriminate; try reflexivity.
  destruct (appProyectoFinal.series_max _) as [| |qmax|] eqn:Hmax;
    try discriminate; try reflexivity.
  destruct Hinf as [Hr | Hr]; rewrite Hr in *; discriminate.
Qed.

Lemma slider_bounds_ordered_witness :
  exists a b,
    appProyectoFinal.alt_bounds SampleMore.good_dataset = Ok (Some (a, b)) /\
    (a <= b)%Z.
Proof.
  destruct (slider_bounds_ordered SampleMore.good_dataset) as [Halt _].
  eexists. eexists. split; [vm_compute; reflexivity|].
  refine (proj1 (Halt _ _ _)). vm_compute. reflexivity.
Defined.

(** X5. An infinite altitude in the dataset (the text [inf] reads as a
    number) makes the run raise [OverflowError] right after the load,
    when it computes the bounds of the altitude slider: [int] has no
    value for it. *)
Theorem infinite_altitude_overflows `{Pandas} `{Streamlit}
    (ss : appProyectoFinal.SessionState) (log log1 : list event)
    (d : appProyectoFinal.DataFrame) (r : appProyectoFinal.Row) :
  appProyectoFinal.load_data "conejos.csv" log = (Done d, log1) ->
  In "Altitud" (appProyectoFinal.columns d) ->
  In r (appProyectoFinal.rows d) ->
  appProyectoFinal.Altitud r = PosInf \/ appProyectoFinal.Altitud r = NegInf ->
  appProyectoFinal.alt_bounds d = Raise OverflowError /\
  appProyectoFinal.script ss log = (Raised OverflowError, log1).
Proof.
  intros Hload Hcol Hin Hinf.
  pose proof (infinite_altitude_bounds d r Hcol Hin Hinf) as Hb.
  split; [exact Hb|].
  unfold appProyectoFinal.script. rewrite (bind_done _ _ _ _ _ Hload).
  assert (Hne : appProyectoFinal.empty d = false).
  { unfold appProyectoFinal.empty.
    destruct (appProyectoFinal.rows d); [contradiction|].
    destruct (appProyectoFinal.columns d); [contradiction|reflexivity]. }
  rewrite Hne, Hb. reflexivity.
Qed.

Lemma infinite_altitude_overflows_witness :
  @appProyectoFinal.script SampleMore.lib_infinite Sample.streamlit no_session []
  = (Raised OverflowError, calls "conejos.csv" ["utf-8"]).
Proof.
  refine (proj2 (@infinite_altitude_overflows SampleMore.lib_infinite
                   Sample.streamlit no_session []
                   (calls "conejos.csv" ["utf-8"]) SampleMore.infinite_dataset
                   (nth 0 (appProyectoFinal.rows SampleMore.infinite_dataset)
                        SampleData.second_row) _ _ _ _)).
  - vm_compute. reflexivity.
  - do 5 right. left. reflexivity.
  - left. reflexivity.
  - left. reflexivity.
Defined.

(** ** The first run and the reset button *)

Section FirstRun.
Context `{Streamlit}.
Import appProyectoFinal.

Lemma alt_bounds_flag (d : DataFrame) (alts : option (Z * Z)) :
  alt_bounds d = Ok alts ->
  (has_alt d = true /\ exists a b, alts = Some (a, b)) \/
  (has_alt d = false /\ alts = None).
Proof.
  unfold alt_bounds. destruct (has_alt d).
  - destruct (global_alt_min d); [|discriminate].
    destruct (global_alt_max d); [|discriminate].
    cbn. intro Heq. injection Heq as <-. left. split; [reflexivity|]. eauto.
  - intro Heq. injection Heq as <-. now right.
Qed.

(** Every option selected: the selector returns them all. *)
Lemma multiselect_all (options : list string) :
  st_multiselect options (Some options) = options.
Proof.
  cbn. apply filter_all. intros x Hx. now apply mem_In.
Qed.

(** What the four widgets return on a first run in which they
    return. *)
Lemma first_run_fields (d : DataFrame) (alts : option (Z * Z)) (c : Criteria) :
  alt_bounds d = Ok alts ->
  first_run_criteria d alts = Ok c ->
  selected_species c = species_options d /\
  lugar_text c = "" /\
  (start_dt c, end_dt c)
  = (option_map fst (fecha_bounds d), option_map snd (fecha_bounds d)) /\
  (alt_min_sel c, alt_max_sel c) = (option_map fst alts, option_map snd alts).
Proof.
  intros Hb Hc. unfold first_run_criteria in Hc.
  apply read_widgets_ok in Hc as (Hsp & Htext & Hdates & bounds & Hb' & Halts).
  rewrite Hb in Hb'. injection Hb' as <-.
  split; [|split; [exact Htext|split]].
  - rewrite Hsp. apply multiselect_all.
  - destruct (fecha_bounds d) as [[lo hi]|] eqn:Hf.
    + destruct Hdates as (s & e & Hst & _ & -> & ->).
      cbn in Hst. rewrite Hf in Hst. now injection Hst as <- <-.
    + now destruct Hdates as [-> ->].
  - destruct alts as [[lo hi]|].
    + destruct Halts as (a & b & Hst & _ & -> & ->).
      cbn in Hst. now injection Hst as <- <-.
    + now destruct Halts as [-> ->].
Qed.

End FirstRun.

(** X6. The reset button brings back the criteria of the first run,
    whatever the session held: after [reset_filters] the four widgets
    return what they returned when no key was set. *)
Theorem reset_restores_first_run `{Streamlit}
    (d : appProyectoFinal.DataFrame) (alts : option (Z * Z))
    (ss : appProyectoFinal.SessionState) :
  appProyectoFinal.alt_bounds d = Ok alts ->
  appProyectoFinal.read_widgets d (appProyectoFinal.reset_filters d alts ss)
  = first_run_criteria d alts.
Proof.
  intro Hb. unfold first_run_criteria, appProyectoFinal.read_widgets.
  cbv zeta. rewrite Hb.
  cbn [appProyectoFinal.reset_filters appProyectoFinal.init_session no_session
       appProyectoFinal.species_filter appProyectoFinal.lugar_filter
       appProyectoFinal.fecha_filter appProyectoFinal.alt_filter
       appProyectoFinal.or_else].
  destruct (appProyectoFinal.fecha_bounds d) as [[lo hi]|];
    destruct alts as [[a b]|]; reflexivity.
Qed.

Lemma reset_restores_first_run_witness :
  @appProyectoFinal.read_widgets Sample.streamlit SampleData.dataset
    (appProyectoFinal.reset_filters SampleData.dataset (Some (800, 1234)%Z)
       SampleMore.used_session)
  = @first_run_criteria Sample.streamlit SampleData.dataset (Some (800, 1234)%Z).
Proof.
  apply reset_restores_first_run. vm_compute. reflexivity.
Defined.

Section FirstView.
Context `{Pandas} `{Streamlit}.
Import appProyectoFinal.

Variables (d : DataFrame) (alts : option (Z * Z)) (c : Criteria).
Hypothesis bounds_computed : alt_bounds d = Ok alts.
Hypothesis widgets_returned : first_run_criteria d alts = Ok c.

Lemma first_run_species_ok r : In r (rows d) -> species_ok c r = true.
Proof.
  intro Hin.
  destruct (first_run_fields d alts c bounds_computed widgets_returned)
    as (Hsp & _).
  unfold species_ok. rewrite Hsp.
  destruct (species_options d) as [|s l] eqn:Hopts; [reflexivity|].
  apply mem_In. rewrite <- Hopts. apply In_species_options. now exists r.
Qed.

Lemma first_run_runs : lugar_runs c d = true.
Proof.
  destruct (first_run_fields d alts c bounds_computed widgets_returned)
    as (_ & Htext & _).
  unfold lugar_runs. now rewrite Htext.
Qed.

Lemma first_run_lugar_ok r : lugar_ok c r = true.
Proof.
  destruct (first_run_fields d alts c bounds_computed widgets_returned)
    as (_ & Htext & _).
  unfold lugar_ok. now rewrite Htext.
Qed.

(** The date test of the first run: a date, not after the last date
    cut to microseconds. *)
Lemma first_run_fecha_ok r :
  In r (rows d) ->
  fecha_ok (has_fecha d) c r = true <->
  (has_fecha d = true ->
   exists n hi, Fecha r = Ts n /\ dates_max (map Fecha (rows d)) = Ts hi /\
                (n <= 1000 * (hi / 1000))%Z).
Proof.
  intro Hin.
  destruct (first_run_fields d alts c bounds_computed widgets_returned)
    as (_ & _ & Hdates & _).
  injection Hdates as Hs He.
  unfold fecha_ok. rewrite Hs, He.
  destruct (has_fecha d) eqn:Hf; [|split; [discriminate|reflexivity]].
  destruct (fecha_bounds_some d Hf) as (lo & hi & Hlo & Hhi & Hb & Hle & Hall).
  rewrite Hb. cbn -[Z.mul Z.div]. rewrite ts_between_iff.
  unfold timestamp_of_datetime, to_pydatetime. split.
  - intros (n & Hn & Hr) _. exists n, hi. split; [assumption|]. split; [assumption|]. lia.
  - intro Hyp. destruct (Hyp eq_refl) as (n & hi' & Hn & Hhi' & Hr).
    rewrite Hhi in Hhi'. injection Hhi' as <-.
    exists n. split; [assumption|].
    destruct (Hall r n Hin Hn) as [Hlon _].
    pose proof (Z.mul_div_le lo 1000 ltac:(lia)). lia.
Qed.

(** The altitude test of the first run: an altitude between the two
    bounds. *)
Lemma first_run_alt_ok r :
  alt_ok (has_alt d) c r = true <->
  (has_alt d = true ->
   exists q a b, alts = Some (a, b) /\ Altitud r = Fin q /\
                 (inject_Z a <= q)%Q /\ (q <= inject_Z b)%Q).
Proof.
  destruct (first_run_fields d alts c bounds_computed widgets_returned)
    as (_ & _ & _ & Halts).
  injection Halts as Hmin Hmax.
  unfold alt_ok. rewrite Hmin, Hmax.
  destruct (alt_bounds_flag d alts bounds_computed)
    as [[Hha (a & b & ->)] | [Hha ->]];
    rewrite Hha; [|split; [discriminate|reflexivity]].
  cbn. rewrite between_iff. split.
  - intros (q & Hq & Hr) _. exists q, a, b. tauto.
  - intro Hyp. destruct (Hyp eq_refl) as (q & a' & b' & Heq & Hq & Hr).
    injection Heq as <- <-. now exists q.
Qed.

End FirstView.

(** X7. What the first run shows (and every run after a reset) when
    its widgets return, a slider being free to refuse its bounds: all
    the rows of the dataset, except that once some row has a date the
    rows without date and the rows dated after the last date cut to
    microseconds are left out, and once some row has an altitude the
    rows without altitude and the rows whose altitude is outside the
    two truncated bounds are left out. *)
Theorem first_run_view `{Pandas} `{Streamlit}
    (d : appProyectoFinal.DataFrame) (alts : option (Z * Z))
    (c : appProyectoFinal.Criteria) :
  appProyectoFinal.alt_bounds d = Ok alts ->
  first_run_criteria d alts = Ok c ->
  exists v,
    appProyectoFinal.filter_pipeline
      (appProyectoFinal.has_fecha d) (appProyectoFinal.has_alt d) c d = Ok v /\
    appProyectoFinal.columns v = appProyectoFinal.columns d /\
    forall r,
      In r (appProyectoFinal.rows v) <->
      In r (appProyectoFinal.rows d) /\
      (appProyectoFinal.has_fecha d = true ->
       exists n hi,
         appProyectoFinal.Fecha r = Ts n /\
         appProyectoFinal.dates_max
           (map appProyectoFinal.Fecha (appProyectoFinal.rows d)) = Ts hi /\
         (n <= 1000 * (hi / 1000))%Z) /\
      (appProyectoFinal.has_alt d = true ->
       exists q a b,
         alts = Some (a, b) /\ appProyectoFinal.Altitud r = Fin q /\
         (inject_Z a <= q)%Q /\ (q <= inject_Z b)%Q).
Proof.
  intros Hb Hc.
  exists (appProyectoFinal.select
            (all_ok (appProyectoFinal.has_fecha d) (appProyectoFinal.has_alt d) c) d).
  split; [apply filter_pipeline_select, (first_run_runs d alts c Hb Hc)|].
  split; [reflexivity|].
  intro r. cbn [appProyectoFinal.select appProyectoFinal.rows].
  rewrite filter_In, all_ok_parts. split.
  - intros (Hin & _ & _ & Hf & Ha). split; [assumption|]. split.
    + now apply (first_run_fecha_ok d alts c Hb Hc r Hin).
    + now apply (first_run_alt_ok d alts c Hb Hc r).
  - intros (Hin & Hf & Ha). split; [assumption|].
    split; [now apply (first_run_species_ok d alts c Hb Hc)|].
    split; [apply (first_run_lugar_ok d alts c Hb Hc)|]. split.
    + now apply (first_run_fecha_ok d alts c Hb Hc r Hin).
    + now apply (first_run_alt_ok d alts c Hb Hc r).
Qed.

Lemma first_run_view_witness :
  exists c v,
    @first_run_criteria Sample.streamlit SampleData.dataset (Some (800, 1234)%Z)
    = Ok c /\
    @appProyectoFinal.filter_pipeline SampleData.lib
      (appProyectoFinal.has_fecha SampleData.dataset)
      (appProyectoFinal.has_alt SampleData.dataset) c SampleData.dataset = Ok v /\
    appProyectoFinal.columns v = appProyectoFinal.columns SampleData.dataset.
Proof.
  assert (Hc : @first_run_criteria Sample.streamlit SampleData.dataset
                 (Some (800, 1234)%Z) = Ok SampleMore.first_run)
    by (vm_compute; reflexivity).
  destruct (@first_run_view SampleData.lib Sample.streamlit SampleData.dataset
              (Some (800, 1234)%Z) SampleMore.first_run)
    as (v & Hv & Hcols & _).
  - vm_compute. reflexivity.
  - exact Hc.
  - exists SampleMore.first_run, v. split; [exact Hc|]. split; assumption.
Defined.

(** X8. On a first run whose widgets return, no row is hidden whose
    date, if the dataset has dates, is a whole number of microseconds
    and whose altitude, if the dataset has altitudes, is a whole
    number: only missing values and fractions can fall outside the
    default ranges. *)
Theorem first_run_keeps_whole_values `{Pandas} `{Streamlit}
    (d v : appProyectoFinal.DataFrame) (alts : option (Z * Z))
    (c : appProyectoFinal.Criteria) (r : appProyectoFinal.Row) :
  appProyectoFinal.alt_bounds d = Ok alts ->
  first_run_criteria d alts = Ok c ->
  appProyectoFinal.filter_pipeline
    (appProyectoFinal.has_fecha d) (appProyectoFinal.has_alt d) c d = Ok v ->
  In r (appProyectoFinal.rows d) ->
  (appProyectoFinal.has_fecha d = true ->
   exists n, appProyectoFinal.Fecha r = Ts n /\ (n mod 1000 = 0)%Z) ->
  (appProyectoFinal.has_alt d = true ->
   exists q z, appProyectoFinal.Altitud r = Fin q /\ (q == inject_Z z)%Q) ->
  In r (appProyectoFinal.rows v).
Proof.
  intros Hb Hc Hv Hin Hdate Halt.
  destruct (filter_pipeline_rows _ _ _ _ _ Hv) as [_ ->].
  apply filter_In. split; [assumption|]. apply all_ok_parts.
  split; [now apply (first_run_species_ok d alts c Hb Hc)|].
  split; [apply (first_run_lugar_ok d alts c Hb Hc)|]. split.
  - apply (first_run_fecha_ok d alts c Hb Hc r Hin). intro Hf.
    destruct (Hdate Hf) as (n & Hn & Hmod).
    destruct (fecha_bounds_some d Hf) as (lo & hi & _ & Hhi & _ & _ & Hall).
    exists n, hi. split; [assumption|]. split; [assumption|].
    destruct (Hall r n Hin Hn) as [_ Hnhi].
    pose proof (Z.div_le_mono n hi 1000 ltac:(lia) Hnhi).
    pose proof (Z.div_mod n 1000 ltac:(lia)). lia.
  - apply (first_run_alt_ok d alts c Hb Hc r). intro Hha.
    destruct (Halt Hha) as (q & z & Hq & Hz).
    destruct (alt_bounds_flag d alts Hb) as [[_ (a & b & ->)] | [Hno _]];
      [|congruence].
    exists q, a, b. split; [reflexivity|]. split; [assumption|].
    destruct (proj1 (slider_bounds d) a b Hb) as [_ Htr].
    destruct (Htr r q Hin Hq) as [Ha Hbq].
    rewrite (truncate_whole q z Hz) in Ha, Hbq.
    rewrite Hz. now rewrite <- !Zle_Qle.
Qed.

Lemma first_run_keeps_whole_values_witness :
  exists v,
    @appProyectoFinal.filter_pipeline SampleData.lib
      (appProyectoFinal.has_fecha SampleData.dataset)
      (appProyectoFinal.has_alt SampleData.dataset)
      SampleMore.first_run SampleData.dataset = Ok v /\
    In (nth 2 (appProyectoFinal.rows SampleData.dataset) SampleData.second_row)
       (appProyectoFinal.rows v).
Proof.
  eexists. split; [vm_compute; reflexivity|].
  eapply (@first_run_keeps_whole_values SampleData.lib Sample.streamlit
            SampleData.dataset _ (Some (800, 1234)%Z) SampleMore.first_run).
  - vm_compute. reflexivity.
  - vm_compute. reflexivity.
  - vm_compute. reflexivity.
  - do 2 right. left. reflexivity.
  - intros _. eexists. split; reflexivity.
  - intros _. exists (Qmake 800 1), 800%Z. split; reflexivity.
Defined.

(** ** White space around the column names *)

Lemma list_ascii_of_string_app (a b : string) :
  list_ascii_of_string (a ++ b)
  = list_ascii_of_string a ++ list_ascii_of_string b.
Proof. induction a as [|c a IH]; cbn; [reflexivity|now rewrite IH]. Qed.

Lemma white_cases (P : N -> Prop) :
  Forall P white_space_points -> forall cp, is_white cp = true -> P cp.
Proof.
  intros Hall cp Hcp. unfold is_white in Hcp.
  apply existsb_exists in Hcp as (x & Hin & Heq).
  apply N.eqb_eq in Heq. subst x.
  now apply (proj1 (Forall_forall P white_space_points) Hall).
Qed.

(** The bytes written for the white-space characters are their UTF-8
    encodings: the decoder of the loader reads each back. *)
Lemma white_space_encoded :
  forallb (fun cp =>
             match decode_utf8 (list_byte_of_string (str_char cp)) with
             | Some [x] => N.eqb x cp
             | _ => false
             end) white_space_points = true.
Proof. vm_compute. reflexivity. Qed.

(** Each white-space character is removed from the head of a string,
    and, its bytes reversed, from the head of a reversed one; its first
    byte is not a continuation byte. *)
Lemma lstrip_char (cp : N) (l : list ascii) :
  is_white cp = true ->
  lstrip_chars (list_ascii_of_string (str_char cp) ++ l) = lstrip_chars l.
Proof.
  intro Hcp. revert l.
  apply (white_cases
           (fun cp => forall l,
                lstrip_chars (list_ascii_of_string (str_char cp) ++ l)
                = lstrip_chars l)); [|exact Hcp].
  repeat constructor.
Qed.

Lemma lstrip_reversed_char (cp : N) (l : list ascii) :
  is_white cp = true ->
  lstrip_reversed (rev (list_ascii_of_string (str_char cp)) ++ l)
  = lstrip_reversed l.
Proof.
  intro Hcp. revert l.
  apply (white_cases
           (fun cp => forall l,
                lstrip_reversed (rev (list_ascii_of_string (str_char cp)) ++ l)
                = lstrip_reversed l)); [|exact Hcp].
  repeat constructor.
Qed.

Lemma white_starts (cp : N) :
  is_white cp = true ->
  exists c t, list_ascii_of_string (str_char cp) = c :: t /\ starter c = true.
Proof.
  apply (white_cases
           (fun cp => exists c t,
                list_ascii_of_string (str_char cp) = c :: t /\ starter c = true)).
  repeat constructor; eexists; eexists; split; reflexivity.
Qed.

Lemma lstrip_blank (ws : list N) (l : list ascii) :
  forallb is_white ws = true ->
  lstrip_chars (list_ascii_of_string (text_of ws) ++ l) = lstrip_chars l.
Proof.
  induction ws as [|cp ws IH]; intro Hws; [reflexivity|].
  cbn in Hws. apply andb_prop in Hws as [Hcp Hws].
  cbn [text_of]. rewrite list_ascii_of_string_app, <- app_assoc.
  rewrite (lstrip_char cp _ Hcp). now apply IH.
Qed.

Lemma lstrip_reversed_blank (ws : list N) (l : list ascii) :
  forallb is_white ws = true ->
  lstrip_reversed (rev (list_ascii_of_string (text_of ws)) ++ l)
  = lstrip_reversed l.
Proof.
  revert l. induction ws as [|cp ws IH]; intros l Hws; [reflexivity|].
  cbn in Hws. apply andb_prop in Hws as [Hcp Hws].
  cbn [text_of]. rewrite list_ascii_of_string_app, rev_app_distr, <- app_assoc.
  rewrite (IH _ Hws). now apply lstrip_reversed_char.
Qed.

(** The bytes of a run of white space are empty or start with a byte
    that starts a character. *)
Definition starts_clean (ws : list ascii) : Prop :=
  match ws with
  | [] => True
  | c :: _ => starter c = true
  end.

Lemma blank_starts_clean (ws : list N) :
  forallb is_white ws = true ->
  starts_clean (list_ascii_of_string (text_of ws)).
Proof.
  destruct ws as [|cp ws]; intro Hws; [exact I|].
  cbn in Hws. apply andb_prop in Hws as [Hcp _].
  cbn [text_of]. rewrite list_ascii_of_string_app.
  destruct (white_starts cp Hcp) as (c & t & -> & Hc). exact Hc.
Qed.

(** A continuation byte is the last byte of no white-space character
    but as one of two or three, and a byte that starts a character is
    neither the second nor the third byte of one. *)
Lemma starter_not_second (a h : ascii) : starter h = true -> is_space2 a h = false.
Proof.
  unfold starter, is_space2, byte_is. intro Hs.
  destruct (nat_of_ascii a =? 194)%nat; [|reflexivity]. cbn.
  apply orb_true_iff in Hs.
  apply orb_false_iff. split; apply Nat.eqb_neq;
    destruct Hs as [Hs | Hs];
    [apply Nat.ltb_lt in Hs | apply Nat.leb_le in Hs
    |apply Nat.ltb_lt in Hs | apply Nat.leb_le in Hs]; lia.
Qed.

Lemma starter_not_third (a b h : ascii) : starter h = true -> is_space3 a b h = false.
Proof.
  unfold starter, is_space3, byte_is. intro Hs.
  assert (Hn : (nat_of_ascii h < 128 \/ 192 <= nat_of_ascii h)%nat).
  { apply orb_true_iff in Hs as [Hs | Hs];
      [apply Nat.ltb_lt in Hs | apply Nat.leb_le in Hs]; lia. }
  cbv zeta.
  assert (H128 : (nat_of_ascii h =? 128)%nat = false) by (apply Nat.eqb_neq; lia).
  assert (H159 : (nat_of_ascii h =? 159)%nat = false) by (apply Nat.eqb_neq; lia).
  assert (H168 : (nat_of_ascii h =? 168)%nat = false) by (apply Nat.eqb_neq; lia).
  assert (H169 : (nat_of_ascii h =? 169)%nat = false) by (apply Nat.eqb_neq; lia).
  assert (H175 : (nat_of_ascii h =? 175)%nat = false) by (apply Nat.eqb_neq; lia).
  assert (Hrange : ((128 <=? nat_of_ascii h) && (nat_of_ascii h <=? 138))%nat = false).
  { apply andb_false_iff. destruct Hn as [Hn | Hn].
    - left. apply Nat.leb_gt. lia.
    - right. apply Nat.leb_gt. lia. }
  rewrite H128, H159, H168, H169, H175, Hrange.
  cbn. now rewrite !andb_false_r.
Qed.

Lemma starter_not_middle (a h c : ascii) : starter h = true -> is_space3 a h c = false.
Proof.
  unfold starter, is_space3, byte_is. intro Hs.
  assert (Hn : (nat_of_ascii h < 128 \/ 192 <= nat_of_ascii h)%nat).
  { apply orb_true_iff in Hs as [Hs | Hs];
      [apply Nat.ltb_lt in Hs | apply Nat.leb_le in Hs]; lia. }
  cbv zeta.
  assert (H128 : (nat_of_ascii h =? 128)%nat = false) by (apply Nat.eqb_neq; lia).
  assert (H129 : (nat_of_ascii h =? 129)%nat = false) by (apply Nat.eqb_neq; lia).
  assert (H154 : (nat_of_ascii h =? 154)%nat = false) by (apply Nat.eqb_neq; lia).
  rewrite H128, H129, H154. cbn. now rewrite !andb_false_r.
Qed.

(** White space appended to a string does not change what is removed
    from its head, unless the whole string is white space. *)
Lemma lstrip_app_upto (n : nat) (l ws : list ascii) :
  List.length l <= n ->
  starts_clean ws ->
  lstrip_chars (l ++ ws)
  = match lstrip_chars l with
    | [] => lstrip_chars ws
    | _ :: _ => lstrip_chars l ++ ws
    end.
Proof.
  revert l. induction n as [|n IH]; intros l Hlen Hws.
  - destruct l; [reflexivity|cbn in Hlen; lia].
  - destruct l as [|a t]; [reflexivity|].
    unfold lstrip_chars in *.
    cbn [app lstrip_with]. cbn in Hlen.
    destruct (is_space a) eqn:Ha.
    + apply IH; [lia|assumption].
    + destruct t as [|b t2].
      * cbn [app]. destruct ws as [|h ws']; [reflexivity|].
        cbn in Hws. rewrite (starter_not_second a h Hws).
        destruct ws' as [|c ws'']; [reflexivity|].
        now rewrite (starter_not_middle a h c Hws).
      * cbn [app]. cbn in Hlen. destruct (is_space2 a b) eqn:Hab.
        -- apply IH; [lia|assumption].
        -- destruct t2 as [|c t3].
           ++ cbn [app]. destruct ws as [|h ws']; [reflexivity|].
              cbn in Hws. now rewrite (starter_not_third a b h Hws).
           ++ cbn [app]. cbn in Hlen. destruct (is_space3 a b c) eqn:Habc.
              ** apply IH; [lia|assumption].
              ** reflexivity.
Qed.

Lemma lstrip_app (l ws : list ascii) :
  starts_clean ws ->
  lstrip_chars (l ++ ws)
  = match lstrip_chars l with
    | [] => lstrip_chars ws
    | _ :: _ => lstrip_chars l ++ ws
    end.
Proof. intro Hws. now apply (lstrip_app_upto (List.length l)). Qed.

Lemma strip_padded (a b : string) : padded a b -> strip b = strip a.
Proof.
  intros (l & r & Hl & Hr & ->). unfold strip. f_equal. f_equal.
  rewrite !list_ascii_of_string_app.
  set (L := list_ascii_of_string a).
  rewrite (lstrip_blank l _ Hl).
  rewrite (lstrip_app L _ (blank_starts_clean r Hr)).
  destruct (lstrip_chars L) as [|c M] eqn:HL.
  - pose proof (lstrip_blank r [] Hr) as Hnil. rewrite app_nil_r in Hnil.
    rewrite Hnil. reflexivity.
  - rewrite rev_app_distr. now apply lstrip_reversed_blank.
Qed.

Lemma map_strip_padded (cols cols' : list string) :
  Forall2 padded cols cols' -> map strip cols' = map strip cols.
Proof.
  induction 1 as [|a b cols cols' Hab _ IH]; [reflexivity|].
  cbn. now rewrite IH, (strip_padded a b Hab).
Qed.

(** X9. [load_data] of the final script does not see white space
    around the names of the header, be it ASCII or any other character
    [str.strip] removes (a no-break space, an em space, ...): two
    frames with the same rows whose column names differ by leading and
    trailing white space only are cleaned to the same result (the same
    dataset, or the same [KeyError]). *)
Theorem header_padding_ignored `{Pandas} (raw raw' : RawFrame) :
  raw_rows raw' = raw_rows raw ->
  Forall2 padded (raw_columns raw) (raw_columns raw') ->
  appProyectoFinal.clean raw' = appProyectoFinal.clean raw.
Proof.
  intros Hrows Hcols. unfold appProyectoFinal.clean.
  now rewrite Hrows, (map_strip_padded _ _ Hcols).
Qed.

Lemma header_padding_ignored_witness :
  @appProyectoFinal.clean SampleData.lib
    {| raw_columns := SampleMore.untidy_header;
       raw_rows := raw_rows SampleData.frame |}
  = @appProyectoFinal.clean SampleData.lib
      {| raw_columns := SampleMore.tidy_header;
         raw_rows := raw_rows SampleData.frame |}.
Proof.
  apply (@header_padding_ignored SampleData.lib).
  - reflexivity.
  - unfold SampleMore.tidy_header, SampleMore.untidy_header. cbn [raw_columns].
    repeat constructor.
    + exists [], [32%N]. repeat split.
    + exists [160%N], []. repeat split.
    + exists [], [9%N]. repeat split.
    + exists [32%N; 32%N], [32%N; 32%N]. repeat split.
    + exists [], []. repeat split.
    + exists [8195%N], [133%N]. repeat split.
Defined.

(** ** A run that reaches the tabs *)

Section Runs.
Context `{Pandas} `{Streamlit}.
Import appProyectoFinal.

(** What a run of [script] that returns went through. *)
Lemma script_done ss log ss' v log' :
  script ss log = (Done (ss', v), log') ->
  exists d alts c,
    load_data "conejos.csv" log = (Done d, log') /\
    empty d = false /\
    alt_bounds d = Ok alts /\
    ss' = init_session d alts ss /\
    read_widgets d ss' = Ok c /\
    df v = d /\
    filter_pipeline (has_fecha d) (has_alt d) c d = Ok (filtered_df v) /\
    empty (filtered_df v) = false.
Proof.
  unfold script. unfold bind at 1.
  destruct (load_data "conejos.csv" log) as [[d| |e] log1] eqn:Hload;
    try discriminate.
  destruct (empty d) eqn:Hne; [discriminate|].
  unfold bind at 1.
  destruct (alt_bounds d) as [alts|e] eqn:Hb; [|discriminate].
  cbn [lift]. unfold ret at 1.
  unfold bind at 1.
  destruct (read_widgets d (init_session d alts ss)) as [c|e] eqn:Hw;
    [|discriminate].
  cbn [lift]. unfold ret at 1.
  unfold bind at 1, filter_and_guard. unfold bind at 1, filter_stage.
  cbn [df].
  destruct (filter_pipeline _ _ c d) as [f|e] eqn:Hp; [|discriminate].
  cbn [rbind lift]. unfold ret at 1. unfold empty_guard. cbn [filtered_df].
  destruct (empty f) eqn:Hf; [discriminate|].
  unfold ret. intro Heq. injection Heq as <- <- <-.
  exists d, alts, c. repeat split; assumption.
Qed.

(** A dataset that [load_data] returns has the three columns the
    script indexes, and coordinates in every row. *)
Lemma load_data_done path log d log' :
  load_data path log = (Done d, log') ->
  mem "Latitud" (columns d) = true /\
  mem "Longitud" (columns d) = true /\
  mem "Especie" (columns d) = true /\
  Forall (fun r => notna (Latitud r) = true /\ notna (Longitud r) = true) (rows d).
Proof.
  rewrite final_load_data_loader. intro Hload.
  apply loader_done in Hload as (_ & _ & _ & raw & _ & _ & _ & Hclean & _).
  pose proof (clean_ok raw d Hclean) as Hreq.
  rewrite (clean_rows raw Hreq) in Hclean. injection Hclean as <-. cbn [columns rows].
  unfold required_columns in Hreq. cbn zeta in Hreq.
  apply andb_prop in Hreq as [Hreq He]. apply andb_prop in Hreq as [Hla Hlo].
  repeat split; try assumption.
  apply Forall_forall. intros r Hin.
  apply in_map_iff in Hin as (r0 & <- & Hin0).
  apply filter_In in Hin0 as [_ Hvalid].
  rewrite <- (has_coordinates_coerce (map strip (raw_columns raw))
                (map raw_Fecha (raw_rows raw))) in Hvalid.
  now apply andb_prop in Hvalid.
Qed.

(** With the flag set, both ends of a range come out of the widgets
    that return, whatever the session held. *)
Lemma widgets_dates d ss c :
  read_widgets d ss = Ok c ->
  has_fecha d = true ->
  exists s e, start_dt c = Some s /\ end_dt c = Some e.
Proof.
  intros Hw Hf. destruct (fecha_bounds_some d Hf) as (lo & hi & _ & _ & Hb & _).
  apply read_widgets_ok in Hw as (_ & _ & Hdates & _).
  rewrite Hb in Hdates. destruct Hdates as (s & e & _ & _ & Hs & He). eauto.
Qed.

Lemma widgets_altitudes d ss c :
  read_widgets d ss = Ok c ->
  has_alt d = true ->
  exists a b, alt_min_sel c = Some a /\ alt_max_sel c = Some b.
Proof.
  intros Hw Hha.
  apply read_widgets_ok in Hw as (_ & _ & _ & bounds & Hb & Halts).
  destruct (alt_bounds_flag d bounds Hb) as [[_ (lo & hi & ->)] | [Hno _]];
    [|congruence].
  destruct Halts as (a & b & _ & _ & Ha & Hbb). eauto.
Qed.

End Runs.

Lemma view_facts `{Pandas} `{Streamlit} ss log ss' v log' :
  appProyectoFinal.script ss log = (Done (ss', v), log') ->
  appProyectoFinal.rows (appProyectoFinal.filtered_df v) <> [] /\
  (appProyectoFinal.has_fecha (appProyectoFinal.df v) = true ->
   Forall (fun r => exists n, appProyectoFinal.Fecha r = Ts n)
          (appProyectoFinal.rows (appProyectoFinal.filtered_df v))) /\
  (appProyectoFinal.has_alt (appProyectoFinal.df v) = true ->
   Forall (fun r => exists q, appProyectoFinal.Altitud r = Fin q)
          (appProyectoFinal.rows (appProyectoFinal.filtered_df v))).
Proof.
  intro Hrun.
  destruct (script_done ss log ss' v log' Hrun)
    as (d0 & alts & c & Hload & Hne & Hb & -> & Hw & Hd & Hp & Hf).
  subst d0.
  destruct (filter_pipeline_rows _ _ _ _ _ Hp) as [Hcols Hrows].
  split; [|split].
  - intro Hnil. unfold appProyectoFinal.empty in Hf. now rewrite Hnil in Hf.
  - intro Hhf. rewrite Hrows. apply Forall_forall. intros r Hr.
    apply filter_In in Hr as [_ Hok]. apply all_ok_parts in Hok as (_ & _ & Hfe & _).
    destruct (widgets_dates _ _ c Hw Hhf) as (s & e & Hs & He).
    unfold fecha_ok in Hfe. rewrite Hhf, Hs, He in Hfe.
    apply ts_between_iff in Hfe as (n & Hn & _). eauto.
  - intro Hha. rewrite Hrows. apply Forall_forall. intros r Hr.
    apply filter_In in Hr as [_ Hok]. apply all_ok_parts in Hok as (_ & _ & _ & Hal).
    destruct (widgets_altitudes _ _ c Hw Hha) as (a & b & Ha & Hbb).
    unfold alt_ok in Hal. rewrite Hha, Ha, Hbb in Hal.
    apply between_iff in Hal as (q & Hq & _). eauto.
Qed.

(** X10. In every run that reaches the tabs, the view they get is not
    empty, has the columns of the dataset and rows of the dataset in
    their order, every row has its two coordinates, and, once one row
    of the dataset has a date (an altitude), every row of the view has
    a date (a finite altitude): whatever the session holds, the range
    sliders filter out the rows with a missing value. *)
Theorem view_of_a_run `{Pandas} `{Streamlit}
    (ss ss' : appProyectoFinal.SessionState) (v : appProyectoFinal.Vars)
    (log log' : list event) :
  appProyectoFinal.script ss log = (Done (ss', v), log') ->
  let d := appProyectoFinal.df v in
  let f := appProyectoFinal.filtered_df v in
  appProyectoFinal.rows f <> [] /\
  appProyectoFinal.columns f = appProyectoFinal.columns d /\
  (exists keep, appProyectoFinal.rows f = filter keep (appProyectoFinal.rows d)) /\
  Forall (fun r => notna (appProyectoFinal.Latitud r) = true /\
                   notna (appProyectoFinal.Longitud r) = true)
         (appProyectoFinal.rows f) /\
  (appProyectoFinal.has_fecha d = true ->
   Forall (fun r => exists n, appProyectoFinal.Fecha r = Ts n)
          (appProyectoFinal.rows f)) /\
  (appProyectoFinal.has_alt d = true ->
   Forall (fun r => exists q, appProyectoFinal.Altitud r = Fin q)
          (appProyectoFinal.rows f)).
Proof.
  intros Hrun d f.
  destruct (script_done ss log ss' v log' Hrun)
    as (d0 & alts & c & Hload & Hne & Hb & -> & Hw & Hd & Hp & Hf).
  fold d in Hd. fold f in Hp, Hf. subst d0.
  destruct (filter_pipeline_rows _ _ _ _ _ Hp) as [Hcols Hrows].
  destruct (load_data_done _ _ _ _ Hload) as (_ & _ & _ & Hcoord).
  split; [|split; [exact Hcols|split; [eauto|split; [|split]]]].
  - intro Hnil. unfold appProyectoFinal.empty in Hf. now rewrite Hnil in Hf.
  - rewrite Hrows. apply Forall_forall. intros r Hr.
    apply filter_In in Hr as [Hr _].
    now apply (proj1 (Forall_forall _ _) Hcoord).
  - intro Hhf. rewrite Hrows. apply Forall_forall. intros r Hr.
    apply filter_In in Hr as [_ Hok]. apply all_ok_parts in Hok as (_ & _ & Hfe & _).
    destruct (widgets_dates _ _ c Hw Hhf) as (s & e & Hs & He).
    unfold fecha_ok in Hfe. rewrite Hhf, Hs, He in Hfe.
    apply ts_between_iff in Hfe as (n & Hn & _). eauto.
  - intro Hha. rewrite Hrows. apply Forall_forall. intros r Hr.
    apply filter_In in Hr as [_ Hok]. apply all_ok_parts in Hok as (_ & _ & _ & Hal).
    destruct (widgets_altitudes _ _ c Hw Hha) as (a & b & Ha & Hbb).
    unfold alt_ok in Hal. rewrite Hha, Ha, Hbb in Hal.
    apply between_iff in Hal as (q & Hq & _). eauto.
Qed.

Lemma view_of_a_run_witness :
  appProyectoFinal.rows (appProyectoFinal.filtered_df (snd SampleMore.good_run)) <> [] /\
  Forall (fun r => exists n, appProyectoFinal.Fecha r = Ts n)
         (appProyectoFinal.rows (appProyectoFinal.filtered_df (snd SampleMore.good_run))).
Proof.
  assert (Hrun : @appProyectoFinal.script SampleMore.lib_good Sample.streamlit
                   SampleMore.used_session []
                 = (Done (fst SampleMore.good_run, snd SampleMore.good_run),
                    calls "conejos.csv" ["utf-8"]))
    by (vm_compute; reflexivity).
  destruct (@view_of_a_run SampleMore.lib_good Sample.streamlit _ _ _ _ _ Hrun)
    as (Hne & _ & _ & _ & Hdates & _).
  split; [exact Hne|]. apply Hdates. vm_compute. reflexivity.
Defined.

(** ** The chart and map tabs *)

Section Tabs.
Context `{Pandas} `{Streamlit} `{SortValues}.
Import appProyectoFinal appProyectoFinalTabs.

Lemma z_leb_total (x y : Z) : Z.leb x y = true \/ Z.leb y x = true.
Proof. rewrite !Z.leb_le. lia. Qed.

(** With a date in every row, the year table counts every row. *)
Lemma df_year_total (f : DataFrame) :
  Forall (fun r => exists n, Fecha r = Ts n) (rows f) ->
  total (df_year f) = List.length (rows f).
Proof.
  intro Hall. unfold df_year. cbn zeta.
  rewrite (groupby_size_total Z.eqb Z.leb Z.eqb_eq).
  rewrite filter_all.
  - induction (rows f) as [|r rs IH]; [reflexivity|].
    inversion Hall as [|? ? (n & Hn) Hrs]; subst.
    cbn [flat_map]. rewrite Hn. cbn. now rewrite IH.
  - intros r Hr. destruct (proj1 (Forall_forall _ _) Hall r Hr) as (n & ->).
    reflexivity.
Qed.

Lemma script_with_tabs_done chart_type ss log ss' v chart m log' :
  script_with_tabs chart_type ss log = (Done (ss', v, chart, m), log') ->
  script ss log = (Done (ss', v), log') /\
  tab_chart chart_type (has_alt (df v)) (has_fecha (df v)) (filtered_df v) = Ok chart /\
  tab_map (filtered_df v) = Ok m.
Proof.
  unfold script_with_tabs. unfold bind at 1.
  destruct (script ss log) as [[[ss0 v0]| |e] log1] eqn:Hrun; try discriminate.
  cbn [fst snd]. unfold bind at 1.
  destruct (tab_chart _ _ _ _) as [chart0|e] eqn:Hchart; [|discriminate].
  cbn [lift]. unfold ret at 1. unfold bind at 1.
  destruct (tab_map _) as [m0|e] eqn:Hmap; [|discriminate].
  cbn [lift]. unfold ret. intro Heq. injection Heq as <- <- <- <- <-.
  repeat split; assumption.
Qed.

End Tabs.

(** X11. In a run that reaches the tabs the year chart, when the
    dataset has dates, is always drawn, never replaced by the message
    that there is no valid date: the view has a date in every row, the
    [dropna] before the chart drops nothing, and the counts by year add
    up to the number of rows of the view.  Likewise the altitude chart,
    when the dataset has altitudes, has one point for every row of the
    view. *)
Theorem charts_of_a_run `{Pandas} `{Streamlit} `{SortValues}
    (chart_type : string) (ss ss' : appProyectoFinal.SessionState)
    (v : appProyectoFinal.Vars) (chart : element) (m : map_figure)
    (log log' : list event) :
  appProyectoFinalTabs.script_with_tabs chart_type ss log
  = (Done (ss', v, chart, m), log') ->
  let d := appProyectoFinal.df v in
  let f := appProyectoFinal.filtered_df v in
  chart <> StInfo appProyectoFinalTabs.no_dates_msg /\
  (chart_type = "Serie temporal (año)" ->
   appProyectoFinal.has_fecha d = true ->
   chart = PlotlyChart (Line (appProyectoFinalTabs.df_year f)) /\
   total (appProyectoFinalTabs.df_year f) = List.length (appProyectoFinal.rows f)) /\
  (chart_type = "Altitud por especie" ->
   appProyectoFinal.has_alt d = true ->
   chart = PlotlyChart
             (Box (map (fun r => (appProyectoFinal.Especie r, appProyectoFinal.Altitud r))
                       (appProyectoFinal.rows f)))).
Proof.
  intros Hrun d f.
  destruct (script_with_tabs_done _ _ _ _ _ _ _ _ Hrun) as (Hscript & Hchart & _).
  fold d f in Hchart.
  destruct (script_done _ _ _ _ _ Hscript)
    as (d0 & alts & c & Hload & _ & _ & _ & _ & Hd & Hp & _).
  fold d in Hd. subst d0. fold f in Hp.
  destruct (filter_pipeline_rows _ _ _ _ _ Hp) as [Hcols _].
  assert (Hview := view_facts _ _ _ _ _ Hscript). fold d f in Hview.
  destruct Hview as (Hne & Hdates & Halts).
  assert (Hyear : appProyectoFinal.has_fecha d = true ->
                  total (appProyectoFinalTabs.df_year f)
                  = List.length (appProyectoFinal.rows f))
    by (intro Hf; now apply df_year_total, Hdates).
  assert (Hfecha_col : appProyectoFinal.has_fecha d = true ->
                       mem "Fecha" (appProyectoFinal.columns f) = true).
  { intro Hf. rewrite Hcols. apply mem_In. now apply has_fecha_iff in Hf. }
  assert (Halt_col : appProyectoFinal.has_alt d = true ->
                     mem "Altitud" (appProyectoFinal.columns f) = true).
  { intro Hf. rewrite Hcols. apply mem_In. now apply has_alt_iff in Hf. }
  unfold appProyectoFinalTabs.tab_chart in Hchart.
  split; [|split].
  - destruct (String.eqb chart_type "Conteo por especie").
    { destruct (negb _); [discriminate|]. injection Hchart as <-. discriminate. }
    destruct (String.eqb chart_type "Altitud por especie").
    { destruct (appProyectoFinal.has_alt d).
      - destruct (negb _); [discriminate|]. injection Hchart as <-. discriminate.
      - injection Hchart as <-. discriminate. }
    destruct (String.eqb chart_type "Serie temporal (año)");
      [|injection Hchart as <-; discriminate].
    destruct (appProyectoFinal.has_fecha d) eqn:Hf;
      [|injection Hchart as <-; discriminate].
    destruct (negb _); [discriminate|].
    destruct (appProyectoFinalTabs.df_year f) as [|y ys] eqn:Hy.
    + specialize (Hyear eq_refl). cbn in Hyear.
      destruct (appProyectoFinal.rows f); [contradiction|discriminate].
    + injection Hchart as <-. discriminate.
  - intros -> Hf. specialize (Hyear Hf). split; [|exact Hyear].
    cbn in Hchart. rewrite Hf, (Hfecha_col Hf) in Hchart. cbn [negb] in Hchart.
    destruct (appProyectoFinalTabs.df_year f) as [|y ys] eqn:Hy.
    + cbn in Hyear. destruct (appProyectoFinal.rows f); [contradiction|discriminate].
    + now injection Hchart as <-.
  - intros -> Hf. cbn in Hchart. rewrite Hf, (Halt_col Hf) in Hchart.
    cbn [negb] in Hchart. injection Hchart as <-. do 3 f_equal.
    apply filter_all. intros r Hr.
    destruct (proj1 (Forall_forall _ _) (Halts Hf) r Hr) as (q & ->). reflexivity.
Qed.

Lemma charts_of_a_run_witness :
  exists chart m,
    @appProyectoFinalTabs.script_with_tabs SampleMore.lib_good Sample.streamlit
      SampleSort.sorter
      SampleMore.year_choice SampleMore.used_session []
    = (Done (fst SampleMore.good_run, snd SampleMore.good_run, chart, m),
       calls "conejos.csv" ["utf-8"]) /\
    chart <> StInfo appProyectoFinalTabs.no_dates_msg.
Proof.
  eexists. eexists.
  assert (Hrun : forall chart m,
             @appProyectoFinalTabs.script_with_tabs SampleMore.lib_good
               Sample.streamlit SampleSort.sorter SampleMore.year_choice
               SampleMore.used_session []
             = (Done (fst SampleMore.good_run, snd SampleMore.good_run, chart, m),
                calls "conejos.csv" ["utf-8"]) ->
             chart <> StInfo appProyectoFinalTabs.no_dates_msg).
  { intros chart m Hrun.
    exact (proj1 (@charts_of_a_run SampleMore.lib_good Sample.streamlit
                    SampleSort.sorter
                    _ _ _ _ _ _ _ _ Hrun)). }
  split; [|eapply Hrun]; vm_compute; reflexivity.
Defined.

(** X12. Once a run has passed the two guards its chart and map tabs
    cannot raise: whichever chart is chosen, every column the tabs
    index is in the view. *)
Theorem tabs_never_raise `{Pandas} `{Streamlit} `{SortValues}
    (chart_type : string) (ss ss' : appProyectoFinal.SessionState)
    (v : appProyectoFinal.Vars) (log log' : list event) :
  appProyectoFinal.script ss log = (Done (ss', v), log') ->
  exists chart m,
    appProyectoFinalTabs.script_with_tabs chart_type ss log
    = (Done (ss', v, chart, m), log').
Proof.
  intro Hrun.
  destruct (script_done _ _ _ _ _ Hrun)
    as (d0 & alts & c & Hload & _ & _ & _ & _ & Hd & Hp & _).
  subst d0.
  destruct (filter_pipeline_rows _ _ _ _ _ Hp) as [Hcols _].
  destruct (load_data_done _ _ _ _ Hload) as (Hla & Hlo & He & _).
  rewrite <- Hcols in Hla, Hlo, He.
  assert (Hchart : exists chart,
             appProyectoFinalTabs.tab_chart chart_type
               (appProyectoFinal.has_alt (appProyectoFinal.df v))
               (appProyectoFinal.has_fecha (appProyectoFinal.df v))
               (appProyectoFinal.filtered_df v) = Ok chart).
  { unfold appProyectoFinalTabs.tab_chart. rewrite He. cbn [negb].
    destruct (String.eqb chart_type "Conteo por especie"); [eauto|].
    destruct (String.eqb chart_type "Altitud por especie").
    { destruct (appProyectoFinal.has_alt _) eqn:Hha; [|eauto].
      apply has_alt_iff in Hha as [Hcol _]. apply mem_In in Hcol.
      rewrite Hcols, Hcol. cbn [negb]. eauto. }
    destruct (String.eqb chart_type "Serie temporal (año)"); [|eauto].
    destruct (appProyectoFinal.has_fecha _) eqn:Hhf; [|eauto].
    apply has_fecha_iff in Hhf as [Hcol _]. apply mem_In in Hcol.
    rewrite Hcols, Hcol. cbn [negb].
    destruct (appProyectoFinalTabs.df_year _); eauto. }
  destruct Hchart as [chart Hchart].
  exists chart. eexists.
  unfold appProyectoFinalTabs.script_with_tabs.
  rewrite (bind_done _ _ _ _ _ Hrun). cbn [fst snd]. rewrite Hchart. cbn [lift].
  rewrite (bind_done (ret chart) _ log' chart log') by reflexivity.
  unfold appProyectoFinalTabs.tab_map. cbn zeta. rewrite He, Hla, Hlo. cbn [negb lift].
  rewrite (bind_done (ret _) _ log' _ log') by reflexivity.
  reflexivity.
Qed.

Lemma tabs_never_raise_witness :
  exists chart m,
    @appProyectoFinalTabs.script_with_tabs SampleMore.lib_good Sample.streamlit
      SampleSort.sorter
      "Altitud por especie" SampleMore.used_session []
    = (Done (fst SampleMore.good_run, snd SampleMore.good_run, chart, m),
       calls "conejos.csv" ["utf-8"]).
Proof.
  apply (@tabs_never_raise SampleMore.lib_good Sample.streamlit SampleSort.sorter).
  vm_compute. reflexivity.
Defined.

(** ** The species chart *)

Lemma total_permutation {K} (t t' : list (K * nat)) :
  Permutation t t' -> total t = total t'.
Proof.
  unfold total.
  induction 1 as [|x l l' _ IH|x y l|l l' l'' _ IH1 _ IH2]; cbn [map];
    rewrite ?list_sum_cons.
  - reflexivity.
  - now rewrite IH.
  - lia.
  - congruence.
Qed.

Lemma count_key_In (s : string) (l : list string) :
  1 <= count_key String.eqb s l -> In s l.
Proof.
  unfold count_key. induction l as [|x l IH]; cbn; [lia|].
  destruct (String.eqb s x) eqn:Hsx.
  - apply String.eqb_eq in Hsx. now left.
  - intro Hc. right. now apply IH.
Qed.

Lemma count_key_map {A} (key : A -> string) (s : string) (l : list A) :
  count_key String.eqb s (map key l)
  = List.length (filter (fun r => String.eqb s (key r)) l).
Proof.
  unfold count_key. induction l as [|x l IH]; cbn; [reflexivity|].
  destruct (String.eqb s (key x)); cbn; now rewrite IH.
Qed.

(** The table of the species chart, once sorted. *)
Lemma sorted_counts `{SortValues} {A} (key : A -> string) (l : list A) :
  sorts_descending ->
  let t := sort_values_desc (groupby_size String.eqb String.leb (map key l)) in
  Sorted (fun a b => snd b <= snd a) t /\
  total t = List.length l /\
  NoDup (map fst t) /\
  forall s n,
    In (s, n) t <->
    n = List.length (filter (fun r => String.eqb s (key r)) l) /\ 1 <= n.
Proof.
  intros Hsort t. destruct (Hsort (groupby_size String.eqb String.leb (map key l)))
    as [Hperm Hsorted]. fold t in Hperm, Hsorted.
  split; [exact Hsorted|]. split; [|split].
  - rewrite <- (total_permutation _ _ Hperm).
    rewrite (groupby_size_total String.eqb String.leb String.eqb_eq).
    apply length_map.
  - apply (Permutation_NoDup (Permutation_map fst Hperm)).
    rewrite groupby_size_keys.
    apply NoDup_sort_keys, (NoDup_distinct String.eqb String.eqb_eq).
  - intros s n. split.
    + intro Hin. apply (Permutation_in _ (Permutation_sym Hperm)) in Hin.
      apply (groupby_size_line String.eqb String.leb String.eqb_eq) in Hin
        as [Hs ->].
      split; [apply count_key_map|].
      now apply (count_key_pos String.eqb String.eqb_eq).
    + intros [-> Hpos]. apply (Permutation_in _ Hperm).
      apply (groupby_size_line String.eqb String.leb String.eqb_eq).
      rewrite <- count_key_map in *. split; [|reflexivity].
      now apply count_key_In.
Qed.

(** X13. The species chart, in both scripts: one bar for each species
    of the frame it is drawn from, no species twice, bars from the
    highest down, each as high as the number of rows of its species,
    and the heights add up to the number of rows. *)
Theorem species_chart_counts `{SortValues} :
  sorts_descending ->
  (forall (ha hf : bool) (f : appProyectoFinal.DataFrame),
      mem "Especie" (appProyectoFinal.columns f) = true ->
      exists t,
        appProyectoFinalTabs.tab_chart "Conteo por especie" ha hf f
        = Ok (PlotlyChart (Bar t)) /\
        Sorted (fun a b => snd b <= snd a) t /\
        total t = List.length (appProyectoFinal.rows f) /\
        NoDup (map fst t) /\
        forall s n,
          In (s, n) t <->
          n = List.length (filter (fun r => String.eqb s (appProyectoFinal.Especie r))
                                  (appProyectoFinal.rows f)) /\
          1 <= n) /\
  (forall d : app.DataFrame,
      mem "Especie" (app.columns d) = true ->
      exists t,
        appTabs.tab_chart d = Ok (Bar t) /\
        Sorted (fun a b => snd b <= snd a) t /\
        total t = List.length (app.rows d) /\
        NoDup (map fst t) /\
        forall s n,
          In (s, n) t <->
          n = List.length (filter (fun r => String.eqb s (app.Especie r)) (app.rows d)) /\
          1 <= n).
Proof.
  intro Hsort. split.
  - intros ha hf f Hcol. eexists. split.
    + unfold appProyectoFinalTabs.tab_chart. cbn [String.eqb Ascii.eqb Bool.eqb].
      rewrite Hcol. reflexivity.
    + apply (sorted_counts appProyectoFinal.Especie (appProyectoFinal.rows f) Hsort).
  - intros d Hcol. eexists. split.
    + unfold appTabs.tab_chart. rewrite Hcol. reflexivity.
    + apply (sorted_counts app.Especie (app.rows d) Hsort).
Qed.

(** The stand-in for [sort_values] sorts. *)
Lemma insert_desc_permutation x l :
  Permutation (x :: l) (SampleSort.insert_desc x l).
Proof.
  induction l as [|y l IHl]; cbn [SampleSort.insert_desc]; [reflexivity|].
  destruct (snd y <? snd x)%nat; [reflexivity|].
  rewrite perm_swap. now constructor.
Qed.

Lemma insert_desc_sorted x l :
  Sorted (fun a b : string * nat => snd b <= snd a) l ->
  Sorted (fun a b : string * nat => snd b <= snd a) (SampleSort.insert_desc x l).
Proof.
  induction 1 as [|y l Hl IHl Hhd]; cbn [SampleSort.insert_desc].
  - repeat constructor.
  - destruct (snd y <? snd x)%nat eqn:Hyx.
    + constructor; [now constructor|]. constructor.
      apply Nat.ltb_lt in Hyx. lia.
    + apply Nat.ltb_ge in Hyx. constructor; [exact IHl|].
      destruct l as [|z l]; cbn [SampleSort.insert_desc]; [now constructor|].
      destruct (snd z <? snd x)%nat; constructor; [assumption|].
      now inversion Hhd.
Qed.

Lemma sample_sort_descending : @sorts_descending SampleSort.sorter.
Proof.
  intro t. cbn [sort_values_desc SampleSort.sorter]. unfold SampleSort.sort.
  induction t as [|x t [IHp IHs]]; [split; constructor|].
  cbn [fold_right]. split.
  - rewrite <- insert_desc_permutation. now constructor.
  - now apply insert_desc_sorted.
Qed.

Lemma species_chart_counts_witness :
  exists t,
    @appProyectoFinalTabs.tab_chart SampleSort.sorter "Conteo por especie" true true
      SampleData.dataset = Ok (PlotlyChart (Bar t)) /\
    total t = 3.
Proof.
  destruct (proj1 (@species_chart_counts SampleSort.sorter sample_sort_descending)
              true true SampleData.dataset eq_refl)
    as (t & Ht & _ & Htotal & _).
  exists t. split; [exact Ht|exact Htotal].
Defined.

(** ** The colours of the map *)

Section Colours.
Variable palette : list string.
Hypothesis palette_not_empty : palette <> [].

Lemma colour_at_In (i : nat) : In (colour_at palette i) palette.
Proof.
  unfold colour_at. apply nth_In. apply Nat.mod_upper_bound.
  destruct palette; [contradiction|discriminate].
Qed.

Lemma dict_get_items (us : list string) : forall k i,
  NoDup us -> i < List.length us ->
  dict_get (nth i us "")
    (map (fun p => (snd p, colour_at palette (fst p)))
         (combine (seq k (List.length us)) us))
  = Some (colour_at palette (k + i)).
Proof.
  induction us as [|u us IH]; intros k i Hnd Hi; [cbn in Hi; lia|].
  inversion Hnd as [|? ? Hu Hus]; subst.
  cbn [List.length seq combine map dict_get fst snd].
  destruct i as [|i].
  - cbn [nth]. rewrite String.eqb_refl. now rewrite Nat.add_0_r.
  - cbn [nth]. cbn in Hi.
    destruct (String.eqb (nth i us "") u) eqn:Heq.
    + apply String.eqb_eq in Heq. exfalso. apply Hu. rewrite <- Heq.
      apply nth_In. lia.
    + rewrite IH by (assumption || lia). f_equal. f_equal. lia.
Qed.

Lemma color_map_at (us : list string) (i : nat) :
  NoDup us -> i < List.length us ->
  dict_get (nth i us "") (color_map palette us) = Some (colour_at palette i).
Proof.
  intros Hnd Hi. unfold color_map.
  exact (dict_get_items us 0 i Hnd Hi).
Qed.

Lemma dict_get_key (us : list string) (s c : string) :
  NoDup us ->
  dict_get s (color_map palette us) = Some c ->
  exists i, i < List.length us /\ s = nth i us "" /\ c = colour_at palette i.
Proof.
  intros Hnd Hget.
  assert (Hin : In s us).
  { unfold color_map in Hget. revert Hget. generalize 0.
    induction us as [|u us IH]; intros k Hget; [discriminate|].
    cbn [List.length seq combine map dict_get fst snd] in Hget.
    destruct (String.eqb s u) eqn:Heq.
    - apply String.eqb_eq in Heq. now left.
    - right. inversion Hnd; subst. now apply (IH ltac:(assumption) (S k)). }
  destruct (In_nth us s "" Hin) as (i & Hi & Hnth).
  exists i. split; [assumption|]. split; [now symmetry|].
  rewrite <- Hnth, (color_map_at us i Hnd Hi) in Hget. now injection Hget.
Qed.

Lemma color_map_facts (us : list string) :
  NoDup us ->
  (forall s, In s us ->
             exists c, dict_get s (color_map palette us) = Some c /\ In c palette) /\
  (NoDup palette -> List.length us <= List.length palette ->
   forall s1 s2 c,
     dict_get s1 (color_map palette us) = Some c ->
     dict_get s2 (color_map palette us) = Some c -> s1 = s2) /\
  (forall i, i + List.length palette < List.length us ->
             dict_get (nth i us "") (color_map palette us)
             = dict_get (nth (i + List.length palette) us "") (color_map palette us)).
Proof.
  intro Hnd. split; [|split].
  - intros s Hin. destruct (In_nth us s "" Hin) as (i & Hi & <-).
    exists (colour_at palette i). split; [now apply color_map_at|apply colour_at_In].
  - intros Hpal Hlen s1 s2 c H1 H2.
    destruct (dict_get_key us s1 c Hnd H1) as (i & Hi & -> & Hc1).
    destruct (dict_get_key us s2 c Hnd H2) as (j & Hj & -> & Hc2).
    unfold colour_at in Hc1, Hc2.
    rewrite Nat.mod_small in Hc1, Hc2 by lia.
    f_equal. apply (proj1 (NoDup_nth palette "") Hpal); [lia|lia|congruence].
  - intros i Hi. rewrite !color_map_at by (assumption || lia).
    unfold colour_at. f_equal. f_equal.
    rewrite <- (Nat.mul_1_l (List.length palette)) at 2.
    rewrite Nat.Div0.mod_add. reflexivity.
Qed.

End Colours.

(** X14. The colours of the map, in both scripts: every species of the
    frame gets a colour of the palette; as long as the frame has no
    more species than the palette has colours (six in the final
    script, three in [app.py]) no two species share a colour; beyond
    that, the species in position [i + len(palette)] of the legend has
    the colour of the species in position [i]. *)
Theorem map_colours :
  (forall map_df : appProyectoFinal.DataFrame,
      let us := appProyectoFinalTabs.unique_species map_df in
      let m := appProyectoFinalTabs.species_color_map map_df in
      (forall r, In r (appProyectoFinal.rows map_df) ->
                 exists c, dict_get (appProyectoFinal.Especie r) m = Some c /\
                           In c appProyectoFinalTabs.palette) /\
      (List.length us <= 6 ->
       forall s1 s2 c, dict_get s1 m = Some c -> dict_get s2 m = Some c -> s1 = s2) /\
      (forall i, i + 6 < List.length us ->
                 dict_get (nth i us "") m = dict_get (nth (i + 6) us "") m)) /\
  (forall map_df : app.DataFrame,
      let us := appTabs.unique_species map_df in
      let m := appTabs.species_color_map map_df in
      (forall r, In r (app.rows map_df) ->
                 exists c, dict_get (app.Especie r) m = Some c /\
                           In c appTabs.palette) /\
      (List.length us <= 3 ->
       forall s1 s2 c, dict_get s1 m = Some c -> dict_get s2 m = Some c -> s1 = s2) /\
      (forall i, i + 3 < List.length us ->
                 dict_get (nth i us "") m = dict_get (nth (i + 3) us "") m)).
Proof.
  split.
  - intros map_df us m.
    assert (Hnd : NoDup us) by apply (NoDup_distinct String.eqb String.eqb_eq).
    destruct (color_map_facts appProyectoFinalTabs.palette ltac:(discriminate) us Hnd)
      as (Hall & Hinj & Hwrap).
    split; [|split].
    + intros r Hr. apply Hall.
      apply (In_distinct String.eqb String.eqb_eq). now apply in_map.
    + intro Hlen. apply Hinj; [|exact Hlen].
      repeat constructor; cbn; intuition discriminate.
    + exact Hwrap.
  - intros map_df us m.
    assert (Hnd : NoDup us) by apply (NoDup_distinct String.eqb String.eqb_eq).
    destruct (color_map_facts appTabs.palette ltac:(discriminate) us Hnd)
      as (Hall & Hinj & Hwrap).
    split; [|split].
    + intros r Hr. apply Hall.
      apply (In_distinct String.eqb String.eqb_eq). now apply in_map.
    + intro Hlen. apply Hinj; [|exact Hlen].
      repeat constructor; cbn; intuition discriminate.
    + exact Hwrap.
Qed.

Lemma map_colours_witness :
  Forall (fun r =>
            exists c,
              dict_get (appProyectoFinal.Especie r)
                       (appProyectoFinalTabs.species_color_map SampleMore.good_dataset)
              = Some c /\
              In c appProyectoFinalTabs.palette)
         (appProyectoFinal.rows SampleMore.good_dataset).
Proof.
  apply Forall_forall. intros r Hin.
  destruct map_colours as [Hfinal _].
  exact (proj1 (Hfinal SampleMore.good_dataset) r Hin).
Defined.

(** ** The filters together *)

Lemma select_twice (p : appProyectoFinal.Row -> bool) (d : appProyectoFinal.DataFrame) :
  appProyectoFinal.select p (appProyectoFinal.select p d) = appProyectoFinal.select p d.
Proof.
  rewrite select_select. unfold appProyectoFinal.select. f_equal.
  apply filter_ext. intro r. now destruct (p r).
Qed.

(** X15. Filtering a view again with the criteria that gave it changes
    nothing, and the view is what the four steps have in common: a row
    is in it exactly when each step, run alone on the dataset, keeps
    it. *)
Theorem filter_pipeline_idempotent `{Pandas}
    (hf ha : bool) (c : appProyectoFinal.Criteria)
    (d v : appProyectoFinal.DataFrame) :
  appProyectoFinal.filter_pipeline hf ha c d = Ok v ->
  appProyectoFinal.filter_pipeline hf ha c v = Ok v /\
  forall r,
    In r (appProyectoFinal.rows v) <->
    In r (appProyectoFinal.rows (appProyectoFinal.species_step c d)) /\
    (exists l, appProyectoFinal.lugar_step c d = Ok l /\
               In r (appProyectoFinal.rows l)) /\
    In r (appProyectoFinal.rows (appProyectoFinal.fecha_step hf c d)) /\
    In r (appProyectoFinal.rows (appProyectoFinal.alt_step ha c d)).
Proof.
  intro Hp. pose proof (filter_pipeline_ok _ _ _ _ _ Hp) as Hruns.
  rewrite (filter_pipeline_select hf ha c d Hruns) in Hp. injection Hp as <-.
  split.
  - rewrite filter_pipeline_select by exact Hruns. now rewrite select_twice.
  - intro r. rewrite species_step_select, fecha_step_select, alt_step_select.
    rewrite (lugar_step_select c d Hruns).
    cbn [appProyectoFinal.select appProyectoFinal.rows].
    rewrite !filter_In, all_ok_parts. split.
    + intros (Hin & Hs & Hl & Hf & Ha).
      repeat split; try assumption.
      eexists. split; [reflexivity|]. cbn. now apply filter_In.
    + intros ((Hin & Hs) & (l & Hl & Hinl) & (_ & Hf) & (_ & Ha)).
      injection Hl as <-. cbn in Hinl. apply filter_In in Hinl as [_ Hl].
      tauto.
Qed.

Lemma filter_pipeline_idempotent_witness :
  @appProyectoFinal.filter_pipeline SampleData.lib true true SampleData.narrow
    SampleData.narrow_view = Ok SampleData.narrow_view.
Proof.
  refine (proj1 (@filter_pipeline_idempotent SampleData.lib true true
                   SampleData.narrow SampleData.dataset SampleData.narrow_view _)).
  vm_compute. reflexivity.
Defined.

(** ** ASCII files *)

Lemma decode_utf8_ascii (bs : list byte) :
  Forall ascii_byte bs -> decode_utf8 bs = Some (map Byte.to_N bs).
Proof.
  unfold decode_utf8. induction 1 as [|b bs Hb _ IH]; [reflexivity|].
  cbn [utf8_go map]. unfold utf8_lead.
  unfold ascii_byte in Hb. apply N.ltb_lt in Hb. rewrite Hb. now rewrite IH.
Qed.

Lemma decode_cp1252_ascii (bs : list byte) :
  Forall ascii_byte bs -> decode_cp1252 bs = Some (map Byte.to_N bs).
Proof.
  induction 1 as [|b bs Hb _ IH]; [reflexivity|].
  cbn [decode_cp1252 map]. unfold cp1252_char.
  unfold ascii_byte in Hb. apply N.ltb_lt in Hb. rewrite Hb. now rewrite IH.
Qed.

(** X16. A file of ASCII bytes only is read at the first attempt: the
    three codecs decode it to the same text and [load_data], in both
    scripts, calls [read_csv] once, with utf-8. *)
Theorem ascii_file_read_as_utf8 `{Pandas}
    (fs : string -> option (list byte)) (path : string) (bs : list byte)
    (log : list event) :
  reads_through_codecs fs ->
  fs path = Some bs ->
  Forall ascii_byte bs ->
  decode Utf8 bs = decode Latin1 bs /\
  decode Cp1252 bs = decode Latin1 bs /\
  snd (appProyectoFinal.load_data path log) = log ++ calls path ["utf-8"] /\
  snd (app.load_data path log) = log ++ calls path ["utf-8"].
Proof.
  intros Hfs Hfile Hascii.
  split; [exact (decode_utf8_ascii bs Hascii)|].
  split; [exact (decode_cp1252_ascii bs Hascii)|].
  assert (Hutf : ~ undecodable path "utf-8").
  { intro Hun. destruct (Hfs _ _ Hun) as (bs' & c & Hbs & Hc & Hdec).
    rewrite Hfile in Hbs. injection Hbs as <-. cbn in Hc. injection Hc as <-.
    cbn in Hdec. rewrite (decode_utf8_ascii bs Hascii) in Hdec. discriminate. }
  assert (Hany : forall F msg (clean : RawFrame -> res F),
             snd (loader msg clean path log) = log ++ calls path ["utf-8"]).
  { intros F msg clean.
    destruct (read_csv path "utf-8") as [raw|e] eqn:Hread.
    - rewrite (loader_break msg clean path log [] "utf-8" ["latin1"; "cp1252"] raw
                 eq_refl (Forall_nil _) Hread).
      apply lift_log.
    - rewrite (loader_raise msg clean path log [] "utf-8" ["latin1"; "cp1252"] e
                 eq_refl (Forall_nil _) Hread); [reflexivity|].
      intros ->. now apply Hutf. }
  rewrite final_load_data_loader, app_load_data_loader. split; apply Hany.
Qed.

Lemma ascii_file_read_as_utf8_witness :
  snd (@appProyectoFinal.load_data SampleMore.lib_ascii "conejos.csv" [])
  = calls "conejos.csv" ["utf-8"].
Proof.
  refine (proj1 (proj2 (proj2 (@ascii_file_read_as_utf8 SampleMore.lib_ascii
                                 SampleMore.ascii_files "conejos.csv"
                                 [x45; x73; x70; x0a] [] _ _ _)))).
  - apply reader_of_through_codecs. discriminate.
  - reflexivity.
  - repeat constructor.
Defined.

(** ** No row with coordinates *)

Lemma filter_none {A} (p : A -> bool) (l : list A) :
  (forall x, In x l -> p x = false) <-> filter p l = [].
Proof.
  induction l as [|x l IH]; cbn.
  - split; [reflexivity|]. intros _ y [].
  - split.
    + intro Hall. rewrite (Hall x (or_introl eq_refl)). apply IH.
      intros y Hy. apply Hall. now right.
    + destruct (p x) eqn:Hx; [discriminate|]. intros Hnil y [<- | Hy];
        [assumption|]. now apply (proj2 IH).
Qed.

(** X17. The first guard of the final script: with the file read and
    its three columns in the header, the run stops on the warning that
    no record has valid coordinates exactly when no row of the file has
    both coordinates present and numeric; nothing is computed or shown
    after the warning. *)
Theorem no_valid_row_stops `{Pandas} `{Streamlit}
    (ss : appProyectoFinal.SessionState) (log : list event)
    (pre post : list string) (enc : string) (raw : RawFrame) :
  encodings = pre ++ enc :: post ->
  Forall (undecodable "conejos.csv") pre ->
  read_csv "conejos.csv" enc = Ok raw ->
  required_columns raw = true ->
  ((forall r, In r (raw_rows raw) -> valid_source_row r = false) <->
   appProyectoFinal.script ss log
   = (Stopped,
      log ++ calls "conejos.csv" (pre ++ [enc])
          ++ [StWarning appProyectoFinal.no_coordinates_msg])).
Proof.
  intros Hsplit Hpre Hok Hreq.
  assert (Hload : appProyectoFinal.load_data "conejos.csv" log
                  = (Done {| appProyectoFinal.columns := map strip (raw_columns raw);
                             appProyectoFinal.rows :=
                               map (appProyectoFinal.coerce (map strip (raw_columns raw))
                                      (map raw_Fecha (raw_rows raw)))
                                   (filter valid_source_row (raw_rows raw)) |},
                     log ++ calls "conejos.csv" (pre ++ [enc]))).
  { rewrite final_load_data_loader.
    rewrite (loader_break _ _ _ log pre enc post raw Hsplit Hpre Hok).
    now rewrite (clean_rows raw Hreq). }
  unfold appProyectoFinal.script. rewrite (bind_done _ _ _ _ _ Hload).
  rewrite filter_none. split.
  - intro Hnil. rewrite Hnil. cbn. now rewrite <- app_assoc.
  - destruct (filter valid_source_row (raw_rows raw)) as [|r rs] eqn:Hrows;
      [reflexivity|].
    assert (Hne : appProyectoFinal.empty
                    {| appProyectoFinal.columns := map strip (raw_columns raw);
                       appProyectoFinal.rows :=
                         map (appProyectoFinal.coerce (map strip (raw_columns raw))
                                (map raw_Fecha (raw_rows raw))) (r :: rs) |} = false).
    { unfold appProyectoFinal.empty. cbn.
      unfold required_columns in Hreq. cbn zeta in Hreq.
      destruct (map strip (raw_columns raw)); [discriminate|reflexivity]. }
    rewrite Hne. intro Hstop. exfalso.
    set (d := {| appProyectoFinal.columns := _; appProyectoFinal.rows := _ |}) in *.
    set (log1 := log ++ calls "conejos.csv" (pre ++ [enc])) in *.
    unfold bind at 1 in Hstop.
    destruct (appProyectoFinal.alt_bounds d) as [alts|e]; cbn [lift] in Hstop;
      [|discriminate].
    unfold ret at 1 in Hstop. unfold bind at 1 in Hstop.
    destruct (appProyectoFinal.read_widgets d _) as [c|e]; cbn [lift] in Hstop;
      [|discriminate].
    unfold ret at 1 in Hstop. unfold bind at 1 in Hstop.
    unfold appProyectoFinal.filter_and_guard in Hstop. unfold bind at 1 in Hstop.
    destruct (appProyectoFinal.filter_stage _ _ c _) as [v|e]; cbn [lift] in Hstop;
      [|discriminate].
    unfold ret at 1 in Hstop. unfold appProyectoFinal.empty_guard in Hstop.
    destruct (appProyectoFinal.empty (appProyectoFinal.filtered_df v)).
    + cbn in Hstop. injection Hstop as Hlog. subst log1.
      rewrite <- app_assoc in Hlog.
      apply app_inv_head in Hlog. apply app_inv_head in Hlog. discriminate.
    + discriminate.
Qed.

Lemma no_valid_row_stops_witness :
  @appProyectoFinal.script SampleMore.lib_lost Sample.streamlit no_session []
  = (Stopped,
     calls "conejos.csv" ["utf-8"] ++ [StWarning appProyectoFinal.no_coordinates_msg]).
Proof.
  refine (proj1 (@no_valid_row_stops SampleMore.lib_lost Sample.streamlit
                   no_session []
                   [] ["latin1"; "cp1252"] "utf-8" SampleMore.lost_frame
                   eq_refl (Forall_nil _) eq_refl eq_refl) _).
  intros r [<- | [<- | []]]; reflexivity.
Defined.

(** ** [load_data] and the tabs of [app.py] *)

Section AppLoader.
Context `{Pandas}.

Lemma traverse_ok {A B} (f : A -> res B) (l : list A) (ys : list B) :
  app.traverse f l = Ok ys -> Forall2 (fun x y => f x = Ok y) l ys.
Proof.
  revert ys. induction l as [|x l IH]; intros ys Hok; cbn in Hok.
  - injection Hok as <-. constructor.
  - destruct (f x) as [y|e] eqn:Hx; [|discriminate]. cbn in Hok.
    destruct (app.traverse f l) as [ys'|e]; [|discriminate]. cbn in Hok.
    injection Hok as <-. constructor; [assumption|now apply IH].
Qed.

Lemma app_rows_built (kept : list RawRow) : forall lats lons,
  Forall2 (fun c y => astype_float c = Ok y) (map raw_Latitud kept) lats ->
  Forall2 (fun c y => astype_float c = Ok y) (map raw_Longitud kept) lons ->
  Forall2 app_row_of kept
    (map (fun p => app.build (fst p) (snd p)) (combine kept (combine lats lons))).
Proof.
  induction kept as [|r kept IH]; intros lats lons Hla Hlo.
  - constructor.
  - inversion Hla as [|? la ? lats' Hr1 Hla']; subst.
    inversion Hlo as [|? lo ? lons' Hr2 Hlo']; subst.
    cbn. constructor; [|now apply IH].
    unfold app_row_of. cbn. repeat split; assumption.
Qed.

(** What [clean] of [app.py] returns when it returns. *)
Lemma app_clean_ok raw d :
  app.clean raw = Ok d ->
  mem "Latitud" (raw_columns raw) = true /\
  mem "Longitud" (raw_columns raw) = true /\
  mem "Especie" (raw_columns raw) = true /\
  app.columns d = raw_columns raw /\
  Forall2 app_row_of (filter app.has_coordinates (raw_rows raw)) (app.rows d).
Proof.
  unfold app.clean. cbn zeta.
  destruct (mem "Latitud" (raw_columns raw)); [|discriminate].
  destruct (mem "Longitud" (raw_columns raw)); [|discriminate].
  cbn [negb].
  destruct (app.traverse astype_float (map raw_Latitud _)) as [lats|e] eqn:Hla;
    [|discriminate].
  destruct (app.traverse astype_float (map raw_Longitud _)) as [lons|e] eqn:Hlo;
    [|discriminate].
  cbn [rbind].
  destruct (mem "Especie" (raw_columns raw)); [|discriminate].
  cbn [negb]. intro Heq. injection Heq as <-. cbn [app.columns app.rows].
  repeat split.
  apply app_rows_built; now apply traverse_ok.
Qed.

End AppLoader.

Lemma app_load_data_dataset_facts `{Pandas} path log d log' :
  app.load_data path log = (Done d, log') ->
  mem "Latitud" (app.columns d) = true /\
  mem "Longitud" (app.columns d) = true /\
  mem "Especie" (app.columns d) = true.
Proof.
  rewrite app_load_data_loader. intro Hload.
  apply loader_done in Hload as (_ & _ & _ & raw & _ & _ & _ & Hclean & _).
  destruct (app_clean_ok raw d Hclean) as (Hla & Hlo & He & Hcols & _).
  now rewrite Hcols.
Qed.

Section TwoLoaders.
Context `{Pandas}.







End TwoLoaders.



(** X19. The run of [app.py]: when no row of the file has both
    coordinates it stops on its warning, whatever else the cells hold,
    and when [load_data] returns a dataset with a row the chart and
    the map are drawn without an exception. *)
Theorem app_script_runs `{Pandas} `{SortValues} (log : list event) :
  (forall pre enc post raw,
      encodings = pre ++ enc :: post ->
      Forall (undecodable "conejos.csv") pre ->
      read_csv "conejos.csv" enc = Ok raw ->
      mem "Latitud" (raw_columns raw) = true ->
      mem "Longitud" (raw_columns raw) = true ->
      mem "Especie" (raw_columns raw) = true ->
      (forall r, In r (raw_rows raw) -> app.has_coordinates r = false) ->
      appTabs.script log
      = (Stopped,
         log ++ calls "conejos.csv" (pre ++ [enc])
             ++ [StWarning appTabs.no_coordinates_msg])) /\
  (forall d log',
      app.load_data "conejos.csv" log = (Done d, log') ->
      app.rows d <> [] ->
      exists fig_bar fig_map,
        appTabs.script log = (Done (d, fig_bar, fig_map), log')).
Proof.
  split.
  - intros pre enc post raw Hsplit Hpre Hok Hla Hlo He Hnone.
    apply filter_none in Hnone.
    assert (Hload : app.load_data "conejos.csv" log
                    = (Done {| app.columns := raw_columns raw; app.rows := [] |},
                       log ++ calls "conejos.csv" (pre ++ [enc]))).
    { rewrite app_load_data_loader.
      rewrite (loader_break _ _ _ log pre enc post raw Hsplit Hpre Hok).
      unfold app.clean. cbn zeta. rewrite Hla, Hlo, He, Hnone. reflexivity. }
    unfold appTabs.script. rewrite (bind_done _ _ _ _ _ Hload).
    cbn. now rewrite <- app_assoc.
  - intros d log' Hload Hrows.
    destruct (app_load_data_dataset_facts _ _ _ _ Hload) as (Hla & Hlo & He).
    unfold appTabs.script. rewrite (bind_done _ _ _ _ _ Hload).
    assert (Hne : appTabs.empty d = false).
    { unfold appTabs.empty. destruct (app.rows d); [contradiction|].
      destruct (app.columns d); [discriminate|reflexivity]. }
    rewrite Hne. unfold appTabs.tab_chart. rewrite He. cbn [negb lift].
    rewrite (bind_done (ret _) _ log' _ log') by reflexivity.
    unfold appTabs.tab_map. cbn zeta. rewrite He, Hla, Hlo. cbn [negb lift].
    rewrite (bind_done (ret _) _ log' _ log') by reflexivity.
    eexists. eexists. reflexivity.
Qed.

Lemma app_script_runs_witness :
  exists fig_bar fig_map,
    @appTabs.script SampleMore.lib_good SampleSort.sorter []
    = (Done (SampleMore.app_good, fig_bar, fig_map), calls "conejos.csv" ["utf-8"]).
Proof.
  destruct (@app_script_runs SampleMore.lib_good SampleSort.sorter []) as [_ Hrun].
  apply Hrun.
  - vm_compute. reflexivity.
  - vm_compute. discriminate.
Defined.

(** ** When a run raises *)

Section Raising.
Context `{Pandas} `{Streamlit}.
Import appProyectoFinal.






End Raising.

Section RunRaises.
Context `{Pandas} `{Streamlit}.
Import appProyectoFinal.




End RunRaises.



(** ** [dt.year] against the calendar *)

Lemma forallb_seq (f : nat -> bool) (n k : nat) :
  forallb f (seq 0 n) = true -> (k < n)%nat -> f k = true.
Proof.
  intros Hall Hk. rewrite forallb_forall in Hall. apply Hall, in_seq. lia.
Qed.

Lemma years_ok_spec (first : Z) (n : nat) (y k : Z) :
  years_ok first n = true ->
  (first <= y < first + Z.of_nat n)%Z -> (0 <= k < year_length y)%Z ->
  year_of_days (first_day y + k) = y.
Proof.
  intros Hall Hy Hk. unfold years_ok in Hall.
  assert (Hlt : (Z.to_nat (y - first) < n)%nat) by lia.
  pose proof (forallb_seq _ _ _ Hall Hlt) as Hc. cbv beta zeta in Hc.
  replace (first + Z.of_nat (Z.to_nat (y - first)))%Z with y in Hc by lia.
  assert (Hlt' : (Z.to_nat k < Z.to_nat (year_length y))%nat) by lia.
  pose proof (forallb_seq _ _ _ Hc Hlt') as Hd. cbv beta in Hd.
  rewrite Z2Nat.id in Hd by lia. now apply Z.eqb_eq.
Qed.

(** The hundred years from the epoch on. *)
Lemma years_checked : years_ok 1970 100 = true.
Proof. vm_compute. reflexivity. Qed.

(** [year_of_days] gives the calendar year of every day of the years
    1970 to 2069. *)
Lemma year_of_days_calendar (y k : Z) :
  (1970 <= y <= 2069)%Z -> (0 <= k < year_length y)%Z ->
  year_of_days (first_day y + k) = y.
Proof.
  intros Hy. apply (years_ok_spec 1970 100 y k years_checked).
  change (Z.of_nat 100) with 100%Z. lia.
Qed.

(** X21. The year chart counts each dated row of the view under the
    calendar year of its date: a row whose date is a day of year [y]
    (from the first of January, for 365 days or 366 in a leap year;
    [y] from 1970 to 2069) gives the chart a line for [y] that counts
    at least one record. *)
Theorem dated_row_in_year_chart
    (f : appProyectoFinal.DataFrame) (r : appProyectoFinal.Row)
    (ns y : Z) :
  In r (appProyectoFinal.rows f) ->
  appProyectoFinal.Fecha r = Ts ns ->
  (1970 <= y <= 2069)%Z ->
  (first_day y <= days_of_ns ns < first_day y + year_length y)%Z ->
  exists n, 1 <= n /\ In (y, n) (appProyectoFinalTabs.df_year f).
Proof.
  intros Hin Hdate Hy Hday.
  assert (Hyear : dt_year ns = y).
  { unfold dt_year.
    replace (days_of_ns ns) with (first_day y + (days_of_ns ns - first_day y))%Z
      by lia.
    apply year_of_days_calendar; lia. }
  unfold appProyectoFinalTabs.df_year. cbv zeta.
  set (years := flat_map _ _).
  assert (Hy_in : In y years).
  { subst years. apply in_flat_map. exists r. split.
    - apply filter_In. split; [assumption|]. now rewrite Hdate.
    - rewrite Hdate, Hyear. now left. }
  exists (count_key Z.eqb y years). split.
  - apply (count_key_pos Z.eqb Z.eqb_eq); assumption.
  - apply (groupby_size_line Z.eqb Z.leb Z.eqb_eq). now split.
Qed.

Lemma dated_row_in_year_chart_witness :
  exists n, 1 <= n /\
            In (2020%Z, n) (appProyectoFinalTabs.df_year SampleMore.good_dataset).
Proof.
  eapply (dated_row_in_year_chart SampleMore.good_dataset _
            1600000000000000000 2020).
  - vm_compute. right. left. reflexivity.
  - reflexivity.
  - lia.
  - vm_compute. split; [discriminate|reflexivity].
Defined.
